(** * babel-plugin-jest-easy-mock: a shallow embedding of the plugin

    The plugin rewrites [jest.mockObj(...)] / [jest.mockFn(...)] call sites
    into [jest.mock(path, factory)] statements.  This development embeds

    - [src/index.ts] (fixed identifiers) in [Module Index]: the visitors,
      [createMockDefinition], the aggregation of [post] and
      [createModuleMockImpl];
    - the configurable evolution of the same file (dotted identifier names,
      [remove] flag, [mockName] tagging) in [Module Configurable]: the
      classifier, [getNameOfExpression], [createMockDefinition], the
      [CallExpression] visitor, the aggregation of [post] and
      [createModuleMockImpl] up to what it hands to the host's template
      function.

    Syntax trees are the host toolkit's ([@babel/types]); only the node kinds
    the plugin inspects or builds are kept, every other expression is an
    opaque leaf. *)

From Stdlib Require Import String List Bool Arith Lia.
From stdpp Require Import base strings list gmap.

Import ListNotations.
Open Scope string_scope.
Open Scope list_scope.

Set Warnings "-register-all".

(** ** Syntax trees *)

Inductive ImportSpecifierNode : Type :=
| ImportDefaultSpecifier (local : string)
| ImportNamespaceSpecifier (local : string)
| ImportSpecifier (local imported : string).

(** One type for all nodes, as in [t.Node].  [NullNode] is the content of a
    single-child slot after [path.remove()]; [OtherExpression] stands for any
    expression kind the plugin never looks into (numbers, templates, ...). *)
Inductive Node : Type :=
| Identifier (name : string)
| StringLiteral (value : string)
| BooleanLiteral (value : bool)
| OtherExpression (tag : nat)
| MemberExpression (object property : Node) (computed : bool)
| CallExpression (callee : Node) (arguments : list Node)
| ObjectExpression (properties : list Node)
| ObjectProperty (key value : Node)
| SpreadElement (argument : Node)
| ArrowFunctionExpression (body : Node)
| BlockStatement (body : list Node)
| ExpressionStatement (expression : Node)
| VariableDeclaration (kind id : string) (init : Node)
| ReturnStatement (argument : Node)
| FunctionDeclaration (id : string) (body : Node)
| ImportDeclaration (specifiers : list ImportSpecifierNode) (source : string)
| NullNode.

(** Induction on nodes that reaches into the child lists. *)
Section NodeInduction.
Variable P : Node -> Prop.
Hypothesis HIdentifier : forall name, P (Identifier name).
Hypothesis HStringLiteral : forall value, P (StringLiteral value).
Hypothesis HBooleanLiteral : forall value, P (BooleanLiteral value).
Hypothesis HOtherExpression : forall tag, P (OtherExpression tag).
Hypothesis HMemberExpression : forall object property computed,
  P object -> P property -> P (MemberExpression object property computed).
Hypothesis HCallExpression : forall callee args,
  P callee -> Forall P args -> P (CallExpression callee args).
Hypothesis HObjectExpression : forall properties,
  Forall P properties -> P (ObjectExpression properties).
Hypothesis HObjectProperty : forall key value,
  P key -> P value -> P (ObjectProperty key value).
Hypothesis HSpreadElement : forall argument,
  P argument -> P (SpreadElement argument).
Hypothesis HArrowFunctionExpression : forall body,
  P body -> P (ArrowFunctionExpression body).
Hypothesis HBlockStatement : forall body,
  Forall P body -> P (BlockStatement body).
Hypothesis HExpressionStatement : forall expression,
  P expression -> P (ExpressionStatement expression).
Hypothesis HVariableDeclaration : forall kind id init,
  P init -> P (VariableDeclaration kind id init).
Hypothesis HReturnStatement : forall argument,
  P argument -> P (ReturnStatement argument).
Hypothesis HFunctionDeclaration : forall id body,
  P body -> P (FunctionDeclaration id body).
Hypothesis HImportDeclaration : forall specifiers source,
  P (ImportDeclaration specifiers source).
Hypothesis HNullNode : P NullNode.

Fixpoint Node_nested_ind (n : Node) : P n :=
  let all :=
    fix all (l : list Node) : Forall P l :=
      match l with
      | [] => List.Forall_nil P
      | x :: l' => List.Forall_cons P x l' (Node_nested_ind x) (all l')
      end in
  match n with
  | Identifier name => HIdentifier name
  | StringLiteral value => HStringLiteral value
  | BooleanLiteral value => HBooleanLiteral value
  | OtherExpression tag => HOtherExpression tag
  | MemberExpression object property computed =>
      HMemberExpression object property computed
        (Node_nested_ind object) (Node_nested_ind property)
  | CallExpression callee args =>
      HCallExpression callee args (Node_nested_ind callee) (all args)
  | ObjectExpression properties => HObjectExpression properties (all properties)
  | ObjectProperty key value =>
      HObjectProperty key value (Node_nested_ind key) (Node_nested_ind value)
  | SpreadElement argument => HSpreadElement argument (Node_nested_ind argument)
  | ArrowFunctionExpression body =>
      HArrowFunctionExpression body (Node_nested_ind body)
  | BlockStatement body => HBlockStatement body (all body)
  | ExpressionStatement expression =>
      HExpressionStatement expression (Node_nested_ind expression)
  | VariableDeclaration kind id init =>
      HVariableDeclaration kind id init (Node_nested_ind init)
  | ReturnStatement argument => HReturnStatement argument (Node_nested_ind argument)
  | FunctionDeclaration id body =>
      HFunctionDeclaration id body (Node_nested_ind body)
  | ImportDeclaration specifiers source => HImportDeclaration specifiers source
  | NullNode => HNullNode
  end.
End NodeInduction.

(** [Program]: the directive prologue is kept apart from the statements. *)
Record Program : Type := mkProgram {
  directives : list string;
  body : list Node
}.

(** Node predicates of [@babel/types]. *)
Definition isIdentifier (n : Node) : bool :=
  match n with Identifier _ => true | _ => false end.

Definition isMemberExpression (n : Node) : bool :=
  match n with MemberExpression _ _ _ => true | _ => false end.

Definition isStringLiteral (n : Node) : bool :=
  match n with StringLiteral _ => true | _ => false end.

Definition isObjectExpression (n : Node) : bool :=
  match n with ObjectExpression _ => true | _ => false end.

Definition isExpression (n : Node) : bool :=
  match n with
  | Identifier _ | StringLiteral _ | BooleanLiteral _ | OtherExpression _
  | MemberExpression _ _ _ | CallExpression _ _ | ObjectExpression _
  | ArrowFunctionExpression _ => true
  | _ => false
  end.

(** JavaScript truthiness of a string, and of a possibly undefined string. *)
Definition truthy (s : string) : bool := negb (String.eqb s "").

Definition truthy_opt (o : option string) : bool :=
  match o with Some s => truthy s | None => false end.

(** ** Insertion-ordered maps with string keys

    [Map] and plain objects iterate in insertion order; writing an existing
    key keeps its position.  Export keys are identifier names, so the numeric
    key reordering is outside this model.  What a plain object inherits from
    [Object.prototype] is dealt with where the plugin reads one, in
    [Index.postModule]. *)
Section OrderedMap.
Context {V : Type}.

Definition ordmap : Type := list (string * V).

Fixpoint oget (m : ordmap) (k : string) : option V :=
  match m with
  | [] => None
  | (k', v) :: m' => if String.eqb k' k then Some v else oget m' k
  end.

Fixpoint oset (m : ordmap) (k : string) (v : V) : ordmap :=
  match m with
  | [] => [(k, v)]
  | (k', v') :: m' =>
      if String.eqb k' k then (k, v) :: m' else (k', v') :: oset m' k v
  end.

Definition okeys (m : ordmap) : list string := map fst m.
End OrderedMap.
Arguments ordmap V : clear implicits.

(** [arr || []] *)
Definition or_empty {A : Type} (o : option (list A)) : list A :=
  match o with Some l => l | None => [] end.

(** ** Exceptions

    The plugin itself never throws; a [TypeError] can only come out of a host
    call.  A thrown exception aborts the whole transformation. *)
Inductive Result (A : Type) : Type :=
| Ok (value : A)
| Throw.
Arguments Ok {A} value.
Arguments Throw {A}.

#[global] Instance Result_bind : MBind Result :=
  fun A B (k : A -> Result B) (r : Result A) =>
    match r with Ok a => k a | Throw => Throw end.

#[global] Instance Result_ret : MRet Result := fun A (a : A) => Ok a.

(** [for (const x of l) acc = f(acc, x)] with a body that may throw. *)
Fixpoint foldM {A B : Type} (f : A -> B -> Result A) (l : list B) (acc : A)
    : Result A :=
  match l with
  | [] => Ok acc
  | x :: l' => acc' ← f acc x; foldM f l' acc'
  end.

(** [t.objectExpression(properties)].  The builder validates its fields:
    [properties] has no default and must be an array, so the call without an
    argument throws (and without the validation the [properties.push] that
    follows it in the plugin would, on [null]). *)
Definition objectExpression (properties : option (list Node)) : Result Node :=
  match properties with
  | Some props => Ok (ObjectExpression props)
  | None => Throw
  end.

(** ** The host traversal

    [@babel/traverse] walks the tree depth first and calls a visitor on a node
    before descending into its children.  A path removed by its visitor is not
    descended into.  Removing a node from a list slot splices it out; from a
    single slot it leaves [null], except that an [ExpressionStatement] goes
    with its expression and an arrow body becomes an empty block.  The host
    refuses to empty a slot that the node type requires and throws instead:
    [traverse] is the traversal of the trees in which no such removal comes
    up.  Which trees these are depends on the visitor; for [index.ts] they
    are told by [Index.removalsAllowed], and [Index.transform] throws for
    the others. *)
Section Traversal.
Context {S : Type}.
Variable ImportDeclaration_visitor : S -> list ImportSpecifierNode -> string -> S.
Variable CallExpression_visitor : S -> Node -> S * bool.

Definition traverseList (f : S -> Node -> S * option Node)
    : S -> list Node -> S * list Node :=
  fix go (st : S) (l : list Node) {struct l} : S * list Node :=
    match l with
    | [] => (st, [])
    | n :: l' =>
        let '(st1, r) := f st n in
        let '(st2, rs) := go st1 l' in
        (st2, match r with Some n' => n' :: rs | None => rs end)
    end.

Definition slot (r : option Node) : Node :=
  match r with Some n => n | None => NullNode end.

Fixpoint traverse (st : S) (n : Node) {struct n} : S * option Node :=
  match n with
  | ImportDeclaration specifiers source =>
      (ImportDeclaration_visitor st specifiers source, Some n)
  | CallExpression callee args =>
      let '(st1, removed) := CallExpression_visitor st n in
      if removed then (st1, None)
      else
        let '(st2, callee') := traverse st1 callee in
        let '(st3, args') := traverseList traverse st2 args in
        (st3, Some (CallExpression (slot callee') args'))
  | MemberExpression object property computed =>
      let '(st1, object') := traverse st object in
      let '(st2, property') := traverse st1 property in
      (st2, Some (MemberExpression (slot object') (slot property') computed))
  | ObjectExpression properties =>
      let '(st1, properties') := traverseList traverse st properties in
      (st1, Some (ObjectExpression properties'))
  | ObjectProperty key value =>
      let '(st1, key') := traverse st key in
      let '(st2, value') := traverse st1 value in
      (st2, Some (ObjectProperty (slot key') (slot value')))
  | SpreadElement argument =>
      let '(st1, argument') := traverse st argument in
      (st1, Some (SpreadElement (slot argument')))
  | ArrowFunctionExpression body =>
      let '(st1, body') := traverse st body in
      (st1, Some (ArrowFunctionExpression
                    (match body' with Some b => b | None => BlockStatement [] end)))
  | BlockStatement body =>
      let '(st1, body') := traverseList traverse st body in
      (st1, Some (BlockStatement body'))
  | ExpressionStatement expression =>
      let '(st1, expression') := traverse st expression in
      (st1, match expression' with
            | Some e => Some (ExpressionStatement e)
            | None => None
            end)
  | VariableDeclaration kind id init =>
      let '(st1, init') := traverse st init in
      (st1, Some (VariableDeclaration kind id (slot init')))
  | ReturnStatement argument =>
      let '(st1, argument') := traverse st argument in
      (st1, Some (ReturnStatement (slot argument')))
  | FunctionDeclaration id body =>
      let '(st1, body') := traverse st body in
      (st1, Some (FunctionDeclaration id (slot body')))
  | Identifier _ | StringLiteral _ | BooleanLiteral _ | OtherExpression _
  | NullNode => (st, Some n)
  end.
End Traversal.

Module Index.

Definition globalJestIdentifier : string := "jest".
Definition pluginMockIdentifiers : list string := ["mockObj"; "mockFn"].
Definition jestMockCallExpressions : list string :=
  ["mock"; "doMock"; "unmock"; "dontMock"].

(** ["default" | "namespace" | "import"] *)
Inductive ImportType : Type := type_default | type_namespace | type_import.

(** ["name" | "mock"] *)
Inductive MockType : Type := type_name | type_mock.

Record ImportDefinition : Type := mkImport {
  name : string;
  type : ImportType
}.

Record MockDefinition : Type := mkMock {
  subProperties : list string;
  expression : Node
}.

(** Element type of the arrays of a [ModuleMockDefinition]. *)
Record ModuleMock : Type := mkModuleMock {
  mock_expression : Node;
  subProperty : option string
}.

Definition ModuleMockDefinition : Type := ordmap (list ModuleMock).

(** [program] records that the [Program] visitor has stored the root path;
    the statements themselves are threaded through the traversal. *)
Record PluginState : Type := mkState {
  importIdentifiers : ordmap (list ImportDefinition);
  mocks : ordmap (list MockDefinition);
  existingJestMocks : list string;
  program : bool
}.

Definition includes (l : list string) (s : string) : bool :=
  existsb (String.eqb s) l.

Definition isJestMockCallExpression (node : Node) : bool :=
  match node with
  | CallExpression (MemberExpression (Identifier object) (Identifier property) _) _ =>
      if negb (String.eqb object globalJestIdentifier)
         || negb (includes jestMockCallExpressions property)
      then false else true
  | _ => false
  end.

Definition isMockObjCallExpession (node : Node) : option MockType :=
  match node with
  | CallExpression (MemberExpression (Identifier object) (Identifier property) _) _ =>
      if String.eqb object globalJestIdentifier
         && includes pluginMockIdentifiers property
      then Some (if String.eqb property "mockObj" then type_name else type_mock)
      else None
  | _ => None
  end.

(** [() => { const o = OBJECT_EXP;
             Object.defineProperty(o, "__esModule", { value: true });
             return o; }] *)
Definition buildArrowFunc (OBJECT_EXP : Node) : Node :=
  ExpressionStatement
    (ArrowFunctionExpression
       (BlockStatement
          [ VariableDeclaration "const" "o" OBJECT_EXP;
            ExpressionStatement
              (CallExpression
                 (MemberExpression (Identifier "Object")
                    (Identifier "defineProperty") false)
                 [ Identifier "o"; StringLiteral "__esModule";
                   ObjectExpression
                     [ObjectProperty (Identifier "value") (BooleanLiteral true)] ]);
            ReturnStatement (Identifier "o") ])).

(** [!m.subProperty] *)
Definition noSubProperty (m : ModuleMock) : bool :=
  negb (truthy_opt (subProperty m)).

(** [value.properties.push(p)] *)
Definition pushProperty (value p : Node) : Node :=
  match value with
  | ObjectExpression properties => ObjectExpression (properties ++ [p])
  | _ => value
  end.

(** One round of the inner [for (const m of mocks)] loop on [prop.value].
    The push may land on a literal supplied by the user; a file the host
    accepts binds every local name once, so each recorded expression is used
    for one key only and the update is seen nowhere else. *)
Definition nestedStep (value : Node) (m : ModuleMock) : Result Node :=
  if noSubProperty m then
    (* may overwrite any previous assignment *)
    Ok (mock_expression m)
  else
    value' ← (if isObjectExpression value then Ok value
               else objectExpression None);
    Ok (pushProperty value'
          (ObjectProperty (StringLiteral (default "" (subProperty m)))
             (mock_expression m))).

(** Body of the [for (const key of Object.keys(def))] loop: the property
    pushed on [topLevelProps] for [key], if any. *)
Definition topLevelProp (key : string) (mocks : list ModuleMock)
    : Result (option Node) :=
  if Nat.eqb (length mocks) 0 then Ok None
  else if forallb noSubProperty mocks then
    (* last one overwrites previous *)
    match last mocks with
    | Some lastMock =>
        Ok (Some (ObjectProperty (StringLiteral key) (mock_expression lastMock)))
    | None => Throw
    end
  else
    value0 ← objectExpression (Some []);
    value ← foldM nestedStep mocks value0;
    Ok (Some (ObjectProperty (StringLiteral key) value)).

Definition topLevelProps (def : ModuleMockDefinition) : Result (list Node) :=
  foldM
    (fun props '(key, mocks) =>
       prop ← topLevelProp key mocks;
       Ok (match prop with
           | Some p => props ++ [p]
           | None => props
           end))
    def [].

Definition createModuleMockImpl (def : ModuleMockDefinition) : Result Node :=
  props ← topLevelProps def;
  OBJECT_EXP ← objectExpression (Some props);
  match buildArrowFunc OBJECT_EXP with
  | ExpressionStatement arrowFunc => Ok arrowFunc
  | _ => Throw
  end.

Definition buildJestMockForModule (source : string)
    (mocks : ModuleMockDefinition) : Result Node :=
  impl ← createModuleMockImpl mocks;
  Ok (ExpressionStatement
        (CallExpression
           (MemberExpression (Identifier globalJestIdentifier)
              (Identifier "mock") false)
           [StringLiteral source; impl])).

(** *** [pre]: the initial state and [createMockDefinition] *)

Definition pre : PluginState :=
  {| importIdentifiers := []; mocks := []; existingJestMocks := [];
     program := false |}.

(** The [while (t.isMemberExpression(obj))] loop: returns the final [obj]
    and [subIdentifiers] ([unshift] is a cons at the front). *)
Fixpoint walkObject (obj : Node) (subIdentifiers : list string)
    : Node * list string :=
  match obj with
  | MemberExpression object property _ =>
      walkObject object
        (match property with
         | Identifier n => n :: subIdentifiers
         | _ => subIdentifiers
         end)
  | _ => (obj, subIdentifiers)
  end.

(** [lastIdentifier], [accessIdentifierName] and [subIdentifiers] as they
    stand before the [if (!lastIdentifier || !accessIdentifierName)] test. *)
Definition identifiersOf (def : Node)
    : option string * option string * list string :=
  match def with
  | Identifier n => (Some n, Some n, [])
  | MemberExpression object (Identifier lastIdentifier) _ =>
      let '(obj, subIdentifiers) := walkObject object [] in
      (Some lastIdentifier,
       match obj with Identifier n => Some n | _ => None end,
       subIdentifiers ++ [lastIdentifier])
  | _ => (None, None, [])
  end.

Definition createMockDefinition (st : PluginState) (def : Node)
    (type : MockType) (impl : option Node) : PluginState :=
  if negb (isIdentifier def) && negb (isMemberExpression def) then st
  else
    let '(lastIdentifier, accessIdentifierName, subIdentifiers) :=
      identifiersOf def in
    if negb (truthy_opt lastIdentifier) || negb (truthy_opt accessIdentifierName)
    then st
    else
      let lastIdentifier := default "" lastIdentifier in
      let accessIdentifierName := default "" accessIdentifierName in
      let impl :=
        match impl with
        | Some impl => impl
        | None =>
            match type with
            | type_name => StringLiteral lastIdentifier
            | type_mock =>
                CallExpression
                  (MemberExpression (Identifier "jest") (Identifier "fn") false)
                  []
            end
        end in
      let mockDef := or_empty (oget (mocks st) accessIdentifierName) in
      let mockDef :=
        mockDef ++ [{| expression := impl; subProperties := subIdentifiers |}] in
      {| importIdentifiers := importIdentifiers st;
         mocks := oset (mocks st) accessIdentifierName mockDef;
         existingJestMocks := existingJestMocks st;
         program := program st |}.

(** *** Visitors *)

(** [Program(path)] *)
Definition Program_visitor (st : PluginState) : PluginState :=
  {| importIdentifiers := importIdentifiers st;
     mocks := mocks st;
     existingJestMocks := existingJestMocks st;
     program := true |}.

(** The [for (const s of specifiers)] loop body. *)
Definition pushSpecifier (moduleIdentifiers : list ImportDefinition)
    (s : ImportSpecifierNode) : list ImportDefinition :=
  match s with
  | ImportDefaultSpecifier local =>
      moduleIdentifiers ++ [{| name := local; type := type_default |}]
  | ImportNamespaceSpecifier local =>
      moduleIdentifiers ++ [{| name := local; type := type_namespace |}]
  | ImportSpecifier local imported =>
      if String.eqb imported "default"
      then moduleIdentifiers ++ [{| name := local; type := type_default |}]
      else moduleIdentifiers ++ [{| name := local; type := type_import |}]
  end.

(** [ImportDeclaration(path)] *)
Definition ImportDeclaration_visitor (st : PluginState)
    (specifiers : list ImportSpecifierNode) (source : string) : PluginState :=
  let moduleIdentifiers := or_empty (oget (importIdentifiers st) source) in
  let moduleIdentifiers := fold_left pushSpecifier specifiers moduleIdentifiers in
  if Nat.ltb 0 (length specifiers) then
    {| importIdentifiers := oset (importIdentifiers st) source moduleIdentifiers;
       mocks := mocks st;
       existingJestMocks := existingJestMocks st;
       program := program st |}
  else st.

(** [CallExpression(path)]; the boolean tells whether [path.remove()] was
    called. *)
Definition CallExpression_visitor (st : PluginState) (node : Node)
    : PluginState * bool :=
  match node with
  | CallExpression _ args =>
      match isMockObjCallExpession node with
      | Some mockType =>
          let isWithImplementation :=
            match args with
            | [_; arg1] => negb (isIdentifier arg1) && negb (isMemberExpression arg1)
            | _ => false
            end in
          let st' :=
            if isWithImplementation then
              match args with
              | [firstArg; implementationNode] =>
                  if isExpression implementationNode
                  then createMockDefinition st firstArg mockType
                         (Some implementationNode)
                  else st
              | _ => st
              end
            else
              fold_left (fun st arg => createMockDefinition st arg mockType None)
                args st in
          (* remove call *)
          (st', true)
      | None =>
          if isJestMockCallExpression node then
            match args with
            | StringLiteral value :: _ =>
                ({| importIdentifiers := importIdentifiers st;
                    mocks := mocks st;
                    existingJestMocks := existingJestMocks st ++ [value];
                    program := program st |}, false)
            | _ => (st, false)
            end
          else (st, false)
      end
  | _ => (st, false)
  end.

(** *** [post]: aggregation and emission *)

(** [mocksForModule] is a plain object.  Under a name it has no key of its
    own for, [mocksForModule[key]] is what [Object.prototype] holds under
    that name: a function, or the prototype itself under [__proto__].  None
    of them is an array, so a [push] on it throws a [TypeError]; and writing
    [__proto__] goes to the prototype accessor and makes no key.  The
    aggregation below is the one of the keys that are not inherited;
    [refuses] tells the bindings whose aggregation throws, and [postModule]
    throws for them. *)
Definition inheritedNames : list string :=
  [ "constructor"; "__defineGetter__"; "__defineSetter__"; "hasOwnProperty";
    "__lookupGetter__"; "__lookupSetter__"; "isPrototypeOf";
    "propertyIsEnumerable"; "toString"; "valueOf"; "__proto__";
    "toLocaleString" ].

Definition inherited (key : string) : bool := includes inheritedNames key.

(** The inherited names whose value, once stored by
    [mocksForModule[moduleIdentifierName] = mocksArr], passes for an empty
    array in [createModuleMockImpl]: the functions whose [length] is 0, and
    [__proto__], under which nothing is stored. *)
Definition readsAsEmpty (key : string) : bool :=
  includes ["toString"; "valueOf"; "toLocaleString"; "__proto__"] key.

(** [mocksForModule[key] = value] *)
Definition assign (mocksForModule : ModuleMockDefinition) (key : string)
    (value : list ModuleMock) : ModuleMockDefinition :=
  if String.eqb key "__proto__" then mocksForModule
  else oset mocksForModule key value.

(** Namespace import: one round of [mocksForModuleIdentifier.forEach]. *)
Definition addNamespaceMock (mocksForModule : ModuleMockDefinition)
    (m : MockDefinition) : ModuleMockDefinition :=
  (* won't support deep nesting *)
  if negb (Nat.eqb (length (subProperties m)) 1)
     && negb (Nat.eqb (length (subProperties m)) 2)
  then mocksForModule
  else
    match subProperties m with
    | key :: rest =>
        let subProperty := head rest in
        let mockArr := or_empty (oget mocksForModule key) in
        assign mocksForModule key
          (mockArr ++ [{| mock_expression := expression m;
                          subProperty := subProperty |}])
    | [] => mocksForModule
    end.

(** Default or named import: one round of [mocksForModuleIdentifier.forEach]
    on [mocksArr]. *)
Definition addMock (mocksArr : list ModuleMock) (m : MockDefinition)
    : list ModuleMock :=
  (* won't support deep nesting *)
  if Nat.ltb 1 (length (subProperties m)) then mocksArr
  else mocksArr ++ [{| mock_expression := expression m;
                       subProperty := head (subProperties m) |}].

(** Body of [for (const i of importsFromModule)]. *)
Definition addImport (mocks : ordmap (list MockDefinition))
    (mocksForModule : ModuleMockDefinition) (i : ImportDefinition)
    : ModuleMockDefinition :=
  let moduleIdentifierName :=
    match type i with type_default => "default" | _ => name i end in
  match oget mocks (name i) with
  | None => mocksForModule
  | Some mocksForModuleIdentifier =>
      if Nat.eqb (length mocksForModuleIdentifier) 0 then mocksForModule
      else
        match type i with
        | type_namespace =>
            fold_left addNamespaceMock mocksForModuleIdentifier mocksForModule
        | _ =>
            let mocksArr := or_empty (oget mocksForModule moduleIdentifierName) in
            let mocksArr := fold_left addMock mocksForModuleIdentifier mocksArr in
            assign mocksForModule moduleIdentifierName mocksArr
        end
  end.

(** Whether the body of [for (const i of importsFromModule)] leads to a
    [TypeError] for [i].  A namespace binding pushes under the first segment
    of each request of one or two segments; a named binding pushes under its
    local name for each request of at most one segment, and when it pushes
    nothing it stores what it read, on which [mocks.every] of
    [createModuleMockImpl] throws unless it reads as empty. *)
Definition refuses (mocks : ordmap (list MockDefinition))
    (i : ImportDefinition) : bool :=
  match oget mocks (name i) with
  | None => false
  | Some mocksForModuleIdentifier =>
      if Nat.eqb (length mocksForModuleIdentifier) 0 then false
      else
        match type i with
        | type_namespace =>
            existsb
              (fun m =>
                 match subProperties m with
                 | [key] | [key; _] => inherited key
                 | _ => false
                 end)
              mocksForModuleIdentifier
        | type_default => false
        | type_import =>
            inherited (name i)
            && (existsb (fun m => Nat.leb (length (subProperties m)) 1)
                  mocksForModuleIdentifier
                || negb (readsAsEmpty (name i)))
        end
  end.

(** [body.unshift(statement)] *)
Definition unshift (body : list Node) (statement : Node) : list Node :=
  statement :: body.

(** Body of [for (const [modulePath, importsFromModule] of
    this.importIdentifiers)], acting on [program.node.body]. *)
Definition postModule (st : PluginState) (body : list Node)
    (entry : string * list ImportDefinition) : Result (list Node) :=
  let '(modulePath, importsFromModule) := entry in
  if includes (existingJestMocks st) modulePath then Ok body
  else if existsb (refuses (mocks st)) importsFromModule then Throw
  else
    let mocksForModule := fold_left (addImport (mocks st)) importsFromModule [] in
    if Nat.eqb (length (okeys mocksForModule)) 0 then Ok body
    else
      (* create jest.mock() call *)
      statement ← buildJestMockForModule modulePath mocksForModule;
      Ok (unshift body statement).

Definition post (st : PluginState) (body : list Node) : Result (list Node) :=
  if negb (program st) then Ok body
  else if Nat.eqb (length (mocks st)) 0
          || Nat.eqb (length (importIdentifiers st)) 0
  then Ok body
  else foldM (postModule st) (importIdentifiers st) body.

(** *** One file: [pre], the traversal, [post] *)

Definition traverseNode : PluginState -> Node -> PluginState * option Node :=
  traverse ImportDeclaration_visitor CallExpression_visitor.

Definition traverseBody : PluginState -> list Node -> PluginState * list Node :=
  traverseList traverseNode.

(** The removals the host performs.  [path.remove()] splices a node out of
    a list, empties an optional slot (an initialiser, a return argument),
    takes an expression statement away with its expression and turns an
    arrow body into an empty block.  For a slot the node type requires (a
    callee, the object or property of a member expression, the key or value
    of an object property, the argument of a spread element, the body of a
    function declaration) it throws a [TypeError], which aborts the
    transformation.  [vanishes n] tells whether the traversal takes [n] out
    of its slot, [removalsAllowed n] that no node reached in [n] vanishes
    from a required slot; [traverseNode] is the traversal of such a tree. *)
Fixpoint vanishes (n : Node) : bool :=
  match n with
  | CallExpression _ _ =>
      match isMockObjCallExpession n with Some _ => true | None => false end
  | ExpressionStatement expression => vanishes expression
  | _ => false
  end.

Fixpoint removalsAllowed (n : Node) : bool :=
  match n with
  | CallExpression callee args =>
      match isMockObjCallExpession n with
      | Some _ => true
      | None =>
          negb (vanishes callee) && removalsAllowed callee
          && forallb removalsAllowed args
      end
  | MemberExpression object property _ =>
      negb (vanishes object) && removalsAllowed object
      && negb (vanishes property) && removalsAllowed property
  | ObjectExpression properties => forallb removalsAllowed properties
  | ObjectProperty key value =>
      negb (vanishes key) && removalsAllowed key
      && negb (vanishes value) && removalsAllowed value
  | SpreadElement argument => negb (vanishes argument) && removalsAllowed argument
  | ArrowFunctionExpression body => removalsAllowed body
  | BlockStatement body => forallb removalsAllowed body
  | ExpressionStatement expression => removalsAllowed expression
  | VariableDeclaration _ _ init => removalsAllowed init
  | ReturnStatement argument => removalsAllowed argument
  | FunctionDeclaration _ body => negb (vanishes body) && removalsAllowed body
  | Identifier _ | StringLiteral _ | BooleanLiteral _ | OtherExpression _
  | ImportDeclaration _ _ | NullNode => true
  end.

Definition transform (file : Program) : Result Program :=
  let st := Program_visitor pre in
  if negb (forallb removalsAllowed (body file)) then
    (* a removal the host refuses *)
    Throw
  else
    let '(st, body1) := traverseBody st (body file) in
    body2 ← post st body1;
    Ok {| directives := directives file; body := body2 |}.

(** *** Derived notions used in the statements *)

(** The three outcomes of the [if (mockType) ... else if
    (isJestMockCallExpression(node)) ...] cascade of [CallExpression]. *)
Inductive Classification : Type :=
| MockRequest (type : MockType)
| Ignore (modulePath : string)
| NoMatch.

Definition classify (node : Node) : Classification :=
  match isMockObjCallExpession node with
  | Some mockType => MockRequest mockType
  | None =>
      if isJestMockCallExpression node then
        match node with
        | CallExpression _ (StringLiteral value :: _) => Ignore value
        | _ => NoMatch
        end
      else NoMatch
  end.

(** The modules for which the loop of [post] reaches [body.unshift], with
    their aggregated definitions, in the order the loop meets them. *)
Definition registration (st : PluginState)
    (entry : string * list ImportDefinition)
    : option (string * ModuleMockDefinition) :=
  let '(modulePath, importsFromModule) := entry in
  if includes (existingJestMocks st) modulePath then None
  else
    let mocksForModule := fold_left (addImport (mocks st)) importsFromModule [] in
    if Nat.eqb (length (okeys mocksForModule)) 0 then None
    else Some (modulePath, mocksForModule).

Definition registrations (st : PluginState)
    : list (string * ModuleMockDefinition) :=
  if negb (program st) then []
  else if Nat.eqb (length (mocks st)) 0
          || Nat.eqb (length (importIdentifiers st)) 0
  then []
  else omap (registration st) (importIdentifiers st).

(** The modules at which the loop of [post] throws before it builds
    anything. *)
Definition refusesModule (st : PluginState)
    (entry : string * list ImportDefinition) : bool :=
  negb (includes (existingJestMocks st) (fst entry))
  && existsb (refuses (mocks st)) (snd entry).

Definition buildAll (regs : list (string * ModuleMockDefinition))
    : Result (list Node) :=
  mapM (fun '(modulePath, mocksForModule) =>
          buildJestMockForModule modulePath mocksForModule) regs.

(** What one visitor call does to the state. *)
Definition visit (st : PluginState) (n : Node) : PluginState :=
  match n with
  | ImportDeclaration specifiers source =>
      ImportDeclaration_visitor st specifiers source
  | CallExpression _ _ => fst (CallExpression_visitor st n)
  | _ => st
  end.

(** The import declarations and call expressions the traversal hands to the
    visitors, in order: everything except what lies inside a removed
    [jest.mockObj] / [jest.mockFn] call. *)
Fixpoint visited (n : Node) : list Node :=
  match n with
  | ImportDeclaration _ _ => [n]
  | CallExpression callee args =>
      match isMockObjCallExpession n with
      | Some _ => [n]
      | None => n :: visited callee ++ flat_map visited args
      end
  | MemberExpression object property _ => visited object ++ visited property
  | ObjectExpression properties => flat_map visited properties
  | ObjectProperty key value => visited key ++ visited value
  | SpreadElement argument => visited argument
  | ArrowFunctionExpression body => visited body
  | BlockStatement body => flat_map visited body
  | ExpressionStatement expression => visited expression
  | VariableDeclaration _ _ init => visited init
  | ReturnStatement argument => visited argument
  | FunctionDeclaration _ body => visited body
  | Identifier _ | StringLiteral _ | BooleanLiteral _ | OtherExpression _
  | NullNode => []
  end.

(** Module paths in the order of their first import declaration with at
    least one specifier; [seen] are the paths met so far. *)
Fixpoint firstImported (seen : list string) (nodes : list Node) : list string :=
  match nodes with
  | [] => []
  | ImportDeclaration specifiers source :: nodes' =>
      if Nat.ltb 0 (length specifiers) && negb (includes seen source)
      then source :: firstImported (seen ++ [source]) nodes'
      else firstImported seen nodes'
  | _ :: nodes' => firstImported seen nodes'
  end.

(** Does a [jest.mockObj] / [jest.mockFn] call occur in the node? *)
Fixpoint hasMockRequest (n : Node) : bool :=
  match n with
  | CallExpression callee args =>
      match isMockObjCallExpession n with
      | Some _ => true
      | None => hasMockRequest callee || existsb hasMockRequest args
      end
  | MemberExpression object property _ =>
      hasMockRequest object || hasMockRequest property
  | ObjectExpression properties => existsb hasMockRequest properties
  | ObjectProperty key value => hasMockRequest key || hasMockRequest value
  | SpreadElement argument => hasMockRequest argument
  | ArrowFunctionExpression body => hasMockRequest body
  | BlockStatement body => existsb hasMockRequest body
  | ExpressionStatement expression => hasMockRequest expression
  | VariableDeclaration _ _ init => hasMockRequest init
  | ReturnStatement argument => hasMockRequest argument
  | FunctionDeclaration _ body => hasMockRequest body
  | Identifier _ | StringLiteral _ | BooleanLiteral _ | OtherExpression _
  | ImportDeclaration _ _ | NullNode => false
  end.

(** The state a traversal ends in is the fold of the visitors over the
    dispatched nodes. *)
Definition StateIsFold (n : Node) : Prop :=
  forall st, fst (traverseNode st n) = fold_left visit (visited n) st.

(** The traversal hands the node back as it was. *)
Definition Unchanged (n : Node) : Prop :=
  forall st, hasMockRequest n = false -> snd (traverseNode st n) = Some n.

(** Scopes a statement list can sit in: a function declaration, a block, the
    arrow callback of a plain call such as [it("...", () => { ... })]. *)
Inductive Scope : Type :=
| FunctionScope (id : string)
| BlockScope
| CallbackScope (callee label : string).

Definition wrap (scope : Scope) (statements : list Node) : Node :=
  match scope with
  | FunctionScope id => FunctionDeclaration id (BlockStatement statements)
  | BlockScope => BlockStatement statements
  | CallbackScope callee label =>
      ExpressionStatement
        (CallExpression (Identifier callee)
           [StringLiteral label;
            ArrowFunctionExpression (BlockStatement statements)])
  end.

(** [statements] inside the scopes, outermost first. *)
Definition nest (scopes : list Scope) (statements : list Node) : list Node :=
  fold_right (fun scope inner => [wrap scope inner]) statements scopes.

(** An array element of a [ModuleMockDefinition] read as the pair
    (replacement, optional sub-key). *)
Definition entryOf (m : ModuleMock) : Node * option string :=
  (mock_expression m, subProperty m).

(** Every sub-key entry finds an object literal as running value: it comes
    first, after another sub-key entry, or after a flat replacement that is
    an object literal.  [object] tells whether the running value is one. *)
Fixpoint subKeysFindObject (object : bool) (mocks : list ModuleMock) : bool :=
  match mocks with
  | [] => true
  | m :: mocks' =>
      if noSubProperty m
      then subKeysFindObject (isObjectExpression (mock_expression m)) mocks'
      else object && subKeysFindObject true mocks'
  end.

(** [jest.mock(source, () => { const o = { ...properties };
    Object.defineProperty(o, "__esModule", { value: true }); return o; })] *)
Definition jestMock (source : string) (properties : list Node) : Node :=
  ExpressionStatement
    (CallExpression
       (MemberExpression (Identifier "jest") (Identifier "mock") false)
       [ StringLiteral source;
         ArrowFunctionExpression
           (BlockStatement
              [ VariableDeclaration "const" "o" (ObjectExpression properties);
                ExpressionStatement
                  (CallExpression
                     (MemberExpression (Identifier "Object")
                        (Identifier "defineProperty") false)
                     [ Identifier "o"; StringLiteral "__esModule";
                       ObjectExpression
                         [ObjectProperty (Identifier "value") (BooleanLiteral true)] ]);
                ReturnStatement (Identifier "o") ]) ]).

Definition mockObj (args : list Node) : Node :=
  ExpressionStatement
    (CallExpression
       (MemberExpression (Identifier "jest") (Identifier "mockObj") false) args).

(** The innermost object of a member expression. *)
Fixpoint base (obj : Node) : Node :=
  match obj with
  | MemberExpression object _ _ => base object
  | _ => obj
  end.

(** Shapes from which no root name or no last identifier can be read:
    neither an identifier nor a member expression; a member expression whose
    own property is not an identifier node; one whose innermost object is
    not an identifier. *)
Definition unresolvable (def : Node) : bool :=
  match def with
  | Identifier _ => false
  | MemberExpression object property _ =>
      negb (isIdentifier property) || negb (isIdentifier (base object))
  | _ => true
  end.

(** A member chain [root.p1.p2...pn] with plain (non-computed) accesses. *)
Definition chain (root : string) (segments : list string) : Node :=
  fold_left (fun object p => MemberExpression object (Identifier p) false)
    segments (Identifier root).

(** *** Further notions *)

(** [import { default as X }] written as [import X]. *)
Definition normaliseSpecifier (s : ImportSpecifierNode) : ImportSpecifierNode :=
  match s with
  | ImportSpecifier local imported =>
      if String.eqb imported "default" then ImportDefaultSpecifier local else s
  | _ => s
  end.

(** A statement made of a [jest.mockObj] / [jest.mockFn] call. *)
Definition isMockStatement (statement : Node) : bool :=
  match statement with
  | ExpressionStatement expression =>
      match isMockObjCallExpession expression with
      | Some _ => true
      | None => false
      end
  | _ => false
  end.

(** The key of a property built by [t.objectProperty(t.stringLiteral(key), _)]. *)
Definition propertyKey (p : Node) : option string :=
  match p with
  | ObjectProperty (StringLiteral key) _ => Some key
  | _ => None
  end.

(** The keys of a definition that hold at least one entry. *)
Definition nonEmptyKeys (def : ModuleMockDefinition) : list string :=
  map fst (List.filter (fun entry => negb (Nat.eqb (length (snd entry)) 0)) def).

(** Requests a namespace binding takes: one or two segments. *)
Definition namespaceDepthOk (m : MockDefinition) : bool :=
  Nat.eqb (length (subProperties m)) 1 || Nat.eqb (length (subProperties m)) 2.

(** The nodes directly under a node. *)
Definition children (n : Node) : list Node :=
  match n with
  | MemberExpression object property _ => [object; property]
  | CallExpression callee args => callee :: args
  | ObjectExpression properties => properties
  | ObjectProperty key value => [key; value]
  | SpreadElement argument => [argument]
  | ArrowFunctionExpression body => [body]
  | BlockStatement body => body
  | ExpressionStatement expression => [expression]
  | VariableDeclaration _ _ init => [init]
  | ReturnStatement argument => [argument]
  | FunctionDeclaration _ body => [body]
  | Identifier _ | StringLiteral _ | BooleanLiteral _ | OtherExpression _
  | ImportDeclaration _ _ | NullNode => []
  end.

(** [c] stands in [n], at whatever depth and in whatever position. *)
Inductive Occurs (c : Node) : Node -> Prop :=
| Occurs_here : Occurs c c
| Occurs_below (n child : Node) :
    In child (children n) -> Occurs c child -> Occurs c n.

(** [c] stands in [n] at a position the traversal reaches: at whatever
    depth, in whatever position, but not inside a mock-request call. *)
Inductive Reached (c : Node) : Node -> Prop :=
| Reached_here : Reached c c
| Reached_below (n child : Node) :
    isMockObjCallExpession n = None ->
    In child (children n) -> Reached c child -> Reached c n.

(** [this.mocks.get(root) || []] with [request] pushed, set under [root]. *)
Definition pushRequest (st : PluginState) (root : string)
    (request : MockDefinition) : PluginState :=
  {| importIdentifiers := importIdentifiers st;
     mocks := oset (mocks st) root (or_empty (oget (mocks st) root) ++ [request]);
     existingJestMocks := existingJestMocks st;
     program := program st |}.

(** The plugin state at the end of the traversal of a file. *)
Definition stateAfterTraversal (file : Program) : PluginState :=
  fst (traverseBody (Program_visitor pre) (body file)).

(** [this.mocks.get(root) || []] *)
Definition requestsFor (st : PluginState) (root : string) : list MockDefinition :=
  or_empty (oget (mocks st) root).

(** ["default"] for a default binding, the local name for a named one. *)
Definition exportKey (i : ImportDefinition) : string :=
  match type i with type_default => "default" | _ => name i end.

(** The entries one binding adds under the export key [key], from the
    requests recorded for its local name; nothing is stored under
    [__proto__]. *)
Definition entriesOf (mocks : ordmap (list MockDefinition)) (key : string)
    (i : ImportDefinition) : list ModuleMock :=
  let requests := or_empty (oget mocks (name i)) in
  if String.eqb key "__proto__" then []
  else
  match type i with
  | type_namespace =>
      map (fun m => {| mock_expression := expression m;
                       subProperty := head (tail (subProperties m)) |})
        (List.filter
           (fun m =>
              (Nat.eqb (length (subProperties m)) 1
               || Nat.eqb (length (subProperties m)) 2)
              && match head (subProperties m) with
                 | Some k => String.eqb k key
                 | None => false
                 end)
           requests)
  | _ =>
      if String.eqb (exportKey i) key
      then map (fun m => {| mock_expression := expression m;
                            subProperty := head (subProperties m) |})
             (List.filter (fun m => Nat.leb (length (subProperties m)) 1)
                requests)
      else []
  end.

(** The entries collected under [key] for a module: binding by binding in
    the order of the import specifiers, and for each binding in the order of
    its requests. *)
Definition collected (mocks : ordmap (list MockDefinition))
    (imports : list ImportDefinition) (key : string) : list ModuleMock :=
  flat_map (entriesOf mocks key) imports.

(** [args.length === 2 && !t.isIdentifier(args[1]) &&
     !t.isMemberExpression(args[1])] *)
Definition isWithImplementation (args : list Node) : bool :=
  match args with
  | [_; arg1] => negb (isIdentifier arg1) && negb (isMemberExpression arg1)
  | _ => false
  end.

(** The replacement [createMockDefinition] makes up for a request that gives
    none. *)
Definition defaultImpl (type : MockType) (lastIdentifier : string) : Node :=
  match type with
  | type_name => StringLiteral lastIdentifier
  | type_mock =>
      CallExpression (MemberExpression (Identifier "jest") (Identifier "fn") false)
        []
  end.


(** [t.isIdentifier(n) && n.name] *)
Definition identifierName (n : Node) : option string :=
  match n with Identifier x => Some x | _ => None end.

(** The entry a default or named binding makes of a request it takes. *)
Definition moduleMockOf (m : MockDefinition) : ModuleMock :=
  {| mock_expression := expression m; subProperty := head (subProperties m) |}.

(** Somewhere in [mocks] an entry with a sub-key comes directly after an
    entry without one whose expression is not an object literal. *)
Definition subKeyAfterFlat (mocks : list ModuleMock) : Prop :=
  exists before flat sub after,
    mocks = before ++ flat :: sub :: after
    /\ noSubProperty flat = true
    /\ isObjectExpression (mock_expression flat) = false
    /\ noSubProperty sub = false.

End Index.

(** ** The configurable evolution of [index.ts]

    Call sites are recognised by the dotted name of their callee, each
    identifier entry says whether its calls are removed and which default
    replacement they get, and generated mock functions carry a display name. *)
Module Configurable.

Definition MockType : Type := Index.MockType.

Record IdentifierConfiguration : Type := mkIdentifier {
  name : string;
  remove : bool;
  type : MockType
}.

Record PluginConfiguration : Type := mkConfig {
  jestIdentifier : string;
  identifiers : list IdentifierConfiguration;
  ignoreIdentifiers : list string;
  requireActual : bool
}.

Definition defaultConfig : PluginConfiguration :=
  {| jestIdentifier := "jest";
     ignoreIdentifiers := ["jest.mock"; "jest.doMock"; "jest.unmock"; "jest.dontMock"];
     identifiers :=
       [ {| name := "jest.mockObj"; remove := true; type := Index.type_name |};
         {| name := "jest.mockFn"; remove := true; type := Index.type_mock |} ];
     requireActual := false |}.

Record MockDefinition : Type := mkMock {
  subProperties : list string;
  expression : Node;
  mock_type : MockType
}.

Record PluginState : Type := mkState {
  importIdentifiers : ordmap (list Index.ImportDefinition);
  mocks : ordmap (list MockDefinition);
  existingJestMocks : list string;
  program : bool
}.

(** [name += name ? "." + s : s] *)
Definition addName (name s : string) : string :=
  String.append name (if truthy name then String.append "." s else s).

(** Return full name of member expression.  Every recursive call leaves
    [name] at its default, the empty string. *)
Fixpoint getNameOfExpression (node : Node) (name : string) : string :=
  match node with
  | Identifier n => addName name n
  | MemberExpression object property _ =>
      let name :=
        match object with
        | Identifier n => addName name n
        | MemberExpression _ _ _ => addName name (getNameOfExpression object "")
        | _ => name
        end in
      let name :=
        match property with
        | Identifier n => addName name n
        | MemberExpression _ _ _ => addName name (getNameOfExpression property "")
        | _ => name
        end in
      name
  | _ => ""
  end.

Definition isJestMockCallExpression (config : PluginConfiguration)
    (node : Node) : bool :=
  match node with
  | CallExpression callee _ =>
      if negb (isIdentifier callee) && negb (isMemberExpression callee)
      then false
      else
        let fullCalle := getNameOfExpression callee "" in
        if negb (truthy fullCalle) then false
        else existsb (String.eqb fullCalle) (ignoreIdentifiers config)
  | _ => false
  end.

Definition isMockObjCallExpession (config : PluginConfiguration)
    (node : Node) : option IdentifierConfiguration :=
  match node with
  | CallExpression callee _ =>
      if negb (isIdentifier callee) && negb (isMemberExpression callee)
      then None
      else
        let fullCalle := getNameOfExpression callee "" in
        if negb (truthy fullCalle) then None
        else List.find (fun i => String.eqb (name i) fullCalle) (identifiers config)
  | _ => None
  end.

Definition pre : PluginState :=
  {| importIdentifiers := []; mocks := []; existingJestMocks := [];
     program := false |}.

(** As [Index.identifiersOf]; the last identifier is pushed only when it is
    truthy. *)
Definition identifiersOf (def : Node)
    : option string * option string * list string :=
  match def with
  | Identifier n => (Some n, Some n, [])
  | MemberExpression object (Identifier lastIdentifier) _ =>
      let '(obj, subIdentifiers) := Index.walkObject object [] in
      (Some lastIdentifier,
       match obj with Identifier n => Some n | _ => None end,
       if truthy lastIdentifier then subIdentifiers ++ [lastIdentifier]
       else subIdentifiers)
  | _ => (None, None, [])
  end.

(** [jest.fn().mockName(name)] *)
Definition mockFnNamed (name : string) : Node :=
  CallExpression
    (MemberExpression
       (CallExpression
          (MemberExpression (Identifier "jest") (Identifier "fn") false) [])
       (Identifier "mockName") false)
    [StringLiteral name].

Definition createMockDefinition (st : PluginState) (def : Node)
    (type : MockType) (name : string) (impl : option Node) : PluginState :=
  if negb (isIdentifier def) && negb (isMemberExpression def) then st
  else
    let '(lastIdentifier, accessIdentifierName, subIdentifiers) :=
      identifiersOf def in
    if negb (truthy_opt lastIdentifier) || negb (truthy_opt accessIdentifierName)
    then st
    else
      let lastIdentifier := default "" lastIdentifier in
      let accessIdentifierName := default "" accessIdentifierName in
      let impl :=
        match impl with
        | Some impl => impl
        | None =>
            match type with
            | Index.type_name => StringLiteral lastIdentifier
            | Index.type_mock => mockFnNamed name
            end
        end in
      let mockDef := or_empty (oget (mocks st) accessIdentifierName) in
      let mockDef :=
        mockDef ++ [{| expression := impl; subProperties := subIdentifiers;
                       mock_type := type |}] in
      {| importIdentifiers := importIdentifiers st;
         mocks := oset (mocks st) accessIdentifierName mockDef;
         existingJestMocks := existingJestMocks st;
         program := program st |}.

Definition isMock (type : MockType) : bool :=
  match type with Index.type_mock => true | Index.type_name => false end.

(** Body of [for (const arg of args)]. *)
Definition mockArgument (type : MockType) (st : PluginState) (arg : Node)
    : PluginState :=
  let expName := getNameOfExpression arg "" in
  if negb (truthy expName) && isMock type then st
  else createMockDefinition st arg type expName None.

(** [CallExpression(path)]; the boolean tells whether [path.remove()] was
    called. *)
Definition CallExpression_visitor (config : PluginConfiguration)
    (st : PluginState) (node : Node) : PluginState * bool :=
  match node with
  | CallExpression _ args =>
      match isMockObjCallExpession config node with
      | Some mockIdentifier =>
          let isWithImplementation :=
            match args with
            | [_; arg1] => negb (isIdentifier arg1) && negb (isMemberExpression arg1)
            | _ => false
            end in
          if isWithImplementation then
            match args with
            | [firstArg; implementationNode] =>
                let expName := getNameOfExpression firstArg "" in
                if negb (truthy expName) && isMock (type mockIdentifier)
                then (st, false)
                else
                  (if isExpression implementationNode
                   then createMockDefinition st firstArg (type mockIdentifier)
                          expName (Some implementationNode)
                   else st,
                   remove mockIdentifier)
            | _ => (st, remove mockIdentifier)
            end
          else
            (fold_left (mockArgument (type mockIdentifier)) args st,
             remove mockIdentifier)
      | None =>
          if isJestMockCallExpression config node then
            match args with
            | StringLiteral value :: _ =>
                ({| importIdentifiers := importIdentifiers st;
                    mocks := mocks st;
                    existingJestMocks := existingJestMocks st ++ [value];
                    program := program st |}, false)
            | _ => (st, false)
            end
          else (st, false)
      end
  | _ => (st, false)
  end.

(** *** Building the factory *)

(** Element type of the arrays of a [ModuleMockDefinition]. *)
Record ModuleMock : Type := mkModuleMock {
  mock_expression : Node;
  subProperty : option string;
  entry_type : MockType;
  importDef : Index.ImportDefinition
}.

Definition ModuleMockDefinition : Type := ordmap (list ModuleMock).

(** What [buildArrowFunc(statements, modulePath)({ OBJECT_EXP: objExp })]
    hands to the host's template function.  The template text is fixed but
    for the [jest.requireActual] line, present when [modulePath] is given,
    and for [statements], joined by line breaks.  The model stops here: the
    host parses the text and puts [objExp] in the place of [OBJECT_EXP], and
    throws when the text does not parse or holds the placeholder name a
    second time, as it does for an export key [OBJECT_EXP]. *)
Record ArrowFuncTemplate : Type := mkTemplate {
  template_modulePath : option string;
  template_statements : list string;
  OBJECT_EXP : Node
}.

(** The double quote, character 34. *)
Definition dquote : string := String (Ascii.ascii_of_nat 34) EmptyString.

(** [Object.defineProperty(o.${key}, "name", { value: "${name}" });] *)
Definition buildNameStatement (key name : string) : string :=
  String.concat ""
    [ "Object.defineProperty(o."; key; ", "; dquote; "name"; dquote;
      ", { value: "; dquote; name; dquote; " });" ].

(** [`${a}.${b}`] *)
Definition dot (a b : string) : string :=
  String.append a (String.append "." b).

(** [!m.subProperty] *)
Definition noSubProperty (m : ModuleMock) : bool :=
  negb (truthy_opt (subProperty m)).

(** [if (config.requireActual && prop.value.properties.length === 0)
       prop.value.properties.push(t.spreadElement(a.key))] *)
Definition spreadIfEmpty (config : PluginConfiguration) (key : string)
    (value : Node) : Node :=
  match value with
  | ObjectExpression properties =>
      if requireActual config && Nat.eqb (length properties) 0
      then Index.pushProperty value
             (SpreadElement
                (MemberExpression (Identifier "a") (Identifier key) false))
      else value
  | _ => value
  end.

(** One round of the inner [for (const m of mocks)] loop on [prop.value] and
    [statements].  As in [Index.nestedStep], a push may land on a literal
    supplied by the user, which is used for one key only. *)
Definition nestedStep (config : PluginConfiguration) (key : string)
    (acc : Node * list (string * string)) (m : ModuleMock)
    : Node * list (string * string) :=
  let '(value, statements) := acc in
  if noSubProperty m then
    (* may overwrite any previous assignment *)
    (mock_expression m, statements)
  else
    let subProperty := default "" (subProperty m) in
    let value :=
      if isObjectExpression value then value else ObjectExpression [] in
    (* also spread it if required and hasn't spreaded yet *)
    let value := spreadIfEmpty config key value in
    let value :=
      Index.pushProperty value
        (ObjectProperty (StringLiteral subProperty) (mock_expression m)) in
    let statements :=
      if isMock (entry_type m) then
        let oName :=
          match Index.type (importDef m) with
          | Index.type_default => dot (Index.name (importDef m)) subProperty
          | _ => dot (Index.name (importDef m)) (dot key subProperty)
          end in
        statements ++ [(dot key subProperty, oName)]
      else statements in
    (value, statements).

(** Body of the [for (const key of Object.keys(def))] loop: the property
    pushed on [topLevelProps] for [key], if any, and the pairs pushed on
    [statements]. *)
Definition topLevelProp (config : PluginConfiguration) (key : string)
    (mocks : list ModuleMock) : Result (option Node * list (string * string)) :=
  if Nat.eqb (length mocks) 0 then Ok (None, [])
  else if forallb noSubProperty mocks then
    (* last one overwrites previous *)
    match last mocks with
    | Some lastMock =>
        Ok (Some (ObjectProperty (StringLiteral key) (mock_expression lastMock)),
            if isMock (entry_type lastMock) then
              [(key,
                match Index.type (importDef lastMock) with
                | Index.type_default => Index.name (importDef lastMock)
                | Index.type_namespace => dot (Index.name (importDef lastMock)) key
                | Index.type_import => key
                end)]
            else [])
    | None => Throw
    end
  else
    let '(value, statements) :=
      fold_left (nestedStep config key) mocks (ObjectExpression [], []) in
    Ok (Some (ObjectProperty (StringLiteral key) value), statements).

Definition topLevelProps (config : PluginConfiguration)
    (def : ModuleMockDefinition) : Result (list Node * list (string * string)) :=
  foldM
    (fun '(props, statements) '(key, mocks) =>
       '(prop, pushed) ← topLevelProp config key mocks;
       Ok (match prop with
           | Some p => props ++ [p]
           | None => props
           end,
           statements ++ pushed))
    def ([], []).

(** [key.split(".")]; the full stop is character 46. *)
Fixpoint split_dot (key : string) : list string :=
  match key with
  | EmptyString => [EmptyString]
  | String c rest =>
      if Ascii.eqb c (Ascii.ascii_of_nat 46) then EmptyString :: split_dot rest
      else
        match split_dot rest with
        | part :: parts => String c part :: parts
        | [] => [String c EmptyString]
        end
  end.

(** [(t.isIdentifier(p.key) && p.key.name === k) ||
     (t.isStringLiteral(p.key) && p.key.value === k)] on an object property;
    [k] is [undefined] when the split has no such part. *)
Definition hasKey (k : option string) (p : Node) : bool :=
  match p, k with
  | ObjectProperty (Identifier n) _, Some k => String.eqb n k
  | ObjectProperty (StringLiteral v) _, Some k => String.eqb v k
  | _, _ => false
  end.

(** The filter on [statements]: "filter out non-existed keys". *)
Definition keepStatement (topLevelProps : list Node)
    (statement : string * string) : bool :=
  let parts := split_dot (fst statement) in
  let firstKey := parts !! 0%nat in
  let secondKey := parts !! 1%nat in
  match List.find (hasKey firstKey) topLevelProps with
  | None => false
  | Some prop =>
      if negb (truthy_opt secondKey) then true
      else
        match prop with
        | ObjectProperty _ (ObjectExpression properties) =>
            match List.find (hasKey secondKey) properties with
            | Some _ => true
            | None => false
            end
        | _ => false
        end
  end.

(** [createModuleMockImpl(path, def)], up to what it hands to the template
    function. *)
Definition createModuleMockImpl (config : PluginConfiguration) (path : string)
    (def : ModuleMockDefinition) : Result ArrowFuncTemplate :=
  '(topLevelProps, statements) ← topLevelProps config def;
  let objExp :=
    ObjectExpression
      (if requireActual config
       then SpreadElement (Identifier "a") :: topLevelProps
       else topLevelProps) in
  let nameStatements :=
    map (fun '(key, name) => buildNameStatement key name)
      (List.filter (keepStatement topLevelProps) statements) in
  Ok {| template_modulePath := if requireActual config then Some path else None;
        template_statements := nameStatements;
        OBJECT_EXP := objExp |}.

(** What [buildJestMockForModule(source, mocks)] builds its statement from:
    the call [config.jestIdentifier.mock(source, factory)], where the factory
    is what the host's template function makes of [factory]. *)
Record JestMockStatement : Type := mkJestMock {
  jest_object : string;
  source : string;
  factory : ArrowFuncTemplate
}.

Definition buildJestMockForModule (config : PluginConfiguration)
    (source : string) (mocks : ModuleMockDefinition) : Result JestMockStatement :=
  impl ← createModuleMockImpl config source mocks;
  Ok {| jest_object := jestIdentifier config; source := source; factory := impl |}.

(** *** [post]: aggregation and emission

    As in [index.ts]; the entries carry the type of the request and the
    binding they come from. *)

(** [mocksForModule[key] = value], see [Index.assign]. *)
Definition assign (mocksForModule : ModuleMockDefinition) (key : string)
    (value : list ModuleMock) : ModuleMockDefinition :=
  if String.eqb key "__proto__" then mocksForModule
  else oset mocksForModule key value.

(** Namespace import: one round of [mocksForModuleIdentifier.forEach]. *)
Definition addNamespaceMock (i : Index.ImportDefinition)
    (mocksForModule : ModuleMockDefinition) (m : MockDefinition)
    : ModuleMockDefinition :=
  (* won't support deep nesting *)
  if negb (Nat.eqb (length (subProperties m)) 1)
     && negb (Nat.eqb (length (subProperties m)) 2)
  then mocksForModule
  else
    match subProperties m with
    | key :: rest =>
        let subProperty := head rest in
        let mockArr := or_empty (oget mocksForModule key) in
        assign mocksForModule key
          (mockArr ++ [{| mock_expression := expression m;
                          subProperty := subProperty;
                          entry_type := mock_type m;
                          importDef := i |}])
    | [] => mocksForModule
    end.

(** Default or named import: one round of [mocksForModuleIdentifier.forEach]
    on [mocksArr]. *)
Definition addMock (i : Index.ImportDefinition) (mocksArr : list ModuleMock)
    (m : MockDefinition) : list ModuleMock :=
  (* won't support deep nesting *)
  if Nat.ltb 1 (length (subProperties m)) then mocksArr
  else mocksArr ++ [{| mock_expression := expression m;
                       subProperty := head (subProperties m);
                       entry_type := mock_type m;
                       importDef := i |}].

(** Body of [for (const i of importsFromModule)]. *)
Definition addImport (mocks : ordmap (list MockDefinition))
    (mocksForModule : ModuleMockDefinition) (i : Index.ImportDefinition)
    : ModuleMockDefinition :=
  let moduleIdentifierName :=
    match Index.type i with
    | Index.type_default => "default"
    | _ => Index.name i
    end in
  match oget mocks (Index.name i) with
  | None => mocksForModule
  | Some mocksForModuleIdentifier =>
      if Nat.eqb (length mocksForModuleIdentifier) 0 then mocksForModule
      else
        match Index.type i with
        | Index.type_namespace =>
            fold_left (addNamespaceMock i) mocksForModuleIdentifier mocksForModule
        | _ =>
            let mocksArr := or_empty (oget mocksForModule moduleIdentifierName) in
            let mocksArr := fold_left (addMock i) mocksForModuleIdentifier mocksArr in
            assign mocksForModule moduleIdentifierName mocksArr
        end
  end.

(** Whether the body of [for (const i of importsFromModule)] leads to a
    [TypeError] for [i], see [Index.refuses]. *)
Definition refuses (mocks : ordmap (list MockDefinition))
    (i : Index.ImportDefinition) : bool :=
  match oget mocks (Index.name i) with
  | None => false
  | Some mocksForModuleIdentifier =>
      if Nat.eqb (length mocksForModuleIdentifier) 0 then false
      else
        match Index.type i with
        | Index.type_namespace =>
            existsb
              (fun m =>
                 match subProperties m with
                 | [key] | [key; _] => Index.inherited key
                 | _ => false
                 end)
              mocksForModuleIdentifier
        | Index.type_default => false
        | Index.type_import =>
            Index.inherited (Index.name i)
            && (existsb (fun m => Nat.leb (length (subProperties m)) 1)
                  mocksForModuleIdentifier
                || negb (Index.readsAsEmpty (Index.name i)))
        end
  end.

(** Body of [for (const [modulePath, importsFromModule] of
    this.importIdentifiers)], acting on the statements [post] has put on top
    of [program.node.body] so far. *)
Definition postModule (config : PluginConfiguration) (st : PluginState)
    (top : list JestMockStatement)
    (entry : string * list Index.ImportDefinition)
    : Result (list JestMockStatement) :=
  let '(modulePath, importsFromModule) := entry in
  if Index.includes (existingJestMocks st) modulePath then Ok top
  else if existsb (refuses (mocks st)) importsFromModule then Throw
  else
    let mocksForModule := fold_left (addImport (mocks st)) importsFromModule [] in
    if Nat.eqb (length (okeys mocksForModule)) 0 then Ok top
    else
      (* create jest.mock() call *)
      statement ← buildJestMockForModule config modulePath mocksForModule;
      Ok (statement :: top).

(** [post]: the statements it puts on top of [program.node.body], as they
    stand there in the end. *)
Definition post (config : PluginConfiguration) (st : PluginState)
    : Result (list JestMockStatement) :=
  if negb (program st) then Ok []
  else if Nat.eqb (length (mocks st)) 0
          || Nat.eqb (length (importIdentifiers st)) 0
  then Ok []
  else foldM (postModule config st) (importIdentifiers st) [].

(** *** Notions used in the statements *)

(** The replacement [createMockDefinition] makes up for a request that gives
    none. *)
Definition defaultImpl (type : MockType) (lastIdentifier name : string) : Node :=
  match type with
  | Index.type_name => StringLiteral lastIdentifier
  | Index.type_mock => mockFnNamed name
  end.

(** [this.mocks.get(root) || []] with [request] pushed, set under [root]. *)
Definition pushRequest (st : PluginState) (root : string)
    (request : MockDefinition) : PluginState :=
  {| importIdentifiers := importIdentifiers st;
     mocks := oset (mocks st) root (or_empty (oget (mocks st) root) ++ [request]);
     existingJestMocks := existingJestMocks st;
     program := program st |}.

(** [this.mocks.get(root) || []] *)
Definition requestsFor (st : PluginState) (root : string) : list MockDefinition :=
  or_empty (oget (mocks st) root).

(** The entries one binding adds under the export key [key], from the
    requests recorded for its local name; nothing is stored under
    [__proto__]. *)
Definition entriesOf (mocks : ordmap (list MockDefinition)) (key : string)
    (i : Index.ImportDefinition) : list ModuleMock :=
  let requests := or_empty (oget mocks (Index.name i)) in
  if String.eqb key "__proto__" then []
  else
    match Index.type i with
    | Index.type_namespace =>
        map (fun m => {| mock_expression := expression m;
                         subProperty := head (tail (subProperties m));
                         entry_type := mock_type m;
                         importDef := i |})
          (List.filter
             (fun m =>
                (Nat.eqb (length (subProperties m)) 1
                 || Nat.eqb (length (subProperties m)) 2)
                && match head (subProperties m) with
                   | Some k => String.eqb k key
                   | None => false
                   end)
             requests)
    | _ =>
        if String.eqb (Index.exportKey i) key
        then map (fun m => {| mock_expression := expression m;
                              subProperty := head (subProperties m);
                              entry_type := mock_type m;
                              importDef := i |})
               (List.filter (fun m => Nat.leb (length (subProperties m)) 1)
                  requests)
        else []
    end.

(** The entries collected under [key] for a module: binding by binding in
    the order of the import specifiers, and for each binding in the order of
    its requests. *)
Definition collected (mocks : ordmap (list MockDefinition))
    (imports : list Index.ImportDefinition) (key : string) : list ModuleMock :=
  flat_map (entriesOf mocks key) imports.

(** An entry without the fields [index.ts] does not have. *)
Definition erase (m : ModuleMock) : Index.ModuleMock :=
  {| Index.mock_expression := mock_expression m;
     Index.subProperty := subProperty m |}.

Definition eraseDef (def : ModuleMockDefinition) : Index.ModuleMockDefinition :=
  map (fun entry => (fst entry, map erase (snd entry))) def.

(** A recorded request and a state without the fields [index.ts] does not
    have. *)
Definition eraseMock (m : MockDefinition) : Index.MockDefinition :=
  {| Index.subProperties := subProperties m; Index.expression := expression m |}.

Definition eraseMocks (mocks : ordmap (list MockDefinition))
    : ordmap (list Index.MockDefinition) :=
  map (fun entry => (fst entry, map eraseMock (snd entry))) mocks.

Definition eraseState (st : PluginState) : Index.PluginState :=
  {| Index.importIdentifiers := importIdentifiers st;
     Index.mocks := eraseMocks (mocks st);
     Index.existingJestMocks := existingJestMocks st;
     Index.program := program st |}.

(** A name without a full stop, as every identifier is. *)
Fixpoint dotFree (s : string) : bool :=
  match s with
  | EmptyString => true
  | String c rest => negb (Ascii.eqb c (Ascii.ascii_of_nat 46)) && dotFree rest
  end.

Definition notSpread (p : Node) : bool :=
  match p with SpreadElement _ => false | _ => true end.

(** An object literal without its spread elements. *)
Definition withoutSpreads (value : Node) : Node :=
  match value with
  | ObjectExpression properties => ObjectExpression (List.filter notSpread properties)
  | _ => value
  end.

(** A top-level property whose value is taken without its spread elements. *)
Definition keyedOnly (p : Node) : Node :=
  match p with
  | ObjectProperty key value => ObjectProperty key (withoutSpreads value)
  | _ => p
  end.

(** An object literal read through its keyed properties, two levels deep. *)
Definition plainObject (value : Node) : Node :=
  match value with
  | ObjectExpression properties =>
      ObjectExpression (map keyedOnly (List.filter notSpread properties))
  | _ => value
  end.

Definition withRequireActual (config : PluginConfiguration) (b : bool)
    : PluginConfiguration :=
  {| jestIdentifier := jestIdentifier config;
     identifiers := identifiers config;
     ignoreIdentifiers := ignoreIdentifiers config;
     requireActual := b |}.

End Configurable.


(** ** The specification's words, for comparison with the code *)
Module Spec.

(** Section 4.2, [resolve]: a bare identifier, or a chain of plain member
    accesses on an identifier; anything else is invalid. *)
Fixpoint resolve (expr : Node) : option (string * list string) :=
  match expr with
  | Identifier x => Some (x, [])
  | MemberExpression object (Identifier p) false =>
      match resolve object with
      | Some (rootName, segments) => Some (rootName, segments ++ [p])
      | None => None
      end
  | _ => None
  end.

(** Section 4.5 step 4: the current value is flat or nested. *)
Inductive Resolved : Type :=
| Flat (replacement : Node)
| Nested (subKeys : gmap string Node).

(** The sub-keys accumulated so far, if the current value is nested. *)
Definition accumulated (current : option Resolved) : gmap string Node :=
  match current with
  | Some (Nested subKeys) => subKeys
  | _ => ∅
  end.

Definition notFlat (current : option Resolved) : Prop :=
  match current with
  | Some (Flat _) => False
  | _ => True
  end.

(** One entry of the in-order replay. *)
Definition replayStep (current : option Resolved)
    (entry : Node * option string) : option Resolved :=
  match entry with
  | (replacement, None) => Some (Flat replacement)
  | (replacement, Some subKey) =>
      Some (Nested (<[subKey := replacement]> (accumulated current)))
  end.

Definition replay (entries : list (Node * option string)) : option Resolved :=
  fold_left replayStep entries None.

(** The mapping an object literal denotes: a later property with the same
    key overwrites an earlier one. *)
Definition objectMap (properties : list Node) : gmap string Node :=
  fold_left
    (fun m p =>
       match p with
       | ObjectProperty (StringLiteral k) v
       | ObjectProperty (Identifier k) v => <[k := v]> m
       | _ => m
       end)
    properties ∅.

(** An emitted value stands for a resolved value. *)
Definition represents (r : option Resolved) (value : Node) : Prop :=
  match r with
  | Some (Flat replacement) => value = replacement
  | Some (Nested subKeys) =>
      exists properties,
        value = ObjectExpression properties /\ objectMap properties = subKeys
  | None => False
  end.

(** The replay as the code performs it: a sub-key entry also keeps the
    properties of a flat replacement that is itself an object literal. *)
Definition kept (current : option Resolved) : gmap string Node :=
  match current with
  | Some (Nested subKeys) => subKeys
  | Some (Flat (ObjectExpression properties)) => objectMap properties
  | _ => ∅
  end.

Definition replayStepKeeping (current : option Resolved)
    (entry : Node * option string) : option Resolved :=
  match entry with
  | (replacement, None) => Some (Flat replacement)
  | (replacement, Some subKey) =>
      Some (Nested (<[subKey := replacement]> (kept current)))
  end.

Definition replayKeeping (entries : list (Node * option string))
    : option Resolved :=
  fold_left replayStepKeeping entries None.

(** The running value of the code against the current value of the replay;
    before the first entry the running value is an empty object literal. *)
Definition running (current : option Resolved) (value : Node) : Prop :=
  match current with
  | None => value = ObjectExpression []
  | Some _ => represents current value
  end.

(** The dotted display name [root.p1.p2...pn]. *)
Definition dotted (rootName : string) (segments : list string) : string :=
  fold_left (fun acc p => String.append acc (String.append "." p))
    segments rootName.

End Spec.

(** * Verification *)

(** ** The exception monad and ordered maps *)

Ltac unfold_bind :=
  unfold mbind, Result_bind, mret, Result_ret in *.

Lemma foldM_app {A B : Type} (f : A -> B -> Result A) (l1 l2 : list B) (acc : A) :
  foldM f (l1 ++ l2) acc = (acc' ← foldM f l1 acc; foldM f l2 acc').
Proof.
  revert acc. induction l1 as [|x l1 IH]; intros acc; simpl.
  - reflexivity.
  - unfold_bind. destruct (f acc x) as [acc1|]; [apply IH | reflexivity].
Qed.

Section OrderedMapFacts.
Context {V : Type}.
Implicit Types (m : ordmap V) (k : string) (v : V).

Lemma oget_oset_eq m k v : oget (oset m k v) k = Some v.
Proof.
  induction m as [|[k' v'] m IH]; simpl.
  - now rewrite String.eqb_refl.
  - destruct (String.eqb k' k) eqn:E; simpl.
    + now rewrite String.eqb_refl.
    + now rewrite E.
Qed.

Lemma oget_oset_ne m k k' v : k <> k' -> oget (oset m k v) k' = oget m k'.
Proof.
  intros Hne. induction m as [|[k0 v0] m IH]; simpl.
  - destruct (String.eqb k k') eqn:E; [|reflexivity].
    apply String.eqb_eq in E. contradiction.
  - destruct (String.eqb k0 k) eqn:E; simpl.
    + apply String.eqb_eq in E. subst k0.
      destruct (String.eqb k k') eqn:E'; [|reflexivity].
      apply String.eqb_eq in E'. contradiction.
    + now rewrite IH.
Qed.

Lemma oget_None_includes m k :
  oget m k = None <-> existsb (String.eqb k) (okeys m) = false.
Proof.
  induction m as [|[k' v'] m IH]; simpl; [tauto|].
  rewrite (String.eqb_sym k k').
  destruct (String.eqb k' k); simpl; [split; discriminate | exact IH].
Qed.

Lemma okeys_oset_old m k v v0 : oget m k = Some v0 -> okeys (oset m k v) = okeys m.
Proof.
  induction m as [|[k' v'] m IH]; simpl; [discriminate|].
  destruct (String.eqb k' k) eqn:E; simpl.
  - apply String.eqb_eq in E. now subst.
  - intros H. now rewrite (IH H).
Qed.

Lemma okeys_oset_new m k v : oget m k = None -> okeys (oset m k v) = okeys m ++ [k].
Proof.
  induction m as [|[k' v'] m IH]; simpl; [reflexivity|].
  destruct (String.eqb k' k) eqn:E; simpl; [discriminate|].
  intros H. now rewrite (IH H).
Qed.

End OrderedMapFacts.

(** ** [createModuleMockImpl] *)
Module ModuleMockFacts.
Import Index.

(** The loop over the keys adds the properties of each key at the end and
    never looks at the ones already there. *)
Lemma topLevelProps_acc (def : ModuleMockDefinition) (acc : list Node) :
  foldM
    (fun props '(key, mocks) =>
       prop ← topLevelProp key mocks;
       Ok (match prop with Some p => props ++ [p] | None => props end))
    def acc
  = (props ← topLevelProps def; Ok (acc ++ props)).
Proof.
  unfold topLevelProps. revert acc.
  induction def as [|[key mocks] def IH]; intros acc; simpl.
  - unfold_bind. now rewrite app_nil_r.
  - unfold_bind. destruct (topLevelProp key mocks) as [[p|]|]; simpl.
    + rewrite (IH (acc ++ [p])). rewrite (IH [p]). unfold_bind.
      destruct (foldM _ def []); [|reflexivity].
      now rewrite <- app_assoc.
    + rewrite (IH acc). rewrite (IH []). unfold_bind.
      now destruct (foldM _ def []).
    + reflexivity.
Qed.

Lemma topLevelProps_app (def1 def2 : ModuleMockDefinition) :
  topLevelProps (def1 ++ def2)
  = (props1 ← topLevelProps def1; props2 ← topLevelProps def2;
     Ok (props1 ++ props2)).
Proof.
  unfold topLevelProps at 1. rewrite foldM_app. fold (topLevelProps def1).
  unfold_bind. destruct (topLevelProps def1) as [props1|]; [|reflexivity].
  apply topLevelProps_acc.
Qed.

Lemma topLevelProps_cons key mocks (def : ModuleMockDefinition) :
  topLevelProps ((key, mocks) :: def)
  = (prop ← topLevelProp key mocks; props ← topLevelProps def;
     Ok (match prop with Some p => p :: props | None => props end)).
Proof.
  unfold topLevelProps at 1. simpl. unfold_bind.
  destruct (topLevelProp key mocks) as [[p|]|]; simpl; [| |reflexivity].
  - rewrite topLevelProps_acc. unfold_bind. now destruct (topLevelProps def).
  - rewrite topLevelProps_acc. unfold_bind. now destruct (topLevelProps def).
Qed.

Lemma last_Some_length {A : Type} (l : list A) (x : A) :
  last l = Some x -> Nat.eqb (length l) 0 = false.
Proof. destruct l; [discriminate | reflexivity]. Qed.

Lemma all_flat_forallb (mocks : list ModuleMock) :
  Forall (fun m => subProperty m = None) mocks ->
  forallb noSubProperty mocks = true.
Proof.
  induction 1 as [|m l Hm _ IH]; simpl; [reflexivity|].
  unfold noSubProperty at 1. now rewrite Hm, IH.
Qed.

Lemma topLevelProp_all_flat key (mocks : list ModuleMock) (lastMock : ModuleMock) :
  last mocks = Some lastMock ->
  Forall (fun m => subProperty m = None) mocks ->
  topLevelProp key mocks
  = Ok (Some (ObjectProperty (StringLiteral key) (mock_expression lastMock))).
Proof.
  intros Hlast Hflat. unfold topLevelProp.
  rewrite (last_Some_length _ _ Hlast), (all_flat_forallb _ Hflat), Hlast.
  reflexivity.
Qed.

(** *** Replay of the entries of one key *)

Lemma objectMap_snoc (properties : list Node) (k : string) (v : Node) :
  Spec.objectMap (properties ++ [ObjectProperty (StringLiteral k) v])
  = <[k := v]> (Spec.objectMap properties).
Proof. unfold Spec.objectMap. now rewrite fold_left_app. Qed.

Lemma foldM_cons {A B : Type} (f : A -> B -> Result A) (x : B) (l : list B)
    (acc : A) :
  foldM f (x :: l) acc = (acc' ← f acc x; foldM f l acc').
Proof. reflexivity. Qed.

Lemma nestedStep_flat (value : Node) (m : ModuleMock) :
  subProperty m = None -> nestedStep value m = Ok (mock_expression m).
Proof. intros H. unfold nestedStep, noSubProperty. now rewrite H. Qed.

Lemma nestedStep_subKey (properties : list Node) (e : Node) (k : string) :
  truthy k = true ->
  nestedStep (ObjectExpression properties)
    {| mock_expression := e; subProperty := Some k |}
  = Ok (ObjectExpression (properties ++ [ObjectProperty (StringLiteral k) e])).
Proof. intros H. unfold nestedStep, noSubProperty. simpl. now rewrite H. Qed.

(** A sub-key entry on a running value that is not an object literal. *)
Lemma nestedStep_throws (value e : Node) (k : string) :
  truthy k = true -> isObjectExpression value = false ->
  nestedStep value {| mock_expression := e; subProperty := Some k |} = Throw.
Proof.
  intros H Hv. unfold nestedStep, noSubProperty. simpl. now rewrite H, Hv.
Qed.

Lemma running_kept (current : option Spec.Resolved) (properties : list Node) :
  Spec.running current (ObjectExpression properties) ->
  Spec.objectMap properties = Spec.kept current.
Proof.
  destruct current as [[e|subKeys]|]; simpl.
  - intros <-. reflexivity.
  - intros (properties' & [= <-] & H). exact H.
  - intros [= ->]. reflexivity.
Qed.

Lemma truthy_nonempty (k : string) : k <> "" -> truthy k = true.
Proof.
  intros H. unfold truthy. destruct (String.eqb_spec k ""); [contradiction|].
  reflexivity.
Qed.

(** The inner loop follows the replay as long as every sub-key entry finds an
    object literal. *)
Lemma nested_loop_replay (mocks : list ModuleMock) :
  Forall (fun m => subProperty m <> Some "") mocks ->
  forall (value : Node) (current : option Spec.Resolved),
    Spec.running current value ->
    subKeysFindObject (isObjectExpression value) mocks = true ->
    exists value',
      foldM nestedStep mocks value = Ok value'
      /\ Spec.running
           (fold_left Spec.replayStepKeeping (map entryOf mocks) current) value'.
Proof.
  induction 1 as [|m mocks Hm _ IH]; intros value current Hrun Hok.
  - exists value. now split.
  - rewrite foldM_cons. destruct m as [e [k|]].
    + (* sub-key entry *)
      assert (Hk : truthy k = true).
      { apply truthy_nonempty. intros ->. now apply Hm. }
      simpl in Hok. unfold noSubProperty in Hok. simpl in Hok.
      rewrite Hk in Hok. simpl in Hok.
      apply andb_true_iff in Hok as [Hobj Hok].
      destruct value; try discriminate.
      rewrite nestedStep_subKey by assumption.
      apply (IH _ (Spec.replayStepKeeping current (e, Some k))); [|exact Hok].
      simpl. eexists. split; [reflexivity|].
      rewrite objectMap_snoc. now rewrite (running_kept current).
    + (* flat entry *)
      rewrite nestedStep_flat by reflexivity.
      simpl in Hok. unfold noSubProperty in Hok. simpl in Hok.
      apply (IH _ (Spec.replayStepKeeping current (e, None))); [|exact Hok].
      reflexivity.
Qed.

(** Otherwise the loop reaches [t.objectExpression()] and throws. *)
Lemma nested_loop_throws (mocks : list ModuleMock) :
  Forall (fun m => subProperty m <> Some "") mocks ->
  forall value : Node,
    subKeysFindObject (isObjectExpression value) mocks = false ->
    foldM nestedStep mocks value = Throw.
Proof.
  induction 1 as [|m mocks Hm _ IH]; intros value Hok; [discriminate|].
  rewrite foldM_cons. destruct m as [e [k|]].
  - assert (Hk : truthy k = true).
    { apply truthy_nonempty. intros ->. now apply Hm. }
    simpl in Hok. unfold noSubProperty in Hok. simpl in Hok.
    rewrite Hk in Hok. simpl in Hok.
    destruct (isObjectExpression value) eqn:Hv.
    + destruct value; try discriminate.
      rewrite nestedStep_subKey by assumption.
      apply (IH (ObjectExpression _)). exact Hok.
    + now rewrite nestedStep_throws.
  - rewrite nestedStep_flat by reflexivity.
    simpl in Hok. unfold noSubProperty in Hok. simpl in Hok.
    apply (IH e). exact Hok.
Qed.

Lemma flat_entries_fold (flat : list ModuleMock) (value : Node) :
  Forall (fun m => subProperty m = None) flat ->
  foldM nestedStep flat value
  = Ok (match last flat with Some l => mock_expression l | None => value end).
Proof.
  intros H. revert value. induction H as [|m flat Hm _ IH]; intros value.
  - reflexivity.
  - rewrite foldM_cons, nestedStep_flat by assumption.
    unfold_bind. rewrite IH.
    destruct flat as [|m0 flat']; [reflexivity|].
    change (last (m :: m0 :: flat')) with (last (m0 :: flat')).
    destruct (last (m0 :: flat')) eqn:Hlast; [reflexivity|].
    apply last_None in Hlast. discriminate.
Qed.

Lemma all_flat_subKeysFindObject (flat : list ModuleMock) (object : bool) :
  forallb noSubProperty flat = true -> subKeysFindObject object flat = true.
Proof.
  revert object. induction flat as [|m flat IH]; intros object H; [reflexivity|].
  simpl in *. apply andb_true_iff in H as [Hm H]. rewrite Hm. now apply IH.
Qed.

Lemma forallb_noSubProperty (mocks : list ModuleMock) :
  Forall (fun m => subProperty m <> Some "") mocks ->
  forallb noSubProperty mocks = true ->
  Forall (fun m => subProperty m = None) mocks.
Proof.
  induction 1 as [|m mocks Hm _ IH]; intros H; [constructor|].
  simpl in H. apply andb_true_iff in H as [H1 H2].
  constructor; [|now apply IH].
  destruct m as [e [k|]]; [|reflexivity].
  unfold noSubProperty in H1. simpl in *.
  rewrite truthy_nonempty in H1; [discriminate|]. intros ->. now apply Hm.
Qed.

Lemma replayKeeping_nonempty (entries : list (Node * option string))
    (current : option Spec.Resolved) :
  entries <> [] ->
  fold_left Spec.replayStepKeeping entries current <> None.
Proof.
  revert current.
  induction entries as [|entry entries IH] using rev_ind; intros current H;
    [contradiction|].
  rewrite fold_left_app. simpl. destruct entry as [e [k|]]; discriminate.
Qed.

(** The value emitted for a key, whichever branch of [createModuleMockImpl]
    produces it: the replay if every sub-key entry finds an object literal,
    an exception otherwise. *)
Lemma topLevelProp_replayKeeping (key : string) (mocks : list ModuleMock) :
  mocks <> [] ->
  Forall (fun m => subProperty m <> Some "") mocks ->
  subKeysFindObject true mocks = true ->
  exists value,
    topLevelProp key mocks
      = Ok (Some (ObjectProperty (StringLiteral key) value))
    /\ Spec.represents (Spec.replayKeeping (map entryOf mocks)) value.
Proof.
  intros Hne Hwf Hok.
  destruct (nested_loop_replay mocks Hwf (ObjectExpression []) None)
    as (value & Hfold & Hrun); [reflexivity | exact Hok |].
  fold (Spec.replayKeeping (map entryOf mocks)) in Hrun.
  assert (Hrep : Spec.represents (Spec.replayKeeping (map entryOf mocks)) value).
  { pose proof (replayKeeping_nonempty (map entryOf mocks) None) as Hsome.
    unfold Spec.replayKeeping in *.
    destruct (fold_left Spec.replayStepKeeping (map entryOf mocks) None).
    - exact Hrun.
    - exfalso. apply Hsome; [|reflexivity]. now destruct mocks. }
  exists value. split; [|exact Hrep].
  unfold topLevelProp.
  destruct (Nat.eqb (length mocks) 0) eqn:Hlen.
  { destruct mocks; [contradiction | discriminate]. }
  destruct (forallb noSubProperty mocks) eqn:Hall.
  - pose proof (forallb_noSubProperty mocks Hwf Hall) as Hflat.
    rewrite (flat_entries_fold mocks _ Hflat) in Hfold.
    destruct (last mocks) as [lastMock|] eqn:Hlast.
    + now injection Hfold as <-.
    + apply last_None in Hlast. contradiction.
  - unfold_bind. simpl objectExpression. cbv iota. now rewrite Hfold.
Qed.

Lemma topLevelProp_throws (key : string) (mocks : list ModuleMock) :
  Forall (fun m => subProperty m <> Some "") mocks ->
  subKeysFindObject true mocks = false ->
  topLevelProp key mocks = Throw.
Proof.
  intros Hwf Hok. unfold topLevelProp.
  destruct (Nat.eqb (length mocks) 0) eqn:Hlen.
  { destruct mocks; [discriminate Hok | discriminate]. }
  destruct (forallb noSubProperty mocks) eqn:Hall.
  - rewrite (all_flat_subKeysFindObject mocks true Hall) in Hok. discriminate.
  - unfold_bind. simpl objectExpression. cbv iota.
    now rewrite (nested_loop_throws mocks Hwf (ObjectExpression [])).
Qed.

(** Where no flat replacement is an object literal, keeping changes nothing:
    the two replays agree. *)
Lemma replayKeeping_replay (entries : list (Node * option string)) :
  Forall (fun entry => snd entry = None -> isObjectExpression (fst entry) = false)
    entries ->
  Spec.replayKeeping entries = Spec.replay entries.
Proof.
  intros H. unfold Spec.replayKeeping, Spec.replay.
  assert (Hgen : forall current,
             match current with
             | Some (Spec.Flat e) => isObjectExpression e = false
             | _ => True
             end ->
             fold_left Spec.replayStepKeeping entries current
             = fold_left Spec.replayStep entries current).
  { induction H as [|[e [k|]] entries He _ IH]; intros current Hcur;
      [reflexivity| |].
    - simpl.
      assert (Hk : Spec.kept current = Spec.accumulated current).
      { destruct current as [[e0|subKeys]|]; try reflexivity.
        simpl in *. destruct e0; try reflexivity. discriminate. }
      rewrite Hk. now apply IH.
    - simpl. apply IH. simpl. now apply He. }
  now apply Hgen.
Qed.

(** In [index.ts] a sub-key entry that finds a flat running value which is
    not an object literal reaches [t.objectExpression()] and throws:
    [jest.mockObj(A); jest.mockObj(A.b);]. *)
Lemma subkey_after_flat_throws :
  topLevelProp "default"
    [ {| mock_expression := StringLiteral "A"; subProperty := None |};
      {| mock_expression := StringLiteral "b"; subProperty := Some "b" |} ]
  = Throw.
Proof. reflexivity. Qed.

(** C2, as stated, fails: after a flat replacement that is itself an object
    literal, a sub-key entry does not start a fresh nested mapping; the
    running value passes the [isObjectExpression] test and the sub-key is
    added to the properties of the user's literal.  Entries for
    [jest.mockObj(A, {x: 1}); jest.mockObj(A.b);] with [A] a default
    import: the replay gives the mapping with [b] alone, the code emits
    [{x: 1, "b": "b"}]. *)
Lemma C2_counterexample_object_literal_kept :
  let entries :=
    [ {| mock_expression :=
           ObjectExpression [ObjectProperty (Identifier "x") (OtherExpression 1)];
         subProperty := None |};
      {| mock_expression := StringLiteral "b"; subProperty := Some "b" |} ] in
  exists value,
    topLevelProp "default" entries
      = Ok (Some (ObjectProperty (StringLiteral "default") value))
    /\ Spec.replay (map entryOf entries)
      = Some (Spec.Nested {[ "b" := StringLiteral "b" ]})
    /\ ~ Spec.represents (Spec.replay (map entryOf entries)) value.
Proof.
  simpl. eexists. split; [reflexivity|]. split; [reflexivity|].
  intros (properties & Hvalue & Hmap).
  injection Hvalue as <-.
  apply (f_equal (fun m : gmap string Node => m !! "x")) in Hmap.
  unfold Spec.objectMap in Hmap. simpl in Hmap.
  rewrite lookup_insert_ne in Hmap by discriminate.
  rewrite lookup_insert_eq in Hmap.
  rewrite lookup_insert_ne in Hmap by discriminate.
  rewrite lookup_empty in Hmap. discriminate.
Qed.

(** C2 (amended). For every export key and every non-empty ordered sequence
    of (replacement, optional sub-key) entries in which no sub-key entry
    directly follows a flat replacement that is not an object literal, the
    emitted value is computed by in-order replay: a no-sub-key entry resets
    the running value to its flat replacement, discarding any nested
    accumulation; a sub-key entry sets or overwrites its sub-key, last write
    winning, in a nested mapping that keeps the sub-keys accumulated so far
    or, when the running value is a flat replacement that is itself an object
    literal, the properties of that literal. *)
Theorem C2_replay_keeping_object_literals
    (key : string) (mocks : list ModuleMock) :
  mocks <> [] ->
  Forall (fun m => subProperty m <> Some "") mocks ->
  subKeysFindObject true mocks = true ->
  exists value,
    topLevelProp key mocks
      = Ok (Some (ObjectProperty (StringLiteral key) value))
    /\ Spec.represents (Spec.replayKeeping (map entryOf mocks)) value.
Proof. apply topLevelProp_replayKeeping. Qed.

(** [jest.mockObj(C.Nest, {}); jest.mockObj(C.Nest.Nest1, C.Nest.Nest2);
    jest.mockObj(C.Nest.Nest1, "again");] *)
Lemma C2_replay_witness :
  exists value,
    topLevelProp "Nest"
      [ {| mock_expression := ObjectExpression []; subProperty := None |};
        {| mock_expression := StringLiteral "Nest1"; subProperty := Some "Nest1" |};
        {| mock_expression := StringLiteral "Nest2"; subProperty := Some "Nest2" |};
        {| mock_expression := StringLiteral "again"; subProperty := Some "Nest1" |} ]
      = Ok (Some (ObjectProperty (StringLiteral "Nest") value))
    /\ Spec.represents
         (Spec.replayKeeping
            (map entryOf
               [ {| mock_expression := ObjectExpression []; subProperty := None |};
                 {| mock_expression := StringLiteral "Nest1";
                    subProperty := Some "Nest1" |};
                 {| mock_expression := StringLiteral "Nest2";
                    subProperty := Some "Nest2" |};
                 {| mock_expression := StringLiteral "again";
                    subProperty := Some "Nest1" |} ]))
         value.
Proof.
  apply (C2_replay_keeping_object_literals "Nest").
  - discriminate.
  - repeat constructor; discriminate.
  - reflexivity.
Defined.

End ModuleMockFacts.

(** ** [createMockDefinition] *)
Module MockDefinitionFacts.
Import Index.

Lemma walkObject_base (obj : Node) (subIdentifiers : list string) :
  fst (walkObject obj subIdentifiers) = base obj.
Proof.
  revert subIdentifiers.
  induction obj; intros subIdentifiers; simpl; try reflexivity.
  apply IHobj1.
Qed.

(** C5, as stated, fails for bracket accesses: the [computed] flag of a
    member expression is never read, so [X[a]] is recorded as the path
    [X.a], and a non-identifier property in the middle of a chain is skipped,
    so [X["k"].b] is recorded as [X.b].  Neither resolves in the sense of
    the specification. *)
Lemma C5_counterexample_computed_access :
  let bracket := MemberExpression (Identifier "X") (Identifier "a") true in
  let skipped :=
    MemberExpression
      (MemberExpression (Identifier "X") (StringLiteral "k") true)
      (Identifier "b") false in
  Spec.resolve bracket = None
  /\ mocks (createMockDefinition pre bracket type_name None)
     = [("X", [{| subProperties := ["a"]; expression := StringLiteral "a" |}])]
  /\ Spec.resolve skipped = None
  /\ mocks (createMockDefinition pre skipped type_name None)
     = [("X", [{| subProperties := ["b"]; expression := StringLiteral "b" |}])].
Proof. repeat split; reflexivity. Qed.

Lemma createMockDefinition_unresolvable
    (st : PluginState) (def : Node) (type : MockType) (impl : option Node) :
  unresolvable def = true ->
  createMockDefinition st def type impl = st.
Proof.
  intros H. unfold createMockDefinition.
  destruct def; simpl in *; try reflexivity; try discriminate.
  destruct def2; simpl in *; try reflexivity.
  pose proof (walkObject_base def1 []) as Hbase.
  destruct (walkObject def1 []) as [obj subIdentifiers]. simpl in Hbase.
  subst obj. destruct (base def1); simpl in *; try discriminate;
    now rewrite orb_true_r.
Qed.

(** C5 (amended). An argument that is neither an identifier nor a member
    expression (a call result, a literal), a member expression whose own
    property is not an identifier node (a bracket access with a literal
    key), or one whose innermost object is not an identifier (a call result
    as base) is ignored entirely: [createMockDefinition] leaves the state as
    it is, so no mock request is recorded. *)
Theorem C5_unresolvable_argument_ignored
    (st : PluginState) (def : Node) (type : MockType) (impl : option Node) :
  unresolvable def = true ->
  createMockDefinition st def type impl = st.
Proof. apply createMockDefinition_unresolvable. Qed.

Lemma C5_unresolvable_witness :
  createMockDefinition pre
    (MemberExpression (CallExpression (Identifier "load") []) (Identifier "a") false)
    type_name None
  = pre.
Proof.
  apply (C5_unresolvable_argument_ignored pre
           (MemberExpression (CallExpression (Identifier "load") [])
              (Identifier "a") false)
           type_name None).
  reflexivity.
Defined.

(** In a call without implementation the ignored arguments do not disturb
    the others. *)
Lemma unresolvable_arguments_filtered (type : MockType) (args : list Node)
    (st : PluginState) :
  fold_left (fun st arg => createMockDefinition st arg type None) args st
  = fold_left (fun st arg => createMockDefinition st arg type None)
      (List.filter (fun arg => negb (unresolvable arg)) args) st.
Proof.
  revert st. induction args as [|arg args IH]; intros st; simpl; [reflexivity|].
  destruct (unresolvable arg) eqn:E; simpl.
  - rewrite createMockDefinition_unresolvable by assumption. apply IH.
  - apply IH.
Qed.

(** *** Plain member chains *)

Lemma chain_snoc (root : string) (segments : list string) (p : string) :
  chain root (segments ++ [p])
  = MemberExpression (chain root segments) (Identifier p) false.
Proof. unfold chain. now rewrite fold_left_app. Qed.

Lemma walkObject_chain (root : string) (segments acc : list string) :
  walkObject (chain root segments) acc = (Identifier root, segments ++ acc).
Proof.
  revert acc. induction segments as [|p segments IH] using rev_ind; intros acc.
  - reflexivity.
  - rewrite chain_snoc. simpl. rewrite IH. now rewrite <- app_assoc.
Qed.

Lemma truthy_append (a b : string) :
  truthy a = true -> truthy (String.append a b) = true.
Proof. destruct a; [discriminate | reflexivity]. Qed.

Lemma dotted_snoc (root : string) (segments : list string) (p : string) :
  Spec.dotted root (segments ++ [p])
  = String.append (Spec.dotted root segments) (String.append "." p).
Proof. unfold Spec.dotted. now rewrite fold_left_app. Qed.

Lemma truthy_dotted (root : string) (segments : list string) :
  truthy root = true -> truthy (Spec.dotted root segments) = true.
Proof.
  intros H. induction segments as [|p segments IH] using rev_ind; [exact H|].
  rewrite dotted_snoc. now apply truthy_append.
Qed.

Lemma getNameOfExpression_chain (root : string) (segments : list string) :
  truthy root = true ->
  Configurable.getNameOfExpression (chain root segments) ""
  = Spec.dotted root segments.
Proof.
  intros Hroot. induction segments as [|p segments IH] using rev_ind.
  - reflexivity.
  - rewrite chain_snoc, dotted_snoc.
    assert (Hobj : match chain root segments with
                   | Identifier n => Configurable.addName "" n
                   | MemberExpression _ _ _ =>
                       Configurable.addName ""
                         (Configurable.getNameOfExpression (chain root segments) "")
                   | _ => ""
                   end = Spec.dotted root segments).
    { rewrite <- IH. destruct segments as [|q segments'] using rev_ind.
      - reflexivity.
      - rewrite chain_snoc. reflexivity. }
    cbn [Configurable.getNameOfExpression]. rewrite Hobj.
    unfold Configurable.addName. now rewrite truthy_dotted.
Qed.

(** The state after one more request for [root]. *)
Lemma createMockDefinition_chain
    (st : Configurable.PluginState) (root : string) (segments : list string)
    (type : MockType) (name : string) :
  truthy root = true ->
  truthy (default root (last segments)) = true ->
  Configurable.createMockDefinition st (chain root segments) type name None
  = {| Configurable.importIdentifiers := Configurable.importIdentifiers st;
       Configurable.mocks :=
         oset (Configurable.mocks st) root
           (or_empty (oget (Configurable.mocks st) root)
            ++ [{| Configurable.subProperties := segments;
                   Configurable.expression :=
                     match type with
                     | type_name => StringLiteral (default root (last segments))
                     | type_mock => Configurable.mockFnNamed name
                     end;
                   Configurable.mock_type := type |}]);
       Configurable.existingJestMocks := Configurable.existingJestMocks st;
       Configurable.program := Configurable.program st |}.
Proof.
  intros Hroot Hlast. unfold Configurable.createMockDefinition.
  destruct segments as [|p segments] using rev_ind.
  - simpl in *. rewrite Hroot. reflexivity.
  - clear IHsegments. rewrite last_snoc in *. simpl in Hlast.
    rewrite chain_snoc. simpl.
    rewrite walkObject_chain, app_nil_r. simpl. rewrite Hlast, Hroot. simpl.
    reflexivity.
Qed.

(** The fixed-identifier [index.ts] records the same string literal for a
    [name] request; its [mock] requests get a bare [jest.fn()]. *)
Lemma Index_default_replacement
    (st : PluginState) (root : string) (segments : list string)
    (type : MockType) :
  truthy root = true ->
  truthy (default root (last segments)) = true ->
  createMockDefinition st (chain root segments) type None
  = {| importIdentifiers := importIdentifiers st;
       mocks :=
         oset (mocks st) root
           (or_empty (oget (mocks st) root)
            ++ [{| subProperties := segments;
                   expression :=
                     match type with
                     | type_name => StringLiteral (default root (last segments))
                     | type_mock =>
                         CallExpression
                           (MemberExpression (Identifier "jest") (Identifier "fn")
                              false) []
                     end |}]);
       existingJestMocks := existingJestMocks st;
       program := program st |}.
Proof.
  intros Hroot Hlast. unfold createMockDefinition.
  destruct segments as [|p segments] using rev_ind.
  - simpl in *. rewrite Hroot. reflexivity.
  - clear IHsegments. rewrite last_snoc in *. simpl in Hlast.
    rewrite chain_snoc. simpl.
    rewrite walkObject_chain, app_nil_r. simpl. rewrite Hlast, Hroot. simpl.
    reflexivity.
Qed.

End MockDefinitionFacts.

(** ** The traversal *)

Module TraversalFacts.
Import Index.

Lemma traverseBody_nil (st : PluginState) : traverseBody st [] = (st, []).
Proof. reflexivity. Qed.

Lemma traverseBody_cons (st : PluginState) (n : Node) (l : list Node) :
  traverseBody st (n :: l)
  = (let '(st1, r) := traverseNode st n in
     let '(st2, rs) := traverseBody st1 l in
     (st2, match r with Some n' => n' :: rs | None => rs end)).
Proof. reflexivity. Qed.

(** [path.remove()] is called exactly on the mock requests. *)
Lemma removed_iff_mock_request (st : PluginState) (n : Node) :
  snd (CallExpression_visitor st n)
  = match isMockObjCallExpession n with Some _ => true | None => false end.
Proof.
  unfold CallExpression_visitor.
  destruct n; try reflexivity.
  destruct (isMockObjCallExpession (CallExpression n arguments)); [reflexivity|].
  destruct (isJestMockCallExpression (CallExpression n arguments)); [|reflexivity].
  destruct arguments as [|[] ?]; reflexivity.
Qed.

Lemma traverseNode_eq (st : PluginState) (n : Node) :
  traverseNode st n
  = match n with
    | ImportDeclaration specifiers source =>
        (ImportDeclaration_visitor st specifiers source, Some n)
    | CallExpression callee args =>
        let '(st1, removed) := CallExpression_visitor st n in
        if removed then (st1, None)
        else
          let '(st2, callee') := traverseNode st1 callee in
          let '(st3, args') := traverseBody st2 args in
          (st3, Some (CallExpression (slot callee') args'))
    | MemberExpression object property computed =>
        let '(st1, object') := traverseNode st object in
        let '(st2, property') := traverseNode st1 property in
        (st2, Some (MemberExpression (slot object') (slot property') computed))
    | ObjectExpression properties =>
        let '(st1, properties') := traverseBody st properties in
        (st1, Some (ObjectExpression properties'))
    | ObjectProperty key value =>
        let '(st1, key') := traverseNode st key in
        let '(st2, value') := traverseNode st1 value in
        (st2, Some (ObjectProperty (slot key') (slot value')))
    | SpreadElement argument =>
        let '(st1, argument') := traverseNode st argument in
        (st1, Some (SpreadElement (slot argument')))
    | ArrowFunctionExpression body =>
        let '(st1, body') := traverseNode st body in
        (st1, Some (ArrowFunctionExpression
                      (match body' with Some b => b | None => BlockStatement [] end)))
    | BlockStatement body =>
        let '(st1, body') := traverseBody st body in
        (st1, Some (BlockStatement body'))
    | ExpressionStatement expression =>
        let '(st1, expression') := traverseNode st expression in
        (st1, match expression' with
              | Some e => Some (ExpressionStatement e)
              | None => None
              end)
    | VariableDeclaration kind id init =>
        let '(st1, init') := traverseNode st init in
        (st1, Some (VariableDeclaration kind id (slot init')))
    | ReturnStatement argument =>
        let '(st1, argument') := traverseNode st argument in
        (st1, Some (ReturnStatement (slot argument')))
    | FunctionDeclaration id body =>
        let '(st1, body') := traverseNode st body in
        (st1, Some (FunctionDeclaration id (slot body')))
    | Identifier _ | StringLiteral _ | BooleanLiteral _ | OtherExpression _
    | NullNode => (st, Some n)
    end.
Proof. destruct n; reflexivity. Qed.

Lemma visited_call (callee : Node) (args : list Node) :
  visited (CallExpression callee args)
  = match isMockObjCallExpession (CallExpression callee args) with
    | Some _ => [CallExpression callee args]
    | None =>
        CallExpression callee args :: visited callee ++ flat_map visited args
    end.
Proof. reflexivity. Qed.

Lemma traverseBody_state (l : list Node) :
  Forall StateIsFold l ->
  forall st, fst (traverseBody st l) = fold_left visit (flat_map visited l) st.
Proof.
  induction 1 as [|n l Hn _ IH]; intros st; [reflexivity|].
  rewrite traverseBody_cons. simpl flat_map. rewrite fold_left_app.
  rewrite <- (Hn st). destruct (traverseNode st n) as [st1 r]. simpl fst.
  rewrite <- (IH st1). now destruct (traverseBody st1 l).
Qed.

Ltac use_state IH st :=
  let E := fresh "E" in
  pose proof (IH st) as E;
  match type of E with
  | fst ?t = _ =>
      let st' := fresh "st" in
      let r := fresh "r" in
      destruct t as [st' r]; simpl fst in E; subst st'
  end.

Lemma traverseNode_state (n : Node) : StateIsFold n.
Proof.
  induction n using Node_nested_ind; intros st; rewrite traverseNode_eq;
    cbv iota beta; try reflexivity.
  - (* MemberExpression *)
    use_state IHn1 st. use_state IHn2 (fold_left visit (visited n1) st).
    simpl. now rewrite fold_left_app.
  - (* CallExpression *)
    pose proof (removed_iff_mock_request st (CallExpression n args)) as Hrem.
    rewrite visited_call.
    destruct (CallExpression_visitor st (CallExpression n args)) as [st1 removed] eqn:Ev.
    simpl snd in Hrem. subst removed.
    assert (Hst1 : st1 = visit st (CallExpression n args)).
    { unfold visit. now rewrite Ev. }
    destruct (isMockObjCallExpession (CallExpression n args)).
    + simpl. now subst st1.
    + use_state IHn st1.
      pose proof (traverseBody_state args H (fold_left visit (visited n) st1)) as Ha.
      destruct (traverseBody (fold_left visit (visited n) st1) args) as [st3 args'].
      simpl fst in *. subst st3. simpl fold_left. rewrite fold_left_app.
      now subst st1.
  - (* ObjectExpression *)
    match goal with
    | H : Forall _ ?l |- _ =>
        pose proof (traverseBody_state l H st) as Ha;
        now destruct (traverseBody st l)
    end.
  - (* ObjectProperty *)
    use_state IHn1 st. use_state IHn2 (fold_left visit (visited n1) st).
    simpl. now rewrite fold_left_app.
  - use_state IHn st. reflexivity.
  - use_state IHn st. reflexivity.
  - (* BlockStatement *)
    match goal with
    | H : Forall _ ?l |- _ =>
        pose proof (traverseBody_state l H st) as Ha;
        now destruct (traverseBody st l)
    end.
  - use_state IHn st. reflexivity.
  - use_state IHn st. reflexivity.
  - use_state IHn st. reflexivity.
  - use_state IHn st. reflexivity.
Qed.

Lemma traverseBody_state_all (l : list Node) (st : PluginState) :
  fst (traverseBody st l) = fold_left visit (flat_map visited l) st.
Proof.
  apply traverseBody_state. apply Forall_forall. intros n _.
  apply traverseNode_state.
Qed.

(** *** Nodes without mock requests come out as they went in *)

Lemma hasMockRequest_call (callee : Node) (args : list Node) :
  hasMockRequest (CallExpression callee args)
  = match isMockObjCallExpession (CallExpression callee args) with
    | Some _ => true
    | None => hasMockRequest callee || existsb hasMockRequest args
    end.
Proof. reflexivity. Qed.

Lemma traverseBody_unchanged (l : list Node) :
  Forall Unchanged l ->
  forall st, existsb hasMockRequest l = false -> snd (traverseBody st l) = l.
Proof.
  induction 1 as [|n l Hn _ IH]; intros st Hl; [reflexivity|].
  simpl in Hl. apply orb_false_iff in Hl as [Hn' Hl'].
  rewrite traverseBody_cons.
  pose proof (Hn st Hn') as E1. destruct (traverseNode st n) as [st1 r].
  simpl in E1. subst r.
  pose proof (IH st1 Hl') as E2. destruct (traverseBody st1 l) as [st2 rs].
  simpl in E2. now subst rs.
Qed.

Ltac use_unchanged IH st H :=
  let E := fresh "E" in
  pose proof (IH st H) as E;
  match type of E with
  | snd ?t = _ =>
      let st' := fresh "st" in
      let r := fresh "r" in
      destruct t as [st' r]; simpl snd in E; subst r
  end.

Lemma traverseNode_unchanged (n : Node) : Unchanged n.
Proof.
  induction n using Node_nested_ind; intros st Hn; rewrite traverseNode_eq;
    cbv iota beta; try reflexivity.
  - (* MemberExpression *)
    simpl in Hn. apply orb_false_iff in Hn as [H1 H2].
    use_unchanged IHn1 st H1. use_unchanged IHn2 st0 H2. reflexivity.
  - (* CallExpression *)
    rewrite hasMockRequest_call in Hn.
    pose proof (removed_iff_mock_request st (CallExpression n args)) as Hrem.
    destruct (isMockObjCallExpession (CallExpression n args)); [discriminate|].
    apply orb_false_iff in Hn as [H1 H2].
    destruct (CallExpression_visitor st (CallExpression n args)) as [st1 removed].
    simpl in Hrem. subst removed.
    use_unchanged IHn st1 H1.
    match goal with
    | H : Forall _ ?l |- _ =>
        pose proof (traverseBody_unchanged l H st0 H2) as Ha;
        destruct (traverseBody st0 l) as [st3 args']
    end.
    simpl in Ha. now subst args'.
  - (* ObjectExpression *)
    simpl in Hn.
    match goal with
    | H : Forall _ ?l |- _ =>
        pose proof (traverseBody_unchanged l H st Hn) as Ha;
        destruct (traverseBody st l) as [st1 l']
    end.
    simpl in Ha. now subst l'.
  - (* ObjectProperty *)
    simpl in Hn. apply orb_false_iff in Hn as [H1 H2].
    use_unchanged IHn1 st H1. use_unchanged IHn2 st0 H2. reflexivity.
  - simpl in Hn. use_unchanged IHn st Hn. reflexivity.
  - simpl in Hn. use_unchanged IHn st Hn. reflexivity.
  - (* BlockStatement *)
    simpl in Hn.
    match goal with
    | H : Forall _ ?l |- _ =>
        pose proof (traverseBody_unchanged l H st Hn) as Ha;
        destruct (traverseBody st l) as [st1 l']
    end.
    simpl in Ha. now subst l'.
  - simpl in Hn. use_unchanged IHn st Hn. reflexivity.
  - simpl in Hn. use_unchanged IHn st Hn. reflexivity.
  - simpl in Hn. use_unchanged IHn st Hn. reflexivity.
  - simpl in Hn. use_unchanged IHn st Hn. reflexivity.
Qed.

(** *** Scopes *)

Lemma traverseBody_wrap (scope : Scope) (inner : list Node) (st : PluginState) :
  traverseBody st [wrap scope inner]
  = (let '(st1, inner') := traverseBody st inner in (st1, [wrap scope inner'])).
Proof.
  rewrite traverseBody_cons.
  destruct scope as [id| |callee label]; simpl wrap.
  - rewrite traverseNode_eq. cbv iota beta.
    rewrite (traverseNode_eq st (BlockStatement inner)). cbv iota beta.
    now destruct (traverseBody st inner).
  - rewrite traverseNode_eq. cbv iota beta.
    now destruct (traverseBody st inner).
  - rewrite traverseNode_eq. cbv iota beta.
    rewrite (traverseNode_eq st (CallExpression _ _)). cbv iota beta.
    change (CallExpression_visitor st
              (CallExpression (Identifier callee)
                 [StringLiteral label;
                  ArrowFunctionExpression (BlockStatement inner)]))
      with (st, false).
    cbv iota beta.
    rewrite (traverseNode_eq st (Identifier callee)). cbv iota beta.
    rewrite traverseBody_cons.
    rewrite (traverseNode_eq st (StringLiteral label)). cbv iota beta.
    rewrite traverseBody_cons.
    rewrite (traverseNode_eq st (ArrowFunctionExpression _)). cbv iota beta.
    rewrite (traverseNode_eq st (BlockStatement inner)). cbv iota beta.
    now destruct (traverseBody st inner).
Qed.

Lemma traverseBody_nest (scopes : list Scope) (statements : list Node)
    (st : PluginState) :
  traverseBody st (nest scopes statements)
  = (let '(st1, statements') := traverseBody st statements in
     (st1, nest scopes statements')).
Proof.
  induction scopes as [|scope scopes IH]; simpl nest.
  - now destruct (traverseBody st statements).
  - rewrite traverseBody_wrap, IH. now destruct (traverseBody st statements).
Qed.

Lemma visited_nest (scopes : list Scope) (statements : list Node) (n : Node) :
  In n (flat_map visited statements) ->
  In n (flat_map visited (nest scopes statements)).
Proof.
  intros H. induction scopes as [|scope scopes IH]; [exact H|].
  simpl nest. simpl flat_map. rewrite app_nil_r.
  destruct scope as [id| |callee label]; simpl wrap.
  - exact IH.
  - exact IH.
  - change (In n (CallExpression (Identifier callee)
                    [StringLiteral label;
                     ArrowFunctionExpression (BlockStatement (nest scopes statements))]
                  :: flat_map visited (nest scopes statements) ++ [])).
    right. now rewrite app_nil_r.
Qed.

(** *** What the visitors do to the state *)

Lemma createMockDefinition_frame (st : PluginState) (def : Node)
    (type : MockType) (impl : option Node) :
  importIdentifiers (createMockDefinition st def type impl) = importIdentifiers st
  /\ existingJestMocks (createMockDefinition st def type impl) = existingJestMocks st
  /\ program (createMockDefinition st def type impl) = program st.
Proof.
  unfold createMockDefinition.
  destruct (negb (isIdentifier def) && negb (isMemberExpression def)); [now repeat split|].
  destruct (identifiersOf def) as [[lastIdentifier accessIdentifierName] subIdentifiers].
  destruct (negb (truthy_opt lastIdentifier) || negb (truthy_opt accessIdentifierName));
    now repeat split.
Qed.

Lemma createMockDefinitions_frame (type : MockType) (args : list Node)
    (st : PluginState) :
  let st' := fold_left (fun st arg => createMockDefinition st arg type None) args st in
  importIdentifiers st' = importIdentifiers st
  /\ existingJestMocks st' = existingJestMocks st
  /\ program st' = program st.
Proof.
  revert st. induction args as [|arg args IH]; intros st; simpl; [now repeat split|].
  destruct (IH (createMockDefinition st arg type None)) as (H1 & H2 & H3).
  destruct (createMockDefinition_frame st arg type None) as (F1 & F2 & F3).
  simpl in *. repeat split; congruence.
Qed.

Lemma classify_MockRequest (call : Node) (type : MockType) :
  classify call = MockRequest type -> isMockObjCallExpession call = Some type.
Proof.
  unfold classify. destruct (isMockObjCallExpession call); [congruence|].
  destruct (isJestMockCallExpression call); [|discriminate].
  destruct call; try discriminate. destruct arguments as [|[] ?]; discriminate.
Qed.

Lemma classify_Ignore (call : Node) (M : string) :
  classify call = Ignore M ->
  isMockObjCallExpession call = None
  /\ isJestMockCallExpression call = true
  /\ exists callee rest, call = CallExpression callee (StringLiteral M :: rest).
Proof.
  unfold classify. destruct (isMockObjCallExpession call); [discriminate|].
  destruct (isJestMockCallExpression call); [|discriminate].
  destruct call; try discriminate. destruct arguments as [|[] ?]; try discriminate.
  intros [= <-]. repeat split. eauto.
Qed.

(** The [CallExpression] visitor on an ignore call. *)
Lemma CallExpression_visitor_ignore (st : PluginState) (call : Node) (M : string) :
  classify call = Ignore M ->
  CallExpression_visitor st call
  = ({| importIdentifiers := importIdentifiers st;
        mocks := mocks st;
        existingJestMocks := existingJestMocks st ++ [M];
        program := program st |}, false).
Proof.
  intros H. apply classify_Ignore in H as (Hmock & Hjest & callee & rest & ->).
  unfold CallExpression_visitor. now rewrite Hmock, Hjest.
Qed.

Lemma CallExpression_visitor_frame (st : PluginState) (n : Node) :
  importIdentifiers (fst (CallExpression_visitor st n)) = importIdentifiers st
  /\ program (fst (CallExpression_visitor st n)) = program st
  /\ (forall M, In M (existingJestMocks st) ->
                In M (existingJestMocks (fst (CallExpression_visitor st n)))).
Proof.
  unfold CallExpression_visitor. destruct n; try (now repeat split).
  destruct (isMockObjCallExpession (CallExpression n arguments)) as [mockType|].
  - simpl fst.
    destruct (match arguments with
              | [_; arg1] => negb (isIdentifier arg1) && negb (isMemberExpression arg1)
              | _ => false
              end).
    + destruct arguments as [|a0 [|a1 [|a2 ?]]]; try (now repeat split).
      destruct (isExpression a1); [|now repeat split].
      destruct (createMockDefinition_frame st a0 mockType (Some a1)) as (F1 & F2 & F3).
      repeat split; try assumption. intros M. now rewrite F2.
    + destruct (createMockDefinitions_frame mockType arguments st) as (F1 & F2 & F3).
      repeat split; try assumption. intros M. now rewrite F2.
  - destruct (isJestMockCallExpression (CallExpression n arguments));
      [|now repeat split].
    destruct arguments as [|[] ?]; try (now repeat split).
    simpl. repeat split. intros M HM. apply in_or_app. now left.
Qed.

Lemma ImportDeclaration_visitor_frame (st : PluginState) specifiers source :
  existingJestMocks (ImportDeclaration_visitor st specifiers source)
    = existingJestMocks st
  /\ program (ImportDeclaration_visitor st specifiers source) = program st
  /\ mocks (ImportDeclaration_visitor st specifiers source) = mocks st.
Proof.
  unfold ImportDeclaration_visitor.
  destruct (Nat.ltb 0 (length specifiers)); now repeat split.
Qed.

Lemma visit_existing (st : PluginState) (n : Node) (M : string) :
  In M (existingJestMocks st) -> In M (existingJestMocks (visit st n)).
Proof.
  intros H. destruct n; try exact H.
  - now apply (CallExpression_visitor_frame st (CallExpression n arguments)).
  - simpl.
    destruct (ImportDeclaration_visitor_frame st specifiers source) as (F & _).
    now rewrite F.
Qed.

Lemma fold_visit_existing (l : list Node) (st : PluginState) (M : string) :
  In M (existingJestMocks st) -> In M (existingJestMocks (fold_left visit l st)).
Proof.
  revert st. induction l as [|n l IH]; intros st H; [exact H|].
  simpl. apply IH. now apply visit_existing.
Qed.

(** A dispatched ignore call leaves its module path in [existingJestMocks],
    wherever it stands among the dispatched nodes. *)
Lemma fold_visit_ignore (l : list Node) (st : PluginState) (call : Node)
    (M : string) :
  In call l -> classify call = Ignore M ->
  In M (existingJestMocks (fold_left visit l st)).
Proof.
  intros Hin Hc. apply in_split in Hin as (l1 & l2 & ->).
  rewrite fold_left_app.
  change (fold_left visit (call :: l2) (fold_left visit l1 st))
    with (fold_left visit l2 (visit (fold_left visit l1 st) call)).
  apply fold_visit_existing.
  pose proof (CallExpression_visitor_ignore (fold_left visit l1 st) call M Hc) as Hv.
  apply classify_Ignore in Hc as (_ & _ & callee & rest & ->).
  change (visit (fold_left visit l1 st)
            (CallExpression callee (StringLiteral M :: rest)))
    with (fst (CallExpression_visitor (fold_left visit l1 st)
                 (CallExpression callee (StringLiteral M :: rest)))).
  rewrite Hv. simpl. apply in_or_app. right. now left.
Qed.

(** *** The import table keeps first-import order *)

Lemma fold_visit_keys (l : list Node) (st : PluginState) :
  okeys (importIdentifiers (fold_left visit l st))
  = okeys (importIdentifiers st)
    ++ firstImported (okeys (importIdentifiers st)) l.
Proof.
  revert st. induction l as [|n l IH]; intros st.
  - simpl. now rewrite app_nil_r.
  - change (fold_left visit (n :: l) st) with (fold_left visit l (visit st n)).
    rewrite IH.
    destruct n;
      try (change (visit st _) with st; reflexivity).
    + (* CallExpression *)
      destruct (CallExpression_visitor_frame st (CallExpression n arguments))
        as (F & _).
      change (visit st (CallExpression n arguments))
        with (fst (CallExpression_visitor st (CallExpression n arguments))).
      rewrite F. reflexivity.
    + (* ImportDeclaration *)
      change (visit st (ImportDeclaration specifiers source))
        with (ImportDeclaration_visitor st specifiers source).
      unfold ImportDeclaration_visitor. simpl firstImported.
      destruct (Nat.ltb 0 (length specifiers)); simpl andb; [|reflexivity].
      unfold includes.
      destruct (oget (importIdentifiers st) source) as [old|] eqn:Hget.
      * assert (Hin : existsb (String.eqb source) (okeys (importIdentifiers st)) = true).
        { destruct (existsb _ _) eqn:E; [reflexivity|].
          apply oget_None_includes in E. congruence. }
        rewrite Hin. simpl.
        now rewrite (okeys_oset_old _ _ _ old Hget).
      * pose proof Hget as Hin. apply oget_None_includes in Hin.
        rewrite Hin. simpl.
        rewrite (okeys_oset_new _ _ _ Hget). now rewrite <- app_assoc.
Qed.

(** *** [post] *)

Lemma postModule_eq (st : PluginState) (body0 : list Node)
    (entry : string * list ImportDefinition) :
  postModule st body0 entry
  = if refusesModule st entry then Throw
    else
      match registration st entry with
      | Some (modulePath, mocksForModule) =>
          statement ← buildJestMockForModule modulePath mocksForModule;
          Ok (unshift body0 statement)
      | None => Ok body0
      end.
Proof.
  destruct entry as [modulePath importsFromModule].
  unfold postModule, registration, refusesModule. cbn [fst snd].
  destruct (includes (existingJestMocks st) modulePath); [reflexivity|].
  cbn [negb andb].
  destruct (existsb (refuses (mocks st)) importsFromModule); [reflexivity|].
  now destruct (Nat.eqb _ 0).
Qed.

Lemma post_loop (st : PluginState) (l : list (string * list ImportDefinition))
    (body0 : list Node) :
  foldM (postModule st) l body0
  = if existsb (refusesModule st) l then Throw
    else
      (statements ← buildAll (omap (registration st) l);
       Ok (fold_left unshift statements body0)).
Proof.
  revert body0. induction l as [|entry l IH]; intros body0; [reflexivity|].
  simpl foldM. rewrite postModule_eq. simpl omap. simpl existsb.
  destruct (refusesModule st entry); [reflexivity|]. cbn [orb].
  destruct (registration st entry) as [[modulePath mocksForModule]|].
  - unfold buildAll. simpl mapM. unfold_bind.
    destruct (buildJestMockForModule modulePath mocksForModule) as [statement|];
      [|now destruct (existsb (refusesModule st) l)].
    rewrite IH. destruct (existsb (refusesModule st) l); [reflexivity|].
    unfold buildAll. unfold_bind.
    change (list_omap _ _ (registration st) l) with (omap (registration st) l).
    now destruct (mapM _ (omap (registration st) l)).
  - unfold_bind. apply IH.
Qed.

(** [post] unshifts, one after the other, the statements built for
    [registrations], unless it throws. *)
Lemma post_Ok (st : PluginState) (body0 body' : list Node) :
  post st body0 = Ok body' ->
  exists statements,
    buildAll (registrations st) = Ok statements
    /\ body' = fold_left unshift statements body0.
Proof.
  unfold post, registrations.
  destruct (negb (program st)); [intros [= <-]; now exists []|].
  destruct (Nat.eqb (length (mocks st)) 0 || Nat.eqb (length (importIdentifiers st)) 0);
    [intros [= <-]; now exists []|].
  rewrite post_loop.
  destruct (existsb (refusesModule st) (importIdentifiers st)); [discriminate|].
  unfold_bind. destruct (buildAll _) as [statements|]; [|discriminate].
  intros [= <-]. now exists statements.
Qed.

Lemma post_registrations (st : PluginState) (body0 : list Node) :
  existsb (refusesModule st) (importIdentifiers st) = false ->
  post st body0
  = (statements ← buildAll (registrations st);
     Ok (fold_left unshift statements body0)).
Proof.
  intros Hnot. unfold post, registrations.
  destruct (negb (program st)); [reflexivity|].
  destruct (Nat.eqb (length (mocks st)) 0 || Nat.eqb (length (importIdentifiers st)) 0);
    [reflexivity|].
  rewrite post_loop. now rewrite Hnot.
Qed.

Lemma transform_Ok (file file' : Program) :
  transform file = Ok file' ->
  exists statements,
    buildAll (registrations
                (fst (traverseBody (Program_visitor pre) (body file))))
    = Ok statements
    /\ file'
       = {| directives := directives file;
            body := fold_left unshift statements
                      (snd (traverseBody (Program_visitor pre) (body file))) |}.
Proof.
  unfold transform.
  destruct (negb (forallb removalsAllowed (body file))); [discriminate|].
  destruct (traverseBody (Program_visitor pre) (body file)) as [st body1].
  cbn [fst snd]. unfold_bind.
  destruct (post st body1) as [body2|] eqn:Hpost; [|discriminate].
  intros [= <-]. apply post_Ok in Hpost as (statements & Hb & ->).
  now exists statements.
Qed.

(** A binding called like a member of [Object.prototype]:
    [import { toString } from "m"; jest.mockObj(toString);] reads the
    inherited function under the key ["toString"] and throws at [push];
    [import * as N from "m"; jest.mockObj(N.constructor);] does the same
    under the key ["constructor"]. *)
Example requests_under_inherited_names :
  transform
    {| directives := [];
       body := [ ImportDeclaration [ImportSpecifier "toString" "toString"] "m";
                 mockObj [Identifier "toString"] ] |}
  = Throw
  /\ transform
       {| directives := [];
          body := [ ImportDeclaration [ImportNamespaceSpecifier "N"] "m";
                    mockObj [chain "N" ["constructor"]] ] |}
     = Throw.
Proof. split; reflexivity. Qed.

Lemma fold_left_unshift (statements body0 : list Node) :
  fold_left unshift statements body0 = rev statements ++ body0.
Proof.
  revert body0. induction statements as [|s statements IH]; intros body0;
    [reflexivity|].
  simpl. rewrite IH. unfold unshift. now rewrite <- app_assoc.
Qed.

Lemma registration_path (st : PluginState) entry modulePath mocksForModule :
  registration st entry = Some (modulePath, mocksForModule) ->
  modulePath = fst entry
  /\ includes (existingJestMocks st) modulePath = false.
Proof.
  destruct entry as [path importsFromModule]. unfold registration.
  destruct (includes (existingJestMocks st) path) eqn:E; [discriminate|].
  destruct (Nat.eqb _ 0); [discriminate|].
  intros [= <- _]. now split.
Qed.

Lemma includes_In (l : list string) (s : string) :
  includes l s = true <-> In s l.
Proof.
  unfold includes. rewrite existsb_exists. split.
  - intros (x & Hx & E). apply String.eqb_eq in E. now subst.
  - intros H. exists s. split; [assumption | apply String.eqb_refl].
Qed.

Lemma registrations_not_existing (st : PluginState) (M : string) :
  In M (existingJestMocks st) -> ~ In M (map fst (registrations st)).
Proof.
  intros HM Hin. unfold registrations in Hin.
  destruct (negb (program st)); [contradiction|].
  destruct (_ || _); [contradiction|].
  apply in_map_iff in Hin as ([modulePath mocksForModule] & <- & Hin).
  apply list_elem_of_In in Hin.
  apply list_elem_of_omap in Hin as (entry & _ & Hreg).
  apply registration_path in Hreg as (_ & Hinc). simpl in *.
  apply includes_In in HM. congruence.
Qed.

Lemma registrations_sublist (st : PluginState) :
  map fst (registrations st) `sublist_of` okeys (importIdentifiers st).
Proof.
  unfold registrations.
  destruct (negb (program st)); [apply sublist_nil_l|].
  destruct (_ || _); [apply sublist_nil_l|].
  induction (importIdentifiers st) as [|entry l IH]; [constructor|].
  simpl. destruct (registration st entry) as [[modulePath mocksForModule]|] eqn:E.
  - apply registration_path in E as (-> & _). simpl. now constructor.
  - now constructor.
Qed.

(** *** Suppression *)

Lemma dispatched_ignore_suppresses (statements : list Node) (call : Node)
    (M : string) :
  In call (flat_map visited statements) ->
  classify call = Ignore M ->
  ~ In M (map fst
            (registrations (fst (traverseBody (Program_visitor pre) statements)))).
Proof.
  intros Hin Hc. apply registrations_not_existing.
  rewrite traverseBody_state_all. now apply (fold_visit_ignore _ _ call).
Qed.

(** *** Removals the host performs *)

Lemma vanishes_call (callee : Node) (args : list Node) :
  vanishes (CallExpression callee args)
  = match isMockObjCallExpession (CallExpression callee args) with
    | Some _ => true
    | None => false
    end.
Proof. reflexivity. Qed.

Lemma removalsAllowed_call (callee : Node) (args : list Node) :
  removalsAllowed (CallExpression callee args)
  = match isMockObjCallExpession (CallExpression callee args) with
    | Some _ => true
    | None =>
        negb (vanishes callee) && removalsAllowed callee
        && forallb removalsAllowed args
    end.
Proof. reflexivity. Qed.

Lemma vanishes_hasMockRequest (n : Node) :
  vanishes n = true -> hasMockRequest n = true.
Proof.
  induction n using Node_nested_ind; try discriminate.
  - rewrite hasMockRequest_call, vanishes_call.
    now destruct (isMockObjCallExpession (CallExpression n args)).
  - exact IHn.
Qed.

Lemma not_vanishes (n : Node) :
  hasMockRequest n = false -> negb (vanishes n) = true.
Proof.
  intros H. destruct (vanishes n) eqn:Hv; [|reflexivity].
  apply vanishes_hasMockRequest in Hv. congruence.
Qed.

Lemma removalsAllowed_all (l : list Node) :
  Forall (fun n => hasMockRequest n = false -> removalsAllowed n = true) l ->
  existsb hasMockRequest l = false -> forallb removalsAllowed l = true.
Proof.
  induction 1 as [|n l Hn _ IH]; intros H; [reflexivity|].
  simpl in H. apply orb_false_iff in H as [H1 H2].
  simpl. now rewrite (Hn H1), (IH H2).
Qed.

Lemma no_request_removalsAllowed (n : Node) :
  hasMockRequest n = false -> removalsAllowed n = true.
Proof.
  induction n using Node_nested_ind; intros Hn; try reflexivity.
  - (* MemberExpression *)
    simpl in Hn. apply orb_false_iff in Hn as [H1 H2]. simpl.
    now rewrite (not_vanishes _ H1), (not_vanishes _ H2), IHn1, IHn2.
  - (* CallExpression *)
    rewrite hasMockRequest_call in Hn. rewrite removalsAllowed_call.
    destruct (isMockObjCallExpession (CallExpression n args)); [discriminate|].
    apply orb_false_iff in Hn as [H1 H2].
    rewrite (not_vanishes _ H1), IHn by assumption.
    match goal with
    | H : Forall _ ?l |- _ => now rewrite (removalsAllowed_all l H H2)
    end.
  - (* ObjectExpression *)
    simpl in Hn.
    match goal with
    | H : Forall _ ?l |- _ => exact (removalsAllowed_all l H Hn)
    end.
  - (* ObjectProperty *)
    simpl in Hn. apply orb_false_iff in Hn as [H1 H2]. simpl.
    now rewrite (not_vanishes _ H1), (not_vanishes _ H2), IHn1, IHn2.
  - (* SpreadElement *)
    simpl in Hn. simpl. now rewrite (not_vanishes _ Hn), IHn.
  - simpl in Hn. simpl. now apply IHn.
  - (* BlockStatement *)
    simpl in Hn.
    match goal with
    | H : Forall _ ?l |- _ => exact (removalsAllowed_all l H Hn)
    end.
  - simpl in Hn. simpl. now apply IHn.
  - simpl in Hn. simpl. now apply IHn.
  - simpl in Hn. simpl. now apply IHn.
  - (* FunctionDeclaration *)
    simpl in Hn. simpl. now rewrite (not_vanishes _ Hn), IHn.
Qed.

Lemma no_requests_removalsAllowed (l : list Node) :
  existsb hasMockRequest l = false -> forallb removalsAllowed l = true.
Proof.
  apply removalsAllowed_all. apply Forall_forall. intros n _.
  apply no_request_removalsAllowed.
Qed.

Lemma transform_Ok_removalsAllowed (file file' : Program) :
  transform file = Ok file' -> forallb removalsAllowed (body file) = true.
Proof.
  unfold transform. destruct (forallb removalsAllowed (body file)); [reflexivity|].
  discriminate.
Qed.

(** *** The empty factory *)

(** C1: the code at [import { B } from "b"; jest.mockObj(B.x.y);].  The only
    request for ["b"] is dropped for its depth, yet the named-import branch
    of [post] has stored the (empty) array under the key ["B"]: the module
    has one key, no resolvable export entry, and gets a registration with an
    empty factory. *)
Theorem C1_empty_factory_is_emitted :
  let file :=
    {| directives := [];
       body :=
         [ ImportDeclaration [ImportSpecifier "B" "B"] "b";
           ExpressionStatement
             (CallExpression
                (MemberExpression (Identifier "jest") (Identifier "mockObj") false)
                [chain "B" ["x"; "y"]]) ] |} in
  registrations (fst (traverseBody (Program_visitor pre) (body file)))
    = [("b", [("B", [])])]
  /\ topLevelProps [("B", [])] = Ok []
  /\ transform file
     = Ok {| directives := [];
             body :=
               [ ExpressionStatement
                   (CallExpression
                      (MemberExpression (Identifier "jest") (Identifier "mock") false)
                      [ StringLiteral "b";
                        ArrowFunctionExpression
                          (BlockStatement
                             [ VariableDeclaration "const" "o" (ObjectExpression []);
                               ExpressionStatement
                                 (CallExpression
                                    (MemberExpression (Identifier "Object")
                                       (Identifier "defineProperty") false)
                                    [ Identifier "o"; StringLiteral "__esModule";
                                      ObjectExpression
                                        [ObjectProperty (Identifier "value")
                                           (BooleanLiteral true)] ]);
                               ReturnStatement (Identifier "o") ]) ]);
                 ImportDeclaration [ImportSpecifier "B" "B"] "b" ] |}.
Proof. repeat split; reflexivity. Qed.

(** The namespace branch stores nothing for a dropped request, and the
    module gets no registration:
    [import * as E from "./e"; jest.mockObj(E.a.b.c);]. *)
Lemma namespace_import_no_empty_factory :
  transform
    {| directives := [];
       body :=
         [ ImportDeclaration [ImportNamespaceSpecifier "E"] "./e";
           ExpressionStatement
             (CallExpression
                (MemberExpression (Identifier "jest") (Identifier "mockObj") false)
                [chain "E" ["a"; "b"; "c"]]) ] |}
  = Ok {| directives := [];
          body := [ImportDeclaration [ImportNamespaceSpecifier "E"] "./e"] |}.
Proof. reflexivity. Qed.

(** A dropped request adds no entry to the array of its export key. *)
Lemma addMock_dropped (mocksArr : list ModuleMock) (m : MockDefinition) :
  2 <= length (subProperties m) -> addMock mocksArr m = mocksArr.
Proof.
  intros H. unfold addMock.
  destruct (Nat.ltb_spec 1 (length (subProperties m))); [reflexivity | lia].
Qed.

Lemma addNamespaceMock_dropped (mocksForModule : ModuleMockDefinition)
    (m : MockDefinition) :
  length (subProperties m) = 0 \/ 3 <= length (subProperties m) ->
  addNamespaceMock mocksForModule m = mocksForModule.
Proof.
  intros H. unfold addNamespaceMock.
  destruct (Nat.eqb_spec (length (subProperties m)) 1); [lia|].
  destruct (Nat.eqb_spec (length (subProperties m)) 2); [lia|].
  reflexivity.
Qed.

(** C7: the code at [import A from "./a"; jest.mockObj(A.x.y);] and at the
    same file without the request.  The request has two segments under a
    default binding and contributes no export entry, but the output is not
    the output of the file without it: a registration of ["./a"] with an
    empty factory is inserted. *)
Theorem C7_dropped_request_changes_the_output :
  transform
    {| directives := [];
       body :=
         [ ImportDeclaration [ImportDefaultSpecifier "A"] "./a";
           ExpressionStatement
             (CallExpression
                (MemberExpression (Identifier "jest") (Identifier "mockObj") false)
                [chain "A" ["x"; "y"]]) ] |}
  = (statement ← buildJestMockForModule "./a" [("default", [])];
     Ok {| directives := [];
           body := [statement;
                    ImportDeclaration [ImportDefaultSpecifier "A"] "./a"] |})
  /\ createModuleMockImpl [("default", [])]
     = createModuleMockImpl []
  /\ transform
       {| directives := [];
          body := [ImportDeclaration [ImportDefaultSpecifier "A"] "./a"] |}
     = Ok {| directives := [];
             body := [ImportDeclaration [ImportDefaultSpecifier "A"] "./a"] |}.
Proof. repeat split; reflexivity. Qed.

(** *** The documented examples, run through the model *)

(** [import A, { A2 } from "./a"; import * as C from "c";
    jest.mockObj(A.ANest, C.Components.Comp1);
    jest.mockObj(A2.A2Nest, <implementation>);] *)
Example readme_nesting_example :
  transform
    {| directives := [];
       body :=
         [ ImportDeclaration
             [ImportDefaultSpecifier "A"; ImportSpecifier "A2" "A2"] "./a";
           ImportDeclaration [ImportNamespaceSpecifier "C"] "c";
           mockObj [chain "A" ["ANest"]; chain "C" ["Components"; "Comp1"]];
           mockObj [chain "A2" ["A2Nest"]; OtherExpression 0] ] |}
  = Ok {| directives := [];
          body :=
            [ jestMock "c"
                [ObjectProperty (StringLiteral "Components")
                   (ObjectExpression
                      [ObjectProperty (StringLiteral "Comp1")
                         (StringLiteral "Comp1")])];
              jestMock "./a"
                [ ObjectProperty (StringLiteral "default")
                    (ObjectExpression
                       [ObjectProperty (StringLiteral "ANest")
                          (StringLiteral "ANest")]);
                  ObjectProperty (StringLiteral "A2")
                    (ObjectExpression
                       [ObjectProperty (StringLiteral "A2Nest")
                          (OtherExpression 0)]) ];
              ImportDeclaration
                [ImportDefaultSpecifier "A"; ImportSpecifier "A2" "A2"] "./a";
              ImportDeclaration [ImportNamespaceSpecifier "C"] "c" ] |}.
Proof. reflexivity. Qed.

(** The test "Last mocked namespace overwrites nested level mocks", for the
    module ["c"]. *)
Example flat_overwrites_nested :
  transform
    {| directives := [];
       body :=
         [ ImportDeclaration [ImportNamespaceSpecifier "C"] "c";
           mockObj [chain "C" ["C1"]; chain "C" ["Nest"; "Nest1"];
                    chain "C" ["Nest"; "Nest2"]];
           mockObj [chain "C" ["Nest"; "Nest3"]; StringLiteral "cnest3"];
           mockObj [chain "C" ["Nest"]; OtherExpression 0] ] |}
  = Ok {| directives := [];
          body :=
            [ jestMock "c"
                [ ObjectProperty (StringLiteral "C1") (StringLiteral "C1");
                  ObjectProperty (StringLiteral "Nest") (OtherExpression 0) ];
              ImportDeclaration [ImportNamespaceSpecifier "C"] "c" ] |}.
Proof. reflexivity. Qed.

(** The test "Ignores 2 or more access levels for non namespaced imports
    and 3 or more access levels for namespaced imports": the only request for
    ["b"], [B.BNest.B1], is dropped, and ["b"] is registered with an empty
    factory. *)
Example ignored_access_levels :
  transform
    {| directives := [];
       body :=
         [ ImportDeclaration
             [ImportDefaultSpecifier "A"; ImportSpecifier "ANest" "ANest"] "./a";
           ImportDeclaration [ImportSpecifier "B" "B"] "b";
           ImportDeclaration [ImportNamespaceSpecifier "C"] "c";
           mockObj [chain "A" ["ANest"; "A1"]; chain "A" ["A2"]];
           mockObj [chain "B" ["BNest"; "B1"]; StringLiteral "test"];
           mockObj [chain "C" ["Nest1"; "C1"]; chain "C" ["Nest1"; "C1"; "A1"];
                    chain "C" ["Nest2"; "C2"; "C2"]] ] |}
  = Ok {| directives := [];
          body :=
            [ jestMock "c"
                [ObjectProperty (StringLiteral "Nest1")
                   (ObjectExpression
                      [ObjectProperty (StringLiteral "C1") (StringLiteral "C1")])];
              jestMock "b" [];
              jestMock "./a"
                [ObjectProperty (StringLiteral "default")
                   (ObjectExpression
                      [ObjectProperty (StringLiteral "A2") (StringLiteral "A2")])];
              ImportDeclaration
                [ImportDefaultSpecifier "A"; ImportSpecifier "ANest" "ANest"] "./a";
              ImportDeclaration [ImportSpecifier "B" "B"] "b";
              ImportDeclaration [ImportNamespaceSpecifier "C"] "c" ] |}.
Proof. reflexivity. Qed.

End TraversalFacts.

(** * Further properties of [index.ts] *)

Section OrderedMapMore.
Context {V : Type}.
Implicit Types (m : ordmap V) (k : string) (v : V).

Lemma oset_oset m k v v' : oset (oset m k v) k v' = oset m k v'.
Proof.
  induction m as [|[k0 v0] m IH]; simpl.
  - now rewrite String.eqb_refl.
  - destruct (String.eqb k0 k) eqn:E; simpl.
    + now rewrite String.eqb_refl.
    + now rewrite E, IH.
Qed.

Lemma okeys_oset_prefix m k v : exists tail, okeys (oset m k v) = okeys m ++ tail.
Proof.
  destruct (oget m k) as [v0|] eqn:E.
  - exists []. rewrite app_nil_r. now apply (okeys_oset_old m k v v0).
  - exists [k]. now apply okeys_oset_new.
Qed.

Lemma oget_In m k v : oget m k = Some v -> In (k, v) m.
Proof.
  induction m as [|[k0 v0] m IH]; simpl; [discriminate|].
  destruct (String.eqb_spec k0 k).
  - intros [= ->]. subst. now left.
  - intros H. right. now apply IH.
Qed.

Lemma okeys_NoDup_oset m k v : NoDup (okeys m) -> NoDup (okeys (oset m k v)).
Proof.
  intros H. destruct (oget m k) as [v0|] eqn:E.
  - now rewrite (okeys_oset_old m k v v0).
  - rewrite okeys_oset_new by assumption.
    apply NoDup_app. split; [assumption|]. split.
    + intros x Hx Hk. apply list_elem_of_In in Hx, Hk.
      destruct Hk as [<-|[]]. apply oget_None_includes in E.
      assert (existsb (String.eqb k) (okeys m) = true) as E'.
      { apply existsb_exists. exists k. split; [assumption | apply String.eqb_refl]. }
      congruence.
    + apply NoDup_singleton.
Qed.
End OrderedMapMore.

Module IndexExtras.
Import Index.

(** X1. Import declarations of one module accumulate: visiting two
    declarations for the same path leaves the import table that a single
    declaration with both specifier lists leaves; a declaration without
    specifiers counts for nothing. *)
Theorem X1_import_declarations_accumulate
    (st : PluginState) (specifiers1 specifiers2 : list ImportSpecifierNode)
    (source : string) :
  ImportDeclaration_visitor (ImportDeclaration_visitor st specifiers1 source)
    specifiers2 source
  = ImportDeclaration_visitor st (specifiers1 ++ specifiers2) source.
Proof.
  destruct specifiers1 as [|s1 specifiers1].
  - reflexivity.
  - destruct specifiers2 as [|s2 specifiers2].
    + rewrite app_nil_r.
      unfold ImportDeclaration_visitor at 1. reflexivity.
    + unfold ImportDeclaration_visitor.
      change (Nat.ltb 0 (length (s1 :: specifiers1))) with true.
      change (Nat.ltb 0 (length (s2 :: specifiers2))) with true.
      change (Nat.ltb 0 (length ((s1 :: specifiers1) ++ s2 :: specifiers2)))
        with true.
      cbv iota. cbn [importIdentifiers mocks existingJestMocks program].
      rewrite oget_oset_eq, oset_oset, fold_left_app. reflexivity.
Qed.

Lemma pushSpecifier_normalise (l : list ImportDefinition) (s : ImportSpecifierNode) :
  pushSpecifier l (normaliseSpecifier s) = pushSpecifier l s.
Proof.
  destruct s as [local|local|local imported]; try reflexivity.
  simpl. destruct (String.eqb imported "default") eqn:E; simpl; now rewrite ?E.
Qed.

(** X2. A named specifier that imports [default] is a default import for the
    plugin: rewriting every [{ default as X }] of a declaration to the
    default form changes nothing in the state the visitor produces. *)
Theorem X2_named_default_is_a_default_import
    (st : PluginState) (specifiers : list ImportSpecifierNode) (source : string) :
  ImportDeclaration_visitor st (map normaliseSpecifier specifiers) source
  = ImportDeclaration_visitor st specifiers source.
Proof.
  unfold ImportDeclaration_visitor. rewrite length_map.
  assert (H : forall l,
             fold_left pushSpecifier (map normaliseSpecifier specifiers) l
             = fold_left pushSpecifier specifiers l).
  { induction specifiers as [|s specifiers IH]; intros l; [reflexivity|].
    simpl. now rewrite pushSpecifier_normalise, IH. }
  now rewrite H.
Qed.

(** *** The registry only grows *)

Lemma createMockDefinition_cases (st : PluginState) (def : Node)
    (type : MockType) (impl : option Node) :
  createMockDefinition st def type impl = st
  \/ exists root request,
      createMockDefinition st def type impl
      = {| importIdentifiers := importIdentifiers st;
           mocks := oset (mocks st) root
                      (or_empty (oget (mocks st) root) ++ [request]);
           existingJestMocks := existingJestMocks st;
           program := program st |}
      /\ (forall i, impl = Some i -> expression request = i).
Proof.
  unfold createMockDefinition.
  destruct (negb (isIdentifier def) && negb (isMemberExpression def)); [now left|].
  destruct (identifiersOf def) as [[lastIdentifier accessIdentifierName] subIdentifiers].
  destruct (negb (truthy_opt lastIdentifier) || negb (truthy_opt accessIdentifierName));
    [now left|].
  right. eexists _, _. split; [reflexivity|].
  intros i ->. reflexivity.
Qed.

Lemma createMockDefinition_grows (st : PluginState) (def : Node)
    (type : MockType) (impl : option Node) (root : string)
    (requests : list MockDefinition) :
  oget (mocks st) root = Some requests ->
  exists later,
    oget (mocks (createMockDefinition st def type impl)) root
    = Some (requests ++ later).
Proof.
  intros H.
  destruct (createMockDefinition_cases st def type impl)
    as [->|(root' & request & -> & _)].
  - exists []. now rewrite app_nil_r.
  - simpl. destruct (String.eqb_spec root' root) as [->|Hne].
    + exists [request]. now rewrite oget_oset_eq, H.
    + exists []. now rewrite oget_oset_ne, app_nil_r.
Qed.

Lemma createMockDefinitions_grow (type : MockType) (args : list Node)
    (st : PluginState) (root : string) (requests : list MockDefinition) :
  oget (mocks st) root = Some requests ->
  exists later,
    oget (mocks (fold_left (fun st arg => createMockDefinition st arg type None)
                   args st)) root
    = Some (requests ++ later).
Proof.
  revert st requests. induction args as [|arg args IH]; intros st requests H.
  - exists []. now rewrite app_nil_r.
  - simpl.
    destruct (createMockDefinition_grows st arg type None root requests H)
      as (later1 & H1).
    destruct (IH _ _ H1) as (later2 & H2).
    exists (later1 ++ later2). now rewrite app_assoc.
Qed.

Lemma visit_grows (st : PluginState) (n : Node) (root : string)
    (requests : list MockDefinition) :
  oget (mocks st) root = Some requests ->
  exists later, oget (mocks (visit st n)) root = Some (requests ++ later).
Proof.
  intros H.
  assert (Hsame : exists later, oget (mocks st) root = Some (requests ++ later)).
  { exists []. now rewrite app_nil_r. }
  destruct n; try exact Hsame.
  - (* CallExpression *)
    change (visit st (CallExpression n arguments))
      with (fst (CallExpression_visitor st (CallExpression n arguments))).
    unfold CallExpression_visitor.
    destruct (isMockObjCallExpession (CallExpression n arguments)) as [mockType|].
    + simpl fst.
      destruct (match arguments with
                | [_; arg1] => negb (isIdentifier arg1) && negb (isMemberExpression arg1)
                | _ => false
                end).
      * destruct arguments as [|a0 [|a1 [|a2 ?]]]; try exact Hsame.
        destruct (isExpression a1); [|exact Hsame].
        now apply createMockDefinition_grows.
      * now apply createMockDefinitions_grow.
    + destruct (isJestMockCallExpression (CallExpression n arguments));
        [|exact Hsame].
      destruct arguments as [|[] ?]; exact Hsame.
  - (* ImportDeclaration *)
    change (visit st (ImportDeclaration specifiers source))
      with (ImportDeclaration_visitor st specifiers source).
    destruct (TraversalFacts.ImportDeclaration_visitor_frame st specifiers source)
      as (_ & _ & ->).
    exact Hsame.
Qed.

Lemma fold_visit_grows (l : list Node) (st : PluginState) (root : string)
    (requests : list MockDefinition) :
  oget (mocks st) root = Some requests ->
  exists later,
    oget (mocks (fold_left visit l st)) root = Some (requests ++ later).
Proof.
  revert st requests. induction l as [|n l IH]; intros st requests H.
  - exists []. now rewrite app_nil_r.
  - simpl. destruct (visit_grows st n root requests H) as (later1 & H1).
    destruct (IH _ _ H1) as (later2 & H2).
    exists (later1 ++ later2). now rewrite app_assoc.
Qed.

(** X3. The registry of mock requests only grows: whatever the traversal
    meets, the requests already recorded for a root name stay, in their
    order, as the first elements of that root's list. *)
Theorem X3_recorded_requests_are_kept
    (st : PluginState) (statements : list Node) (root : string)
    (requests : list MockDefinition) :
  oget (mocks st) root = Some requests ->
  exists later,
    oget (mocks (fst (traverseBody st statements))) root
    = Some (requests ++ later).
Proof.
  intros H. rewrite TraversalFacts.traverseBody_state_all.
  now apply fold_visit_grows.
Qed.

(** [jest.mockObj(A, "first")] is still the first request for [A] after
    [jest.mockObj(A); jest.mock("m"); jest.mockFn(A.b)]. *)
Lemma X3_recorded_requests_witness :
  exists later,
    oget
      (mocks
         (fst (traverseBody
                 {| importIdentifiers := [];
                    mocks := [("A", [{| subProperties := [];
                                        expression := StringLiteral "first" |}])];
                    existingJestMocks := [];
                    program := true |}
                 [ mockObj [Identifier "A"];
                   ExpressionStatement
                     (CallExpression
                        (MemberExpression (Identifier "jest") (Identifier "mock")
                           false)
                        [StringLiteral "m"]);
                   ExpressionStatement
                     (CallExpression
                        (MemberExpression (Identifier "jest") (Identifier "mockFn")
                           false)
                        [chain "A" ["b"]]) ])))
      "A"
    = Some ([{| subProperties := []; expression := StringLiteral "first" |}]
            ++ later).
Proof.
  apply (X3_recorded_requests_are_kept
           {| importIdentifiers := [];
              mocks := [("A", [{| subProperties := [];
                                  expression := StringLiteral "first" |}])];
              existingJestMocks := [];
              program := true |}).
  reflexivity.
Defined.

(** *** Files without mock requests *)

Lemma visit_keeps_mocks (st : PluginState) (n : Node) :
  isMockObjCallExpession n = None -> mocks (visit st n) = mocks st.
Proof.
  intros H. destruct n; try reflexivity.
  - change (visit st (CallExpression n arguments))
      with (fst (CallExpression_visitor st (CallExpression n arguments))).
    unfold CallExpression_visitor. rewrite H.
    destruct (isJestMockCallExpression (CallExpression n arguments));
      [|reflexivity].
    destruct arguments as [|[] ?]; reflexivity.
  - change (visit st (ImportDeclaration specifiers source))
      with (ImportDeclaration_visitor st specifiers source).
    now destruct (TraversalFacts.ImportDeclaration_visitor_frame st specifiers source)
      as (_ & _ & ->).
Qed.

Lemma visited_without_mock_request (n : Node) :
  hasMockRequest n = false ->
  Forall (fun c => isMockObjCallExpession c = None) (visited n).
Proof.
  induction n using Node_nested_ind; intros Hn;
    try rewrite TraversalFacts.visited_call; simpl visited;
    try (now constructor).
  - (* MemberExpression *)
    simpl in Hn. apply orb_false_iff in Hn as [H1 H2].
    apply Forall_app. split; auto.
  - (* CallExpression *)
    rewrite TraversalFacts.hasMockRequest_call in Hn.
    destruct (isMockObjCallExpession (CallExpression n args)) eqn:E;
      [discriminate|].
    apply orb_false_iff in Hn as [H1 H2].
    constructor; [exact E|]. apply Forall_app. split; [auto|].
    clear E H1 IHn. induction H as [|a args Ha _ IH]; [constructor|].
    simpl in H2. apply orb_false_iff in H2 as [Ha' H2].
    simpl. apply Forall_app. split; auto.
  - (* ObjectExpression *)
    simpl in Hn. induction H as [|a l Ha _ IH]; [constructor|].
    simpl in Hn. apply orb_false_iff in Hn as [Ha' Hn].
    simpl. apply Forall_app. split; auto.
  - (* ObjectProperty *)
    simpl in Hn. apply orb_false_iff in Hn as [H1 H2].
    apply Forall_app. split; auto.
  - auto.
  - auto.
  - (* BlockStatement *)
    simpl in Hn. induction H as [|a l Ha _ IH]; [constructor|].
    simpl in Hn. apply orb_false_iff in Hn as [Ha' Hn].
    simpl. apply Forall_app. split; auto.
  - auto.
  - auto.
  - auto.
  - auto.
Qed.

Lemma fold_visit_keeps_mocks (l : list Node) (st : PluginState) :
  Forall (fun c => isMockObjCallExpession c = None) l ->
  mocks (fold_left visit l st) = mocks st.
Proof.
  intros H. revert st. induction H as [|n l Hn _ IH]; intros st; [reflexivity|].
  simpl. rewrite IH. now apply visit_keeps_mocks.
Qed.

Lemma no_mock_request_no_mocks (statements : list Node) (st : PluginState) :
  existsb hasMockRequest statements = false ->
  mocks (fst (traverseBody st statements)) = mocks st.
Proof.
  intros H. rewrite TraversalFacts.traverseBody_state_all.
  apply fold_visit_keeps_mocks.
  induction statements as [|n statements IH]; [constructor|].
  simpl in H. apply orb_false_iff in H as [Hn H].
  simpl. apply Forall_app. split; [now apply visited_without_mock_request | auto].
Qed.

(** X4. No-op guarantee: a file in which no [jest.mockObj] / [jest.mockFn]
    call occurs comes back as it went in, whatever it imports and whatever
    [jest.mock] calls it holds. *)
Theorem X4_file_without_mock_requests_is_unchanged (file : Program) :
  existsb hasMockRequest (body file) = false ->
  transform file = Ok file.
Proof.
  intros H. unfold transform.
  rewrite (TraversalFacts.no_requests_removalsAllowed (body file) H). cbn [negb].
  pose proof (no_mock_request_no_mocks (body file) (Program_visitor pre) H) as Hm.
  assert (Hb : snd (traverseBody (Program_visitor pre) (body file)) = body file).
  { apply TraversalFacts.traverseBody_unchanged; [|exact H].
    apply Forall_forall. intros n _. apply TraversalFacts.traverseNode_unchanged. }
  destruct (traverseBody (Program_visitor pre) (body file)) as [st body1].
  simpl in Hm, Hb. subst body1.
  unfold post. rewrite Hm. simpl.
  destruct (negb (program st)); now destruct file.
Qed.

(** [import A from "./a"; jest.mock("./a", () => {}); run(A);] *)
Lemma X4_unchanged_witness :
  transform
    {| directives := [];
       body :=
         [ ImportDeclaration [ImportDefaultSpecifier "A"] "./a";
           ExpressionStatement
             (CallExpression
                (MemberExpression (Identifier "jest") (Identifier "mock") false)
                [StringLiteral "./a"; ArrowFunctionExpression (BlockStatement [])]);
           ExpressionStatement
             (CallExpression (Identifier "run") [Identifier "A"]) ] |}
  = Ok {| directives := [];
          body :=
            [ ImportDeclaration [ImportDefaultSpecifier "A"] "./a";
              ExpressionStatement
                (CallExpression
                   (MemberExpression (Identifier "jest") (Identifier "mock") false)
                   [StringLiteral "./a";
                    ArrowFunctionExpression (BlockStatement [])]);
              ExpressionStatement
                (CallExpression (Identifier "run") [Identifier "A"]) ] |}.
Proof.
  apply (X4_file_without_mock_requests_is_unchanged
           {| directives := [];
              body :=
                [ ImportDeclaration [ImportDefaultSpecifier "A"] "./a";
                  ExpressionStatement
                    (CallExpression
                       (MemberExpression (Identifier "jest") (Identifier "mock")
                          false)
                       [StringLiteral "./a";
                        ArrowFunctionExpression (BlockStatement [])]);
                  ExpressionStatement
                    (CallExpression (Identifier "run") [Identifier "A"]) ] |}).
  reflexivity.
Defined.

(** *** Requests without an import *)

Lemma addImport_without_requests (mocks : ordmap (list MockDefinition))
    (imports : list ImportDefinition) (mocksForModule : ModuleMockDefinition) :
  Forall (fun i => oget mocks (name i) = None) imports ->
  fold_left (addImport mocks) imports mocksForModule = mocksForModule.
Proof.
  intros H. revert mocksForModule.
  induction H as [|i imports Hi _ IH]; intros mocksForModule; [reflexivity|].
  simpl. unfold addImport at 2. rewrite Hi. apply IH.
Qed.

(** X5. Requests that no import binds are dropped: when none of the imported
    local names has requests in the registry, [post] inserts nothing,
    however many requests there are for other names. *)
Theorem X5_requests_without_import_are_dropped
    (st : PluginState) (statements : list Node) :
  (forall modulePath imports i,
      In (modulePath, imports) (importIdentifiers st) ->
      In i imports -> oget (mocks st) (name i) = None) ->
  post st statements = Ok statements.
Proof.
  intros H. rewrite TraversalFacts.post_registrations.
  2:{ apply not_true_is_false. intros Hr.
      apply existsb_exists in Hr as ([modulePath imports] & Hin & Hr).
      unfold refusesModule in Hr. apply andb_true_iff in Hr as (_ & Hr).
      apply existsb_exists in Hr as (i & Hi & Hr). cbn [snd] in Hi.
      unfold refuses in Hr. now rewrite (H modulePath imports i Hin Hi) in Hr. }
  assert (Hregs : registrations st = []).
  { unfold registrations.
    destruct (negb (program st)); [reflexivity|].
    destruct (_ || _); [reflexivity|].
    assert (Hall : forall l,
               (forall entry, In entry l -> In entry (importIdentifiers st)) ->
               omap (registration st) l = []).
    { induction l as [|[modulePath imports] l IH]; intros Hl; [reflexivity|].
      simpl. unfold registration at 1.
      destruct (includes (existingJestMocks st) modulePath).
      - apply IH. intros entry He. apply Hl. now right.
      - rewrite addImport_without_requests.
        + simpl. apply IH. intros entry He. apply Hl. now right.
        + apply Forall_forall. intros i Hi. apply list_elem_of_In in Hi.
          apply (H modulePath imports); [|assumption]. apply Hl. now left. }
    apply Hall. auto. }
  rewrite Hregs. reflexivity.
Qed.

(** The registry holds requests for [ANest], [C] and [B]; only [A] is
    imported. *)
Lemma X5_without_import_witness :
  post
    {| importIdentifiers := [("./a", [{| name := "A"; type := type_default |}])];
       mocks :=
         [ ("ANest", [{| subProperties := []; expression := StringLiteral "ANest" |}]);
           ("C", [{| subProperties := ["A"]; expression := StringLiteral "A" |}]);
           ("B", [{| subProperties := []; expression := StringLiteral "B" |}]) ];
       existingJestMocks := [];
       program := true |}
    [ImportDeclaration [ImportDefaultSpecifier "A"] "./a"]
  = Ok [ImportDeclaration [ImportDefaultSpecifier "A"] "./a"].
Proof.
  apply X5_requests_without_import_are_dropped.
  intros modulePath imports i [[= <- <-]|[]] [<-|[]]. reflexivity.
Defined.

(** *** What the transformation adds *)

Lemma buildJestMockForModule_shape (source : string) (def : ModuleMockDefinition) :
  buildJestMockForModule source def
  = (props ← topLevelProps def; Ok (jestMock source props)).
Proof.
  unfold buildJestMockForModule, createModuleMockImpl. unfold_bind.
  now destruct (topLevelProps def).
Qed.

Lemma buildAll_shape (regs : list (string * ModuleMockDefinition))
    (statements : list Node) :
  buildAll regs = Ok statements ->
  exists inserted : list (string * list Node),
    statements = map (fun e => jestMock (fst e) (snd e)) inserted
    /\ map fst inserted = map fst regs.
Proof.
  revert statements. induction regs as [|[source def] regs IH]; intros statements.
  - intros [= <-]. now exists [].
  - unfold buildAll. simpl mapM. rewrite buildJestMockForModule_shape.
    unfold_bind. destruct (topLevelProps def) as [props|]; [|discriminate].
    change (mapM _ regs) with (buildAll regs).
    destruct (buildAll regs) as [rest|]; [|discriminate].
    intros [= <-]. destruct (IH rest eq_refl) as (inserted & -> & Hfst).
    exists ((source, props) :: inserted). simpl. now rewrite Hfst.
Qed.

Lemma visit_NoDup_keys (st : PluginState) (n : Node) :
  NoDup (okeys (importIdentifiers st)) ->
  NoDup (okeys (importIdentifiers (visit st n))).
Proof.
  intros H. destruct n; try exact H.
  - change (visit st (CallExpression n arguments))
      with (fst (CallExpression_visitor st (CallExpression n arguments))).
    now destruct (TraversalFacts.CallExpression_visitor_frame st
                    (CallExpression n arguments)) as (-> & _).
  - change (visit st (ImportDeclaration specifiers source))
      with (ImportDeclaration_visitor st specifiers source).
    unfold ImportDeclaration_visitor.
    destruct (Nat.ltb 0 (length specifiers)); [|exact H].
    simpl. now apply okeys_NoDup_oset.
Qed.

Lemma fold_visit_NoDup_keys (l : list Node) (st : PluginState) :
  NoDup (okeys (importIdentifiers st)) ->
  NoDup (okeys (importIdentifiers (fold_left visit l st))).
Proof.
  revert st. induction l as [|n l IH]; intros st H; [exact H|].
  simpl. apply IH. now apply visit_NoDup_keys.
Qed.

(** X6. What a transformed file differs by: the directives are untouched,
    and the body is the traversed body with registrations put in front of it.
    Every added statement is a [jest.mock(path, factory)] whose factory
    builds one object literal, marks it as an ES module and returns it; there
    is at most one per module path, and only for paths the file imports. *)
Theorem X6_only_registrations_are_added (file file' : Program) :
  transform file = Ok file' ->
  directives file' = directives file
  /\ exists inserted : list (string * list Node),
      body file'
      = map (fun e => jestMock (fst e) (snd e)) inserted
        ++ snd (traverseBody (Program_visitor pre) (body file))
      /\ NoDup (map fst inserted)
      /\ (forall modulePath,
            In modulePath (map fst inserted) ->
            In modulePath (firstImported [] (flat_map visited (body file)))).
Proof.
  intros H. apply TraversalFacts.transform_Ok in H as (statements & Hb & ->).
  set (st := fst (traverseBody (Program_visitor pre) (body file))) in *.
  split; [reflexivity|]. simpl body.
  destruct (buildAll_shape _ _ Hb) as (inserted & -> & Hfst).
  pose proof (TraversalFacts.registrations_sublist st) as Hsub.
  assert (Hkeys : okeys (importIdentifiers st)
                  = firstImported [] (flat_map visited (body file))).
  { unfold st. rewrite TraversalFacts.traverseBody_state_all.
    now rewrite TraversalFacts.fold_visit_keys. }
  assert (Hnd : NoDup (okeys (importIdentifiers st))).
  { unfold st. rewrite TraversalFacts.traverseBody_state_all.
    apply fold_visit_NoDup_keys. constructor. }
  exists (rev inserted). repeat split.
  - rewrite TraversalFacts.fold_left_unshift. now rewrite map_rev.
  - rewrite map_rev, Hfst. apply NoDup_ListNoDup, List.NoDup_rev, NoDup_ListNoDup.
    now apply (sublist_NoDup _ _ Hnd).
  - intros modulePath Hin. rewrite map_rev, Hfst in Hin.
    apply in_rev in Hin. rewrite <- Hkeys.
    apply list_elem_of_In. apply list_elem_of_In in Hin.
    now apply (elem_of_sublist _ _ _ Hin).
Qed.

(** [import A from "./a"; import { B } from "./b"; jest.mockObj(A, B);] *)
Lemma X6_only_registrations_witness :
  exists inserted : list (string * list Node),
    [ jestMock "./b" [ObjectProperty (StringLiteral "B") (StringLiteral "B")];
      jestMock "./a" [ObjectProperty (StringLiteral "default") (StringLiteral "A")];
      ImportDeclaration [ImportDefaultSpecifier "A"] "./a";
      ImportDeclaration [ImportSpecifier "B" "B"] "./b" ]
    = map (fun e => jestMock (fst e) (snd e)) inserted
      ++ snd (traverseBody (Program_visitor pre)
                [ ImportDeclaration [ImportDefaultSpecifier "A"] "./a";
                  ImportDeclaration [ImportSpecifier "B" "B"] "./b";
                  mockObj [Identifier "A"; Identifier "B"] ])
    /\ NoDup (map fst inserted)
    /\ (forall modulePath,
          In modulePath (map fst inserted) ->
          In modulePath
            (firstImported []
               (flat_map visited
                  [ ImportDeclaration [ImportDefaultSpecifier "A"] "./a";
                    ImportDeclaration [ImportSpecifier "B" "B"] "./b";
                    mockObj [Identifier "A"; Identifier "B"] ]))).
Proof.
  apply (X6_only_registrations_are_added
           {| directives := [];
              body :=
                [ ImportDeclaration [ImportDefaultSpecifier "A"] "./a";
                  ImportDeclaration [ImportSpecifier "B" "B"] "./b";
                  mockObj [Identifier "A"; Identifier "B"] ] |}
           {| directives := [];
              body :=
                [ jestMock "./b"
                    [ObjectProperty (StringLiteral "B") (StringLiteral "B")];
                  jestMock "./a"
                    [ObjectProperty (StringLiteral "default") (StringLiteral "A")];
                  ImportDeclaration [ImportDefaultSpecifier "A"] "./a";
                  ImportDeclaration [ImportSpecifier "B" "B"] "./b" ] |}).
  reflexivity.
Defined.

(** *** Which statements the traversal deletes *)

Lemma traverseNode_mock_call (st : PluginState) (call : Node) (mockType : MockType) :
  isMockObjCallExpession call = Some mockType ->
  traverseNode st (ExpressionStatement call)
  = (fst (CallExpression_visitor st call), None).
Proof.
  intros H. rewrite TraversalFacts.traverseNode_eq.
  destruct call; try discriminate H.
  rewrite (TraversalFacts.traverseNode_eq st (CallExpression call arguments)).
  pose proof (TraversalFacts.removed_iff_mock_request st
                (CallExpression call arguments)) as Hrem.
  rewrite H in Hrem.
  destruct (CallExpression_visitor st (CallExpression call arguments))
    as [st1 removed].
  simpl in Hrem. now subst removed.
Qed.

Lemma traverseNode_mock_statement (st : PluginState) (statement : Node) :
  isMockStatement statement = true -> snd (traverseNode st statement) = None.
Proof.
  destruct statement; try discriminate. unfold isMockStatement.
  destruct (isMockObjCallExpession statement) as [mockType|] eqn:H;
    [|discriminate].
  intros _. now rewrite (traverseNode_mock_call st statement mockType H).
Qed.

Lemma no_request_not_mock_statement (statement : Node) :
  hasMockRequest statement = false -> isMockStatement statement = false.
Proof.
  destruct statement; try reflexivity.
  destruct statement; try reflexivity.
  change (hasMockRequest (ExpressionStatement (CallExpression statement arguments)))
    with (hasMockRequest (CallExpression statement arguments)).
  rewrite TraversalFacts.hasMockRequest_call. unfold isMockStatement.
  now destruct (isMockObjCallExpession (CallExpression statement arguments)).
Qed.

(** X7. When the mock requests of a statement list are all statements of
    their own, traversing the list deletes exactly those statements, whether
    or not they name an imported binding, and keeps every other statement
    as it is and in order. *)
Theorem X7_traversal_deletes_the_mock_statements
    (st : PluginState) (statements : list Node) :
  Forall (fun s => isMockStatement s = true \/ hasMockRequest s = false)
         statements ->
  snd (traverseBody st statements)
  = List.filter (fun s => negb (isMockStatement s)) statements.
Proof.
  intros H. revert st.
  induction H as [|s statements Hs _ IH]; intros st; [reflexivity|].
  rewrite TraversalFacts.traverseBody_cons.
  destruct Hs as [Hs|Hs].
  - pose proof (traverseNode_mock_statement st s Hs) as E1.
    destruct (traverseNode st s) as [st1 r]. simpl in E1. subst r.
    pose proof (IH st1) as E2. destruct (traverseBody st1 statements) as [st2 rs].
    simpl in E2. simpl. now rewrite Hs.
  - pose proof (TraversalFacts.traverseNode_unchanged s st Hs) as E1.
    destruct (traverseNode st s) as [st1 r]. simpl in E1. subst r.
    pose proof (IH st1) as E2. destruct (traverseBody st1 statements) as [st2 rs].
    simpl in E2. simpl. rewrite (no_request_not_mock_statement s Hs). simpl.
    now rewrite E2.
Qed.

(** [import A from "./a"; jest.mockObj(Unknown); f(A); jest.mockFn(A);] *)
Lemma X7_deleted_statements_witness :
  snd (traverseBody (Program_visitor pre)
         [ ImportDeclaration [ImportDefaultSpecifier "A"] "./a";
           mockObj [Identifier "Unknown"];
           ExpressionStatement (CallExpression (Identifier "f") [Identifier "A"]);
           ExpressionStatement
             (CallExpression
                (MemberExpression (Identifier "jest") (Identifier "mockFn") false)
                [Identifier "A"]) ])
  = [ ImportDeclaration [ImportDefaultSpecifier "A"] "./a";
      ExpressionStatement (CallExpression (Identifier "f") [Identifier "A"]) ].
Proof.
  apply (X7_traversal_deletes_the_mock_statements (Program_visitor pre)).
  repeat (apply List.Forall_cons;
          [first [left; reflexivity | right; reflexivity]|]).
  apply List.Forall_nil.
Defined.

(** *** One call with several targets *)

Lemma CallExpression_visitor_targets (st : PluginState) (callee : Node)
    (args : list Node) (mockType : MockType) :
  isMockObjCallExpession (CallExpression callee args) = Some mockType ->
  Forall (fun arg => isIdentifier arg || isMemberExpression arg = true) args ->
  CallExpression_visitor st (CallExpression callee args)
  = (fold_left (fun st arg => createMockDefinition st arg mockType None) args st,
     true).
Proof.
  intros H Hargs. unfold CallExpression_visitor. rewrite H.
  destruct args as [|arg0 [|arg1 [|arg2 args]]]; try reflexivity.
  apply Forall_cons in Hargs as [_ Hargs]. apply Forall_cons in Hargs as [H1 _].
  apply orb_true_iff in H1 as [-> | ->]; [reflexivity|].
  now rewrite andb_false_r.
Qed.

(** X8. A call whose arguments are all identifiers or member accesses
    records the same requests as two calls of the same callee that share out
    the arguments in order, and either way nothing of the calls is left. *)
Theorem X8_targets_of_one_call_are_separate_requests
    (st : PluginState) (callee : Node) (args1 args2 : list Node)
    (mockType : MockType) :
  isMockObjCallExpession (CallExpression callee (args1 ++ args2)) = Some mockType ->
  Forall (fun arg => isIdentifier arg || isMemberExpression arg = true)
         (args1 ++ args2) ->
  traverseBody st [ExpressionStatement (CallExpression callee (args1 ++ args2))]
  = traverseBody st [ ExpressionStatement (CallExpression callee args1);
                      ExpressionStatement (CallExpression callee args2) ].
Proof.
  intros H Hargs.
  assert (H1 : isMockObjCallExpession (CallExpression callee args1) = Some mockType)
    by exact H.
  assert (H2 : isMockObjCallExpession (CallExpression callee args2) = Some mockType)
    by exact H.
  pose proof Hargs as Hboth. apply Forall_app in Hboth as [Ha1 Ha2].
  rewrite !TraversalFacts.traverseBody_cons.
  rewrite (traverseNode_mock_call st _ mockType H).
  rewrite (traverseNode_mock_call st _ mockType H1).
  rewrite (CallExpression_visitor_targets st callee _ mockType H Hargs).
  rewrite (CallExpression_visitor_targets st callee _ mockType H1 Ha1).
  cbn [fst]. rewrite TraversalFacts.traverseBody_cons.
  rewrite (traverseNode_mock_call _ _ mockType H2).
  rewrite (CallExpression_visitor_targets _ callee _ mockType H2 Ha2).
  cbn [fst]. now rewrite fold_left_app.
Qed.

(** [jest.mockObj(A, B.c, D)] against [jest.mockObj(A); jest.mockObj(B.c, D)]. *)
Lemma X8_separate_requests_witness :
  traverseBody (Program_visitor pre)
    [ mockObj [ Identifier "A";
                MemberExpression (Identifier "B") (Identifier "c") false;
                Identifier "D" ] ]
  = traverseBody (Program_visitor pre)
      [ mockObj [Identifier "A"];
        mockObj [ MemberExpression (Identifier "B") (Identifier "c") false;
                  Identifier "D" ] ].
Proof.
  apply (X8_targets_of_one_call_are_separate_requests (Program_visitor pre)
           (MemberExpression (Identifier "jest") (Identifier "mockObj") false)
           [Identifier "A"]
           [ MemberExpression (Identifier "B") (Identifier "c") false;
             Identifier "D" ]
           type_name).
  - reflexivity.
  - repeat constructor.
Defined.

(** *** Requests too deep for their binding *)

(** X9. For a namespace binding the requests with no segment or with more
    than two are skipped: the definition built from a list of requests is the
    one built from its requests of one or two segments. *)
Theorem X9_namespace_binding_takes_one_or_two_segments
    (requests : list MockDefinition) (mocksForModule : ModuleMockDefinition) :
  fold_left addNamespaceMock requests mocksForModule
  = fold_left addNamespaceMock (List.filter namespaceDepthOk requests)
      mocksForModule.
Proof.
  revert mocksForModule.
  induction requests as [|m requests IH]; intros mocksForModule; [reflexivity|].
  simpl. destruct (namespaceDepthOk m) eqn:Hm.
  - simpl. apply IH.
  - rewrite IH. f_equal. unfold addNamespaceMock.
    unfold namespaceDepthOk in Hm. apply orb_false_iff in Hm as [-> ->].
    reflexivity.
Qed.

(** X10. For a default or named binding the entries appended to the array
    of its export key are those of the requests with at most one segment, in
    request order, each with its replacement and its segment, if any, as
    sub-key. *)
Theorem X10_named_binding_takes_at_most_one_segment
    (requests : list MockDefinition) (mocksArr : list ModuleMock) :
  fold_left addMock requests mocksArr
  = mocksArr
    ++ map moduleMockOf
         (List.filter (fun m => Nat.leb (length (subProperties m)) 1) requests).
Proof.
  revert mocksArr.
  induction requests as [|m requests IH]; intros mocksArr.
  - simpl. now rewrite app_nil_r.
  - simpl. rewrite IH. unfold addMock.
    destruct (Nat.ltb_spec 1 (length (subProperties m))) as [Hlt|Hle].
    + destruct (Nat.leb_spec (length (subProperties m)) 1); [lia|reflexivity].
    + destruct (Nat.leb_spec (length (subProperties m)) 1); [|lia].
      simpl. now rewrite <- app_assoc.
Qed.

(** *** When building a factory fails *)

Lemma subKeyAfterFlat_nil : ~ subKeyAfterFlat [].
Proof. intros (before & flat & sub & after & H & _). now destruct before. Qed.

Lemma subKeyAfterFlat_cons (m : ModuleMock) (mocks : list ModuleMock) :
  subKeyAfterFlat (m :: mocks)
  <-> (noSubProperty m = true
       /\ isObjectExpression (mock_expression m) = false
       /\ exists sub after, mocks = sub :: after /\ noSubProperty sub = false)
      \/ subKeyAfterFlat mocks.
Proof.
  split.
  - intros (before & flat & sub & after & H & Hflat & Hobj & Hsub).
    destruct before as [|b before]; simpl in H; injection H as -> ->.
    + left. repeat split; try assumption. now exists sub, after.
    + right. now exists before, flat, sub, after.
  - intros [(Hflat & Hobj & sub & after & -> & Hsub)
           | (before & flat & sub & after & -> & Hrest)].
    + now exists [], m, sub, after.
    + now exists (m :: before), flat, sub, after.
Qed.

Lemma subKeysFindObject_false (mocks : list ModuleMock) (object : bool) :
  subKeysFindObject object mocks = false
  <-> (object = false
       /\ exists sub after, mocks = sub :: after /\ noSubProperty sub = false)
      \/ subKeyAfterFlat mocks.
Proof.
  revert object. induction mocks as [|m mocks IH]; intros object.
  - simpl. split; [discriminate|].
    intros [(_ & sub & after & H & _)|H]; [discriminate|].
    now apply subKeyAfterFlat_nil in H.
  - simpl subKeysFindObject. rewrite subKeyAfterFlat_cons.
    destruct (noSubProperty m) eqn:Hm.
    + rewrite IH. split.
      * intros [(Hobj & Hsub)|H]; right; [left | now right]. now repeat split.
      * intros [(_ & sub & after & [= <- <-] & Hsub)|[(_ & Hobj & Hsub)|H]].
        -- congruence.
        -- left. now split.
        -- now right.
    + rewrite andb_false_iff, IH. split.
      * intros [->|[(Hobj & _)|H]]; [|discriminate|].
        -- left. split; [reflexivity|]. now exists m, mocks.
        -- right. now right.
      * intros [(-> & _)|[(Hflat & _)|H]]; [now left|discriminate|].
        right. now right.
Qed.

Lemma nested_loop_Throw (mocks : list ModuleMock) (value : Node) :
  foldM nestedStep mocks value = Throw
  <-> subKeysFindObject (isObjectExpression value) mocks = false.
Proof.
  revert value. induction mocks as [|m mocks IH]; intros value.
  - simpl. split; discriminate.
  - rewrite ModuleMockFacts.foldM_cons. simpl subKeysFindObject.
    unfold nestedStep. destruct (noSubProperty m).
    + unfold_bind. apply IH.
    + destruct value; simpl; try (split; reflexivity).
      unfold_bind. simpl. apply IH.
Qed.

Lemma topLevelProp_Throw (key : string) (mocks : list ModuleMock) :
  topLevelProp key mocks = Throw <-> subKeyAfterFlat mocks.
Proof.
  unfold topLevelProp.
  destruct mocks as [|m mocks].
  { simpl. split; [discriminate|]. intros H. now apply subKeyAfterFlat_nil in H. }
  change (Nat.eqb (length (m :: mocks)) 0) with false. cbv iota.
  destruct (forallb noSubProperty (m :: mocks)) eqn:Hall.
  - destruct (last (m :: mocks)) eqn:Hlast.
    + split; [discriminate|].
      intros (before & flat & sub & after & E & _ & _ & Hsub).
      rewrite E in Hall. rewrite forallb_app in Hall. simpl in Hall.
      rewrite Hsub in Hall. rewrite !andb_false_r in Hall. discriminate.
    + apply last_None in Hlast. discriminate.
  - unfold_bind. simpl objectExpression. cbv iota.
    destruct (foldM nestedStep (m :: mocks) (ObjectExpression [])) eqn:Hfold.
    + split; [discriminate|]. intros H.
      assert (Hf : subKeysFindObject true (m :: mocks) = false).
      { apply subKeysFindObject_false. now right. }
      apply (nested_loop_Throw (m :: mocks) (ObjectExpression [])) in Hf.
      congruence.
    + split; [|reflexivity]. intros _.
      apply (nested_loop_Throw (m :: mocks) (ObjectExpression [])) in Hfold.
      apply subKeysFindObject_false in Hfold as [(Hobj & _)|H];
        [discriminate | exact H].
Qed.

(** X11. Building the factory of a module fails exactly when, under one of
    its export keys, a request with a sub-key comes directly after a request
    without one whose replacement is not an object literal. *)
Theorem X11_factory_fails_on_sub_key_after_flat (def : ModuleMockDefinition) :
  createModuleMockImpl def = Throw
  <-> exists key mocks, In (key, mocks) def /\ subKeyAfterFlat mocks.
Proof.
  assert (Himpl : createModuleMockImpl def = Throw <-> topLevelProps def = Throw).
  { unfold createModuleMockImpl. unfold_bind.
    destruct (topLevelProps def); simpl; split; (discriminate || reflexivity). }
  rewrite Himpl. clear Himpl.
  induction def as [|[key mocks] def IH].
  - split; [discriminate|]. now intros (key & mocks & [] & _).
  - rewrite ModuleMockFacts.topLevelProps_cons. unfold_bind.
    destruct (topLevelProp key mocks) as [prop|] eqn:Hprop.
    + assert (Hno : ~ subKeyAfterFlat mocks).
      { intros H. apply (topLevelProp_Throw key) in H. congruence. }
      split.
      * intros H.
        assert (Hdef : topLevelProps def = Throw)
          by (destruct (topLevelProps def); [discriminate | reflexivity]).
        apply IH in Hdef as (key' & mocks' & Hin & H').
        exists key', mocks'. split; [now right | exact H'].
      * intros (key' & mocks' & [[= <- <-]|Hin] & H'); [contradiction|].
        assert (Hdef : topLevelProps def = Throw).
        { apply IH. now exists key', mocks'. }
        now rewrite Hdef.
    + split; [|reflexivity]. intros _. exists key, mocks.
      split; [now left|]. now apply (topLevelProp_Throw key).
Qed.

(** *** The keys of a factory *)

Lemma topLevelProp_Ok (key : string) (mocks : list ModuleMock)
    (prop : option Node) :
  topLevelProp key mocks = Ok prop ->
  option_map propertyKey prop
  = (if Nat.eqb (length mocks) 0 then None else Some (Some key)).
Proof.
  unfold topLevelProp. destruct (Nat.eqb (length mocks) 0).
  { now intros [= <-]. }
  destruct (forallb noSubProperty mocks).
  - destruct (last mocks); [|discriminate]. now intros [= <-].
  - unfold_bind. simpl objectExpression. cbv iota.
    destruct (foldM nestedStep mocks (ObjectExpression [])); [|discriminate].
    now intros [= <-].
Qed.

(** X12. When the factory object is built, it has one property for each
    export key that holds at least one entry, keyed by the string literal of
    that key and in the insertion order of the keys; keys without entries
    get no property. *)
Theorem X12_factory_has_one_property_per_key
    (def : ModuleMockDefinition) (props : list Node) :
  topLevelProps def = Ok props ->
  map propertyKey props = map Some (nonEmptyKeys def).
Proof.
  revert props. induction def as [|[key mocks] def IH]; intros props.
  - now intros [= <-].
  - rewrite ModuleMockFacts.topLevelProps_cons. unfold_bind.
    destruct (topLevelProp key mocks) as [prop|] eqn:Hprop; [|discriminate].
    destruct (topLevelProps def) as [rest|]; [|discriminate].
    intros [= <-]. apply topLevelProp_Ok in Hprop.
    unfold nonEmptyKeys. simpl.
    destruct (Nat.eqb (length mocks) 0); destruct prop as [p|]; try discriminate.
    + apply (IH rest eq_refl).
    + injection Hprop as Hp. simpl. rewrite Hp. f_equal. apply (IH rest eq_refl).
Qed.

(** The definition of the reported fixture's module [b]: key [B] without
    entries, key [C] with one. *)
Lemma X12_one_property_per_key_witness :
  map propertyKey [ObjectProperty (StringLiteral "C") (StringLiteral "C")]
  = map Some
      (nonEmptyKeys
         [ ("B", []);
           ("C", [{| mock_expression := StringLiteral "C"; subProperty := None |}]) ]).
Proof.
  apply (X12_factory_has_one_property_per_key
           [ ("B", []);
             ("C", [{| mock_expression := StringLiteral "C"; subProperty := None |}]) ]).
  reflexivity.
Defined.

(** *** What is left after the traversal *)

Ltac split_traversal :=
  repeat match goal with
         | |- context [let '(_, _) := ?t in _] => destruct t
         | |- context [if ?b then _ else _] => destruct b
         | |- context [match ?o with Some _ => _ | None => _ end] => destruct o
         end.

Lemma traversed_identifierName (st : PluginState) (n : Node) :
  identifierName (slot (snd (traverseNode st n))) = identifierName n.
Proof.
  rewrite TraversalFacts.traverseNode_eq.
  destruct n; cbv iota beta; split_traversal; reflexivity.
Qed.

Lemma isMockObjCallExpession_member (object property : Node) (computed : bool)
    (args : list Node) :
  isMockObjCallExpession
    (CallExpression (MemberExpression object property computed) args)
  = match identifierName object, identifierName property with
    | Some o, Some p =>
        isMockObjCallExpession
          (CallExpression (MemberExpression (Identifier o) (Identifier p) false) [])
    | _, _ => None
    end.
Proof. destruct object; try reflexivity; destruct property; reflexivity. Qed.

Lemma isMockObjCallExpession_traversed (st : PluginState) (callee : Node)
    (args args' : list Node) :
  isMockObjCallExpession
    (CallExpression (slot (snd (traverseNode st callee))) args')
  = isMockObjCallExpession (CallExpression callee args).
Proof.
  destruct callee;
    try (rewrite TraversalFacts.traverseNode_eq; cbv iota beta;
         split_traversal; reflexivity).
  rewrite TraversalFacts.traverseNode_eq.
  pose proof (traversed_identifierName st callee1) as H1.
  destruct (traverseNode st callee1) as [st1 object'].
  pose proof (traversed_identifierName st1 callee2) as H2.
  destruct (traverseNode st1 callee2) as [st2 property'].
  simpl snd in *. simpl slot at 1.
  rewrite !isMockObjCallExpession_member. now rewrite H1, H2.
Qed.

Lemma traverseBody_clean (l : list Node) :
  Forall (fun n => forall st,
              hasMockRequest (slot (snd (traverseNode st n))) = false) l ->
  forall st, existsb hasMockRequest (snd (traverseBody st l)) = false.
Proof.
  induction 1 as [|n l Hn _ IH]; intros st; [reflexivity|].
  rewrite TraversalFacts.traverseBody_cons.
  pose proof (Hn st) as E1. destruct (traverseNode st n) as [st1 r].
  pose proof (IH st1) as E2. destruct (traverseBody st1 l) as [st2 rs].
  simpl snd in E1, E2. destruct r as [n'|]; simpl in *; [|exact E2].
  now rewrite E1, E2.
Qed.

Ltac use_clean IH st :=
  let E := fresh "E" in
  pose proof (IH st) as E;
  match type of E with
  | hasMockRequest (slot (snd ?t)) = _ =>
      let st' := fresh "st" in
      let r := fresh "r" in
      destruct t as [st' r]; simpl snd in E
  end.

Ltac use_clean_list st :=
  match goal with
  | H : Forall _ ?l |- _ =>
      let E := fresh "E" in
      let st' := fresh "st" in
      let l' := fresh "l" in
      pose proof (traverseBody_clean l H st) as E;
      destruct (traverseBody st l) as [st' l']; simpl snd in E
  end.

Lemma traverseNode_clean (n : Node) (st : PluginState) :
  hasMockRequest (slot (snd (traverseNode st n))) = false.
Proof.
  revert st. induction n using Node_nested_ind; intros st;
    try (rewrite TraversalFacts.traverseNode_eq; reflexivity).
  - (* MemberExpression *)
    rewrite TraversalFacts.traverseNode_eq.
    use_clean IHn1 st. use_clean IHn2 st0. simpl. now rewrite E, E0.
  - (* CallExpression *)
    rewrite TraversalFacts.traverseNode_eq.
    pose proof (TraversalFacts.removed_iff_mock_request st
                  (CallExpression n args)) as Hrem.
    destruct (CallExpression_visitor st (CallExpression n args))
      as [st1 removed].
    simpl snd in Hrem. subst removed.
    destruct (isMockObjCallExpession (CallExpression n args)) eqn:Hmock;
      [reflexivity|].
    pose proof (isMockObjCallExpession_traversed st1 n args) as Hcallee1.
    use_clean IHn st1. use_clean_list st0.
    simpl snd. simpl slot at 1.
    rewrite TraversalFacts.hasMockRequest_call.
    simpl snd in Hcallee1. rewrite (Hcallee1 l), Hmock. now rewrite E, E0.
  - (* ObjectExpression *)
    rewrite TraversalFacts.traverseNode_eq. use_clean_list st. exact E.
  - (* ObjectProperty *)
    rewrite TraversalFacts.traverseNode_eq.
    use_clean IHn1 st. use_clean IHn2 st0. simpl. now rewrite E, E0.
  - (* SpreadElement *)
    rewrite TraversalFacts.traverseNode_eq. use_clean IHn st. exact E.
  - (* ArrowFunctionExpression *)
    rewrite TraversalFacts.traverseNode_eq. use_clean IHn st.
    destruct r; [exact E | reflexivity].
  - (* BlockStatement *)
    rewrite TraversalFacts.traverseNode_eq. use_clean_list st. exact E.
  - (* ExpressionStatement *)
    rewrite TraversalFacts.traverseNode_eq. use_clean IHn st.
    destruct r; [exact E | reflexivity].
  - rewrite TraversalFacts.traverseNode_eq. use_clean IHn st. exact E.
  - rewrite TraversalFacts.traverseNode_eq. use_clean IHn st. exact E.
  - rewrite TraversalFacts.traverseNode_eq. use_clean IHn st. exact E.
Qed.

(** X19. When every removal is one the host performs (no mock request
    stands in a slot that the node type requires), no [jest.mockObj] /
    [jest.mockFn] call is left in the traversed statements, at whatever
    depth it stood and whatever the state the traversal started in. *)
Theorem X19_no_mock_request_is_left
    (st : PluginState) (statements : list Node) :
  forallb removalsAllowed statements = true ->
  existsb hasMockRequest (snd (traverseBody st statements)) = false.
Proof.
  intros _. apply traverseBody_clean. apply Forall_forall. intros n _ st'.
  apply traverseNode_clean.
Qed.

(** [jest.mockObj(A); function f() { const x = g(jest.mockFn(B), 1);
    return jest.mockObj(C); }] *)
Lemma X19_no_mock_request_witness :
  existsb hasMockRequest
    (snd (traverseBody pre
            [ mockObj [Identifier "A"];
              FunctionDeclaration "f"
                (BlockStatement
                   [ VariableDeclaration "const" "x"
                       (CallExpression (Identifier "g")
                          [ CallExpression
                              (MemberExpression (Identifier "jest")
                                 (Identifier "mockFn") false)
                              [Identifier "B"];
                            OtherExpression 1 ]);
                     ReturnStatement
                       (CallExpression
                          (MemberExpression (Identifier "jest")
                             (Identifier "mockObj") false)
                          [Identifier "C"]) ]) ]))
  = false.
Proof. apply X19_no_mock_request_is_left. reflexivity. Defined.

End IndexExtras.

(** * Further properties of the configurable version *)
Module ConfigurableExtras.
Import Configurable.

(** ** The object of the factory *)

Lemma configurable_nestedStep_flat (config : PluginConfiguration) (key : string)
    (value : Node) (statements : list (string * string)) (m : ModuleMock) :
  noSubProperty m = true ->
  nestedStep config key (value, statements) m = (mock_expression m, statements).
Proof. intros H. unfold nestedStep. now rewrite H. Qed.

Lemma spreadIfEmpty_off (config : PluginConfiguration) (key : string)
    (value : Node) :
  requireActual config = false -> spreadIfEmpty config key value = value.
Proof. intros H. unfold spreadIfEmpty. rewrite H. now destruct value. Qed.

Lemma configurable_nestedStep_subKey (config : PluginConfiguration) (key : string)
    (value : Node) (statements : list (string * string)) (m : ModuleMock) :
  requireActual config = false ->
  noSubProperty m = false ->
  fst (nestedStep config key (value, statements) m)
  = Index.pushProperty
      (if isObjectExpression value then value else ObjectExpression [])
      (ObjectProperty (StringLiteral (default "" (subProperty m)))
         (mock_expression m)).
Proof.
  intros Hoff H. unfold nestedStep. rewrite H.
  now rewrite (spreadIfEmpty_off config key _ Hoff).
Qed.

Lemma noSubProperty_erase (m : ModuleMock) :
  Index.noSubProperty (erase m) = noSubProperty m.
Proof. reflexivity. Qed.

Lemma running_not_object (current : option Spec.Resolved) (value : Node) :
  Spec.running current value ->
  isObjectExpression value = false ->
  Spec.kept current = ∅.
Proof.
  destruct current as [[e|subKeys]|]; simpl.
  - intros <- H. now destruct value.
  - intros (properties & -> & _). discriminate.
  - intros ->. discriminate.
Qed.

Lemma configurable_nested_loop_replay (config : PluginConfiguration) (key : string)
    (mocks : list ModuleMock) :
  requireActual config = false ->
  Forall (fun m => subProperty m <> Some "") mocks ->
  forall (value : Node) (statements : list (string * string))
         (current : option Spec.Resolved),
    Spec.running current value ->
    Spec.running
      (fold_left Spec.replayStepKeeping
         (map (fun m => Index.entryOf (erase m)) mocks) current)
      (fst (fold_left (nestedStep config key) mocks (value, statements))).
Proof.
  intros Hoff Hwf.
  induction Hwf as [|m mocks Hm _ IH]; intros value statements current Hrun;
    [exact Hrun|].
  cbn [fold_left map].
  destruct (nestedStep config key (value, statements) m) as [value1 statements1]
    eqn:Estep.
  apply IH.
  destruct (noSubProperty m) eqn:Hsub.
  - rewrite configurable_nestedStep_flat in Estep by assumption. injection Estep as <- <-.
    destruct m as [e [k|] ty i]; [|reflexivity].
    unfold noSubProperty in Hsub. simpl in Hsub, Hm.
    rewrite ModuleMockFacts.truthy_nonempty in Hsub; [discriminate|congruence].
  - apply (f_equal fst) in Estep.
    rewrite (configurable_nestedStep_subKey config key value statements m Hoff Hsub) in Estep.
    simpl in Estep. subst value1.
    destruct m as [e [k|] ty i]; [|discriminate]. simpl.
    destruct (isObjectExpression value) eqn:Hobj.
    + destruct value; try discriminate. simpl.
      eexists. split; [reflexivity|].
      rewrite ModuleMockFacts.objectMap_snoc.
      now rewrite (ModuleMockFacts.running_kept current).
    + simpl. eexists. split; [reflexivity|].
      rewrite (running_not_object current value Hrun Hobj). reflexivity.
Qed.

Lemma configurable_flat_entries_fold (config : PluginConfiguration) (key : string)
    (mocks : list ModuleMock) (value : Node) (statements : list (string * string)) :
  forallb noSubProperty mocks = true ->
  fold_left (nestedStep config key) mocks (value, statements)
  = (match last mocks with Some l => mock_expression l | None => value end,
     statements).
Proof.
  revert value. induction mocks as [|m mocks IH]; intros value H; [reflexivity|].
  simpl in H. apply andb_true_iff in H as [Hm H].
  cbn [fold_left]. rewrite configurable_nestedStep_flat by assumption. rewrite IH by assumption.
  destruct mocks as [|m0 mocks]; [reflexivity|].
  change (last (m :: m0 :: mocks)) with (last (m0 :: mocks)).
  destruct (last (m0 :: mocks)) eqn:Hlast; [reflexivity|].
  apply last_None in Hlast. discriminate.
Qed.

(** X13. With [requireActual] off, the value emitted for an export key is
    the in-order replay of its requests, for every non-empty sequence: a
    request without sub-key replaces the value; a request with a sub-key
    writes it into the accumulated object, into the properties of a
    replacement that is an object literal, or into a fresh object when the
    value is any other replacement. *)
Theorem X13_configurable_value_is_the_replay
    (config : PluginConfiguration) (key : string) (mocks : list ModuleMock) :
  requireActual config = false ->
  mocks <> [] ->
  Forall (fun m => subProperty m <> Some "") mocks ->
  exists value statements,
    topLevelProp config key mocks
    = Ok (Some (ObjectProperty (StringLiteral key) value), statements)
    /\ Spec.represents
         (Spec.replayKeeping (map (fun m => Index.entryOf (erase m)) mocks))
         value.
Proof.
  intros Hoff Hne Hwf.
  pose proof (configurable_nested_loop_replay config key mocks Hoff Hwf
                (ObjectExpression []) [] None eq_refl) as Hrun.
  fold (Spec.replayKeeping (map (fun m => Index.entryOf (erase m)) mocks)) in Hrun.
  assert (Hrep : Spec.represents
                   (Spec.replayKeeping
                      (map (fun m => Index.entryOf (erase m)) mocks))
                   (fst (fold_left (nestedStep config key) mocks
                           (ObjectExpression [], [])))).
  { pose proof (ModuleMockFacts.replayKeeping_nonempty
                  (map (fun m => Index.entryOf (erase m)) mocks) None) as Hsome.
    unfold Spec.replayKeeping in *.
    destruct (fold_left Spec.replayStepKeeping _ None).
    - exact Hrun.
    - exfalso. apply Hsome; [|reflexivity]. now destruct mocks. }
  clear Hrun. unfold topLevelProp.
  destruct (Nat.eqb (length mocks) 0) eqn:Hlen.
  { destruct mocks; [contradiction | discriminate]. }
  destruct (forallb noSubProperty mocks) eqn:Hall.
  - rewrite configurable_flat_entries_fold in Hrep by assumption. simpl in Hrep.
    destruct (last mocks) as [lastMock|] eqn:Hlast.
    + eexists. eexists. split; [reflexivity | exact Hrep].
    + apply last_None in Hlast. contradiction.
  - destruct (fold_left (nestedStep config key) mocks (ObjectExpression [], []))
      as [value statements].
    exists value, statements. now split.
Qed.

(** [jest.mockObj(A); jest.mockObj(A.b);], which [index.ts] fails on. *)
Lemma X13_configurable_replay_witness :
  exists value statements,
    topLevelProp defaultConfig "default"
      [ {| mock_expression := StringLiteral "A"; subProperty := None;
           entry_type := Index.type_name;
           importDef := {| Index.name := "A"; Index.type := Index.type_default |} |};
        {| mock_expression := StringLiteral "b"; subProperty := Some "b";
           entry_type := Index.type_name;
           importDef := {| Index.name := "A"; Index.type := Index.type_default |} |} ]
    = Ok (Some (ObjectProperty (StringLiteral "default") value), statements)
    /\ Spec.represents
         (Spec.replayKeeping
            (map (fun m => Index.entryOf (erase m))
               [ {| mock_expression := StringLiteral "A"; subProperty := None;
                    entry_type := Index.type_name;
                    importDef :=
                      {| Index.name := "A"; Index.type := Index.type_default |} |};
                 {| mock_expression := StringLiteral "b"; subProperty := Some "b";
                    entry_type := Index.type_name;
                    importDef :=
                      {| Index.name := "A"; Index.type := Index.type_default |} |} ]))
         value.
Proof.
  apply (X13_configurable_value_is_the_replay defaultConfig "default").
  - reflexivity.
  - discriminate.
  - repeat constructor; discriminate.
Defined.

(** ** The loops that build the object run to their end *)

Lemma topLevelProp_returns (config : PluginConfiguration) (key : string)
    (mocks : list ModuleMock) :
  exists r, topLevelProp config key mocks = Ok r.
Proof.
  unfold topLevelProp. destruct mocks as [|m mocks]; [now eexists|].
  change (Nat.eqb (length (m :: mocks)) 0) with false. cbv iota.
  destruct (forallb noSubProperty (m :: mocks)).
  - destruct (last (m :: mocks)) eqn:Hlast; [now eexists|].
    apply last_None in Hlast. discriminate.
  - destruct (fold_left _ _ _). now eexists.
Qed.

Lemma configurable_topLevelProps_acc (config : PluginConfiguration)
    (def : ModuleMockDefinition) (props0 : list Node)
    (statements0 : list (string * string)) :
  foldM
    (fun '(props, statements) '(key, mocks) =>
       '(prop, pushed) ← topLevelProp config key mocks;
       Ok (match prop with Some p => props ++ [p] | None => props end,
           statements ++ pushed))
    def (props0, statements0)
  = ('(props, statements) ← topLevelProps config def;
     Ok (props0 ++ props, statements0 ++ statements)).
Proof.
  unfold topLevelProps. revert props0 statements0.
  induction def as [|[key mocks] def IH]; intros props0 statements0; simpl.
  - unfold_bind. now rewrite !app_nil_r.
  - unfold_bind.
    destruct (topLevelProp config key mocks) as [[prop pushed]|]; simpl;
      [|reflexivity].
    rewrite IH. rewrite (IH _ pushed). unfold_bind.
    destruct (foldM _ def ([], [])) as [[props statements]|]; [|reflexivity].
    destruct prop; now rewrite <- !app_assoc.
Qed.

Lemma configurable_topLevelProps_cons (config : PluginConfiguration) (key : string)
    (mocks : list ModuleMock) (def : ModuleMockDefinition) :
  topLevelProps config ((key, mocks) :: def)
  = ('(prop, pushed) ← topLevelProp config key mocks;
     '(props, statements) ← topLevelProps config def;
     Ok (match prop with Some p => p :: props | None => props end,
         pushed ++ statements)).
Proof.
  unfold topLevelProps at 1. simpl. unfold_bind.
  destruct (topLevelProp config key mocks) as [[prop pushed]|]; simpl;
    [|reflexivity].
  pose proof (configurable_topLevelProps_acc config def
                (match prop with Some p => [p] | None => [] end) pushed) as E.
  unfold_bind. rewrite E.
  destruct (topLevelProps config def) as [[props statements]|]; [|reflexivity].
  now destruct prop.
Qed.

Lemma topLevelProps_returns (config : PluginConfiguration)
    (def : ModuleMockDefinition) :
  exists r, topLevelProps config def = Ok r.
Proof.
  induction def as [|[key mocks] def [[props statements] IH]]; [now eexists|].
  rewrite configurable_topLevelProps_cons.
  destruct (topLevelProp_returns config key mocks) as [[prop pushed] ->].
  rewrite IH. unfold_bind. now eexists.
Qed.

(** ** Agreement with [index.ts] *)

Lemma forallb_noSubProperty_erase (mocks : list ModuleMock) :
  forallb Index.noSubProperty (map erase mocks) = forallb noSubProperty mocks.
Proof. induction mocks as [|m mocks IH]; [reflexivity|]. simpl. now rewrite IH. Qed.

Lemma last_erase (mocks : list ModuleMock) :
  last (map erase mocks) = option_map erase (last mocks).
Proof.
  induction mocks as [|m mocks IH]; [reflexivity|].
  destruct mocks as [|m0 mocks]; [reflexivity|]. exact IH.
Qed.

Lemma nested_loop_agrees (config : PluginConfiguration) (key : string)
    (mocks : list ModuleMock) :
  requireActual config = false ->
  forall (value : Node) (statements : list (string * string)) (value' : Node),
    foldM Index.nestedStep (map erase mocks) value = Ok value' ->
    fst (fold_left (nestedStep config key) mocks (value, statements)) = value'.
Proof.
  intros Hoff. induction mocks as [|m mocks IH]; intros value statements value'.
  - now intros [= <-].
  - cbn [map fold_left]. rewrite ModuleMockFacts.foldM_cons.
    destruct (nestedStep config key (value, statements) m) as [value1 statements1]
      eqn:Estep.
    unfold Index.nestedStep. rewrite noSubProperty_erase.
    destruct (noSubProperty m) eqn:Hsub.
    + rewrite configurable_nestedStep_flat in Estep by assumption. injection Estep as <- <-.
      unfold_bind. apply IH.
    + apply (f_equal fst) in Estep.
      rewrite (configurable_nestedStep_subKey config key value statements m Hoff Hsub) in Estep.
      simpl in Estep. subst value1.
      destruct (isObjectExpression value); [|discriminate].
      unfold_bind. apply IH.
Qed.

Lemma topLevelProp_agrees (config : PluginConfiguration) (key : string)
    (mocks : list ModuleMock) (prop : option Node) :
  requireActual config = false ->
  Index.topLevelProp key (map erase mocks) = Ok prop ->
  exists pushed, topLevelProp config key mocks = Ok (prop, pushed).
Proof.
  intros Hoff. unfold Index.topLevelProp, topLevelProp.
  rewrite length_map, forallb_noSubProperty_erase, last_erase.
  destruct (Nat.eqb (length mocks) 0).
  { intros [= <-]. now eexists. }
  destruct (forallb noSubProperty mocks).
  - destruct (last mocks) as [lastMock|]; [|discriminate].
    intros [= <-]. now eexists.
  - unfold_bind. simpl objectExpression. cbv iota.
    destruct (foldM Index.nestedStep (map erase mocks) (ObjectExpression []))
      as [value'|] eqn:Hfold; [|discriminate].
    intros [= <-].
    pose proof (nested_loop_agrees config key mocks Hoff _ [] _ Hfold) as E.
    destruct (fold_left (nestedStep config key) mocks (ObjectExpression [], []))
      as [value statements].
    simpl in E. subst value. now eexists.
Qed.

Lemma nestedStep_name_statements (config : PluginConfiguration) (key : string)
    (mocks : list ModuleMock) (value : Node)
    (statements : list (string * string)) :
  Forall (fun m => entry_type m = Index.type_name) mocks ->
  snd (fold_left (nestedStep config key) mocks (value, statements)) = statements.
Proof.
  intros H. revert value.
  induction H as [|m mocks Hm _ IH]; intros value; [reflexivity|].
  cbn [fold_left]. unfold nestedStep at 2. rewrite Hm.
  destruct (noSubProperty m); apply IH.
Qed.

Lemma topLevelProp_name_statements (config : PluginConfiguration) (key : string)
    (mocks : list ModuleMock) (r : option Node * list (string * string)) :
  Forall (fun m => entry_type m = Index.type_name) mocks ->
  topLevelProp config key mocks = Ok r -> snd r = [].
Proof.
  intros H. unfold topLevelProp.
  destruct (Nat.eqb (length mocks) 0); [now intros [= <-]|].
  destruct (forallb noSubProperty mocks).
  - destruct (last mocks) as [lastMock|] eqn:Hlast; [|discriminate].
    apply last_Some in Hlast as [rest ->].
    apply Forall_app in H as [_ H]. apply Forall_cons in H as [-> _].
    now intros [= <-].
  - pose proof (nestedStep_name_statements config key mocks
                  (ObjectExpression []) [] H) as E.
    destruct (fold_left (nestedStep config key) mocks (ObjectExpression [], [])).
    simpl in E. subst. now intros [= <-].
Qed.

Lemma topLevelProps_agrees (config : PluginConfiguration)
    (def : ModuleMockDefinition) (props : list Node) :
  requireActual config = false ->
  Index.topLevelProps (eraseDef def) = Ok props ->
  exists statements,
    topLevelProps config def = Ok (props, statements)
    /\ (Forall (fun entry =>
                  Forall (fun m => entry_type m = Index.type_name) (snd entry))
               def ->
        statements = []).
Proof.
  intros Hoff. revert props.
  induction def as [|[key mocks] def IH]; intros props.
  - intros [= <-]. now exists [].
  - cbn [eraseDef map fst snd]. fold (eraseDef def).
    rewrite ModuleMockFacts.topLevelProps_cons, configurable_topLevelProps_cons. unfold_bind.
    destruct (Index.topLevelProp key (map erase mocks)) as [prop|] eqn:Hprop;
      [|discriminate].
    destruct (Index.topLevelProps (eraseDef def)) as [rest|]; [|discriminate].
    intros [= <-].
    destruct (topLevelProp_agrees config key mocks prop Hoff Hprop)
      as [pushed Hpushed].
    destruct (IH rest eq_refl) as (statements & -> & Hnames).
    rewrite Hpushed. eexists. split; [reflexivity|].
    intros Hall. apply Forall_cons in Hall as [Hmocks Hdef].
    rewrite (Hnames Hdef).
    apply (topLevelProp_name_statements config key mocks _ Hmocks) in Hpushed.
    simpl in Hpushed. now subst pushed.
Qed.

(** X15. With [requireActual] off, whenever [index.ts] builds the factory
    object for a definition, the configurable version hands the same object
    to its template, without the [jest.requireActual] line; when every
    request is of type "name" it adds no statement either. *)
Theorem X15_configurable_agrees_with_index
    (config : PluginConfiguration) (path : string)
    (def : ModuleMockDefinition) (props : list Node) :
  requireActual config = false ->
  Index.topLevelProps (eraseDef def) = Ok props ->
  exists template,
    createModuleMockImpl config path def = Ok template
    /\ OBJECT_EXP template = ObjectExpression props
    /\ template_modulePath template = None
    /\ (Forall (fun entry =>
                  Forall (fun m => entry_type m = Index.type_name) (snd entry))
               def ->
        template_statements template = []).
Proof.
  intros Hoff Hprops.
  destruct (topLevelProps_agrees config def props Hoff Hprops)
    as (statements & Hc & Hnames).
  unfold createModuleMockImpl. rewrite Hc. unfold_bind. rewrite Hoff.
  eexists. split; [reflexivity|]. repeat split.
  intros Hall. simpl. now rewrite (Hnames Hall).
Qed.

(** [import * as U from "./u"; jest.mockObj(U.a, U.b.c);] *)
Lemma X15_agreement_witness :
  exists template,
    createModuleMockImpl defaultConfig "./u"
      [ ("a", [ {| mock_expression := StringLiteral "a"; subProperty := None;
                   entry_type := Index.type_name;
                   importDef :=
                     {| Index.name := "U"; Index.type := Index.type_namespace |} |} ]);
        ("b", [ {| mock_expression := StringLiteral "c"; subProperty := Some "c";
                   entry_type := Index.type_name;
                   importDef :=
                     {| Index.name := "U"; Index.type := Index.type_namespace |} |} ]) ]
    = Ok template
    /\ OBJECT_EXP template
      = ObjectExpression
          [ ObjectProperty (StringLiteral "a") (StringLiteral "a");
            ObjectProperty (StringLiteral "b")
              (ObjectExpression
                 [ObjectProperty (StringLiteral "c") (StringLiteral "c")]) ]
    /\ template_modulePath template = None
    /\ (Forall (fun entry =>
                  Forall (fun m => entry_type m = Index.type_name) (snd entry))
          [ ("a", [ {| mock_expression := StringLiteral "a"; subProperty := None;
                       entry_type := Index.type_name;
                       importDef :=
                         {| Index.name := "U";
                            Index.type := Index.type_namespace |} |} ]);
            ("b", [ {| mock_expression := StringLiteral "c";
                       subProperty := Some "c";
                       entry_type := Index.type_name;
                       importDef :=
                         {| Index.name := "U";
                            Index.type := Index.type_namespace |} |} ]) ] ->
        template_statements template = []).
Proof.
  apply (X15_configurable_agrees_with_index defaultConfig "./u").
  - reflexivity.
  - reflexivity.
Defined.

(** ** What [requireActual] changes *)

Lemma withoutSpreads_isObject (v1 v2 : Node) :
  withoutSpreads v1 = withoutSpreads v2 ->
  isObjectExpression v1 = isObjectExpression v2.
Proof. destruct v1, v2; simpl; congruence. Qed.

Lemma withoutSpreads_spreadIfEmpty (config : PluginConfiguration) (key : string)
    (value : Node) :
  withoutSpreads (spreadIfEmpty config key value) = withoutSpreads value.
Proof.
  destruct value; try reflexivity. unfold spreadIfEmpty.
  destruct (requireActual config && Nat.eqb (length properties) 0);
    [|reflexivity].
  simpl. rewrite List.filter_app. simpl. now rewrite app_nil_r.
Qed.

Lemma withoutSpreads_push (v1 v2 p : Node) :
  withoutSpreads v1 = withoutSpreads v2 ->
  withoutSpreads (Index.pushProperty v1 p)
  = withoutSpreads (Index.pushProperty v2 p).
Proof.
  destruct v1, v2; simpl; try congruence.
  intros [= H]. now rewrite !List.filter_app, H.
Qed.

Lemma nestedStep_spreads (c1 c2 : PluginConfiguration) (key : string)
    (m : ModuleMock) (v1 v2 : Node) (statements : list (string * string)) :
  withoutSpreads v1 = withoutSpreads v2 ->
  withoutSpreads (fst (nestedStep c1 key (v1, statements) m))
  = withoutSpreads (fst (nestedStep c2 key (v2, statements) m))
  /\ snd (nestedStep c1 key (v1, statements) m)
     = snd (nestedStep c2 key (v2, statements) m).
Proof.
  intros H. unfold nestedStep. destruct (noSubProperty m); [now split|].
  split; [|reflexivity]. cbn [fst].
  apply withoutSpreads_push. rewrite !withoutSpreads_spreadIfEmpty.
  rewrite (withoutSpreads_isObject v1 v2 H).
  now destruct (isObjectExpression v2).
Qed.

Lemma nested_loop_spreads (c1 c2 : PluginConfiguration) (key : string)
    (mocks : list ModuleMock) :
  forall (v1 v2 : Node) (statements : list (string * string)),
    withoutSpreads v1 = withoutSpreads v2 ->
    withoutSpreads (fst (fold_left (nestedStep c1 key) mocks (v1, statements)))
    = withoutSpreads (fst (fold_left (nestedStep c2 key) mocks (v2, statements)))
    /\ snd (fold_left (nestedStep c1 key) mocks (v1, statements))
       = snd (fold_left (nestedStep c2 key) mocks (v2, statements)).
Proof.
  induction mocks as [|m mocks IH]; intros v1 v2 statements H; [now split|].
  cbn [fold_left].
  destruct (nestedStep_spreads c1 c2 key m v1 v2 statements H) as [Hv Hs].
  destruct (nestedStep c1 key (v1, statements) m) as [v1' s1].
  destruct (nestedStep c2 key (v2, statements) m) as [v2' s2].
  simpl in Hv, Hs. subst s2. now apply IH.
Qed.

Lemma topLevelProp_spreads (c1 c2 : PluginConfiguration) (key : string)
    (mocks : list ModuleMock) (r1 r2 : option Node * list (string * string)) :
  topLevelProp c1 key mocks = Ok r1 ->
  topLevelProp c2 key mocks = Ok r2 ->
  option_map keyedOnly (fst r1) = option_map keyedOnly (fst r2)
  /\ snd r1 = snd r2.
Proof.
  unfold topLevelProp.
  destruct (Nat.eqb (length mocks) 0); [now intros [= <-] [= <-]|].
  destruct (forallb noSubProperty mocks).
  - destruct (last mocks); [|discriminate]. now intros [= <-] [= <-].
  - destruct (nested_loop_spreads c1 c2 key mocks (ObjectExpression [])
                (ObjectExpression []) [] eq_refl) as [Hv Hs].
    destruct (fold_left (nestedStep c1 key) mocks (ObjectExpression [], []))
      as [v1 s1].
    destruct (fold_left (nestedStep c2 key) mocks (ObjectExpression [], []))
      as [v2 s2].
    simpl in Hv, Hs. intros [= <-] [= <-]. simpl. now rewrite Hv, Hs.
Qed.

Lemma topLevelProps_spreads (c1 c2 : PluginConfiguration)
    (def : ModuleMockDefinition) :
  forall r1 r2 : list Node * list (string * string),
    topLevelProps c1 def = Ok r1 ->
    topLevelProps c2 def = Ok r2 ->
    map keyedOnly (fst r1) = map keyedOnly (fst r2) /\ snd r1 = snd r2.
Proof.
  induction def as [|[key mocks] def IH]; intros r1 r2.
  - now intros [= <-] [= <-].
  - rewrite !configurable_topLevelProps_cons. unfold_bind.
    destruct (topLevelProp c1 key mocks) as [[prop1 pushed1]|] eqn:E1;
      [|discriminate].
    destruct (topLevelProp c2 key mocks) as [[prop2 pushed2]|] eqn:E2;
      [|intros _; discriminate].
    destruct (topLevelProp_spreads c1 c2 key mocks _ _ E1 E2) as [Hp Hs].
    simpl in Hp, Hs. subst pushed2.
    destruct (topLevelProps c1 def) as [[props1 statements1]|]; [|discriminate].
    destruct (topLevelProps c2 def) as [[props2 statements2]|];
      [|intros _; discriminate].
    destruct (IH _ _ eq_refl eq_refl) as [Hprops Hst]. simpl in Hprops, Hst.
    subst statements2. intros [= <-] [= <-]. simpl. split; [|reflexivity].
    destruct prop1, prop2; try discriminate; simpl.
    + injection Hp as Hp. now rewrite Hp, Hprops.
    + exact Hprops.
Qed.

Lemma hasKey_keyedOnly (k : option string) (p : Node) :
  hasKey k (keyedOnly p) = hasKey k p.
Proof. now destruct p. Qed.

Lemma find_hasKey_keyedOnly (k : option string) (props : list Node) :
  List.find (hasKey k) (map keyedOnly props)
  = option_map keyedOnly (List.find (hasKey k) props).
Proof.
  induction props as [|p props IH]; [reflexivity|].
  simpl. rewrite hasKey_keyedOnly. now destruct (hasKey k p).
Qed.

Lemma find_hasKey_filter (k : option string) (properties : list Node) :
  List.find (hasKey k) (List.filter notSpread properties)
  = List.find (hasKey k) properties.
Proof.
  induction properties as [|p properties IH]; [reflexivity|].
  destruct p; simpl; try (now destruct (hasKey k _)); try exact IH.
  now rewrite IH.
Qed.

Lemma keepStatement_keyedOnly (props : list Node) (statement : string * string) :
  keepStatement (map keyedOnly props) statement = keepStatement props statement.
Proof.
  unfold keepStatement. rewrite find_hasKey_keyedOnly.
  destruct (List.find _ props) as [prop|]; [|reflexivity]. simpl.
  destruct (negb _); [reflexivity|].
  destruct prop; try reflexivity. simpl.
  destruct prop2; try reflexivity. simpl. now rewrite find_hasKey_filter.
Qed.

Lemma filter_notSpread_keyedOnly (props : list Node) :
  List.filter notSpread (map keyedOnly props)
  = map keyedOnly (List.filter notSpread props).
Proof.
  induction props as [|p props IH]; [reflexivity|].
  simpl. rewrite IH. now destruct p.
Qed.

(** X16. Switching [requireActual] on changes the factory in two ways only:
    the module path is handed to the template, for its [jest.requireActual]
    line, and spread elements are added to the object and to its nested
    objects.  The keyed properties and the name statements are the same. *)
Theorem X16_requireActual_adds_spreads_only
    (config : PluginConfiguration) (path : string)
    (def : ModuleMockDefinition) (template : ArrowFuncTemplate) :
  createModuleMockImpl config path def = Ok template ->
  exists template',
    createModuleMockImpl (withRequireActual config true) path def = Ok template'
    /\ template_modulePath template' = Some path
    /\ template_statements template' = template_statements template
    /\ plainObject (OBJECT_EXP template') = plainObject (OBJECT_EXP template).
Proof.
  unfold createModuleMockImpl.
  destruct (topLevelProps_returns (withRequireActual config true) def)
    as [[props' statements'] E'].
  rewrite E'. unfold_bind.
  destruct (topLevelProps config def) as [[props statements]|] eqn:E;
    [|discriminate].
  destruct (topLevelProps_spreads _ _ def _ _ E' E) as [Hprops Hst].
  simpl in Hprops, Hst. subst statements'.
  intros [= <-]. eexists. split; [reflexivity|]. cbn.
  assert (Hkeep : List.filter (keepStatement props') statements
                  = List.filter (keepStatement props) statements).
  { apply List.filter_ext. intros statement.
    rewrite <- (keepStatement_keyedOnly props'), Hprops.
    apply keepStatement_keyedOnly. }
  assert (Hplain : map keyedOnly (List.filter notSpread props')
                   = map keyedOnly (List.filter notSpread props)).
  { now rewrite <- !filter_notSpread_keyedOnly, Hprops. }
  repeat split.
  - now rewrite Hkeep.
  - rewrite Hplain. now destruct (requireActual config).
Qed.

(** [import * as U from "./u"; jest.mockFn(U.a.b);] *)
Lemma X16_requireActual_witness :
  exists template',
    createModuleMockImpl (withRequireActual defaultConfig true) "./u"
      [ ("a", [ {| mock_expression := mockFnNamed "U.a.b"; subProperty := Some "b";
                   entry_type := Index.type_mock;
                   importDef :=
                     {| Index.name := "U"; Index.type := Index.type_namespace |} |} ]) ]
    = Ok template'
    /\ template_modulePath template' = Some "./u"
    /\ template_statements template'
      = [buildNameStatement "a.b" "U.a.b"]
    /\ plainObject (OBJECT_EXP template')
      = plainObject
          (ObjectExpression
             [ ObjectProperty (StringLiteral "a")
                 (ObjectExpression
                    [ObjectProperty (StringLiteral "b") (mockFnNamed "U.a.b")]) ]).
Proof.
  apply (X16_requireActual_adds_spreads_only defaultConfig "./u"
           [ ("a", [ {| mock_expression := mockFnNamed "U.a.b";
                        subProperty := Some "b";
                        entry_type := Index.type_mock;
                        importDef :=
                          {| Index.name := "U";
                             Index.type := Index.type_namespace |} |} ]) ]
           {| template_modulePath := None;
              template_statements := [buildNameStatement "a.b" "U.a.b"];
              OBJECT_EXP :=
                ObjectExpression
                  [ ObjectProperty (StringLiteral "a")
                      (ObjectExpression
                         [ObjectProperty (StringLiteral "b")
                            (mockFnNamed "U.a.b")]) ] |}).
  reflexivity.
Defined.

(** ** Recognising call sites and targets *)

Lemma addName_empty (name s : string) : addName name s = "" -> s = "".
Proof.
  unfold addName. destruct name as [|c name]; [|discriminate].
  simpl. auto.
Qed.

(** X17. A target without a dotted name records no request, whatever the
    type of the call, its display name and its replacement. *)
Theorem X17_unnamed_target_records_nothing
    (st : PluginState) (arg : Node) (type : MockType) (name : string)
    (impl : option Node) :
  getNameOfExpression arg "" = "" ->
  createMockDefinition st arg type name impl = st.
Proof.
  intros H. unfold createMockDefinition.
  destruct arg; try reflexivity.
  - apply addName_empty in H. subst. reflexivity.
  - destruct arg2; try (simpl; now destruct (Index.walkObject arg1 [])).
    simpl in H. apply addName_empty in H. subst.
    simpl. now destruct (Index.walkObject arg1 []).
Qed.

(** [jest.mockFn(f().x["k"])]: neither the object nor the property gives a
    name. *)
Lemma X17_unnamed_target_witness :
  createMockDefinition pre
    (MemberExpression (CallExpression (Identifier "f") []) (StringLiteral "k") true)
    Index.type_mock "" None
  = pre.
Proof. apply X17_unnamed_target_records_nothing. reflexivity. Defined.

Lemma includes_pluginMockIdentifiers (property : string) :
  Index.includes Index.pluginMockIdentifiers property = true ->
  property = "mockObj" \/ property = "mockFn".
Proof.
  unfold Index.includes, Index.pluginMockIdentifiers. simpl.
  destruct (String.eqb_spec property "mockObj"); [now left|].
  destruct (String.eqb_spec property "mockFn"); [now right|]. discriminate.
Qed.

Lemma includes_jestMockCallExpressions (property : string) :
  Index.includes Index.jestMockCallExpressions property = true ->
  In property ["mock"; "doMock"; "unmock"; "dontMock"].
Proof.
  unfold Index.includes, Index.jestMockCallExpressions. simpl.
  destruct (String.eqb_spec property "mock"); [now left|].
  destruct (String.eqb_spec property "doMock"); [now right; left|].
  destruct (String.eqb_spec property "unmock"); [now right; right; left|].
  destruct (String.eqb_spec property "dontMock"); [now right; right; right; left|].
  discriminate.
Qed.

Lemma default_recognises_mock_request (node : Node) (mockType : MockType) :
  Index.isMockObjCallExpession node = Some mockType ->
  exists identifier,
    isMockObjCallExpession defaultConfig node = Some identifier
    /\ type identifier = mockType /\ remove identifier = true.
Proof.
  destruct node; try discriminate.
  destruct node; try discriminate.
  destruct node1; try discriminate. destruct node2; try discriminate.
  unfold Index.isMockObjCallExpession.
  destruct (String.eqb_spec name0 Index.globalJestIdentifier) as [->|];
    [|discriminate].
  destruct (Index.includes Index.pluginMockIdentifiers name1) eqn:Hin;
    [|discriminate].
  apply includes_pluginMockIdentifiers in Hin as [-> | ->]; intros [= <-];
    eexists; (split; [reflexivity|]); now split.
Qed.

Lemma default_recognises_ignore (node : Node) :
  Index.isJestMockCallExpression node = true ->
  isJestMockCallExpression defaultConfig node = true
  /\ isMockObjCallExpession defaultConfig node = None.
Proof.
  destruct node; try discriminate.
  destruct node; try discriminate.
  destruct node1; try discriminate. destruct node2; try discriminate.
  unfold Index.isJestMockCallExpression.
  destruct (String.eqb_spec name0 Index.globalJestIdentifier) as [->|];
    [|discriminate].
  destruct (Index.includes Index.jestMockCallExpressions name1) eqn:Hin;
    [|discriminate].
  apply includes_jestMockCallExpressions in Hin.
  intros _. simpl in Hin.
  destruct Hin as [<-|[<-|[<-|[<-|[]]]]]; now split.
Qed.

(** X18. The default configuration recognises every call site [index.ts]
    recognises: a mock request is matched by an identifier entry of the
    same type whose calls are removed, and an ignore call is matched by the
    ignore list and by no identifier entry. *)
Theorem X18_default_configuration_covers_index (node : Node) :
  (forall mockType,
      Index.isMockObjCallExpession node = Some mockType ->
      exists identifier,
        isMockObjCallExpession defaultConfig node = Some identifier
        /\ type identifier = mockType /\ remove identifier = true)
  /\ (Index.isJestMockCallExpression node = true ->
      isJestMockCallExpression defaultConfig node = true
      /\ isMockObjCallExpession defaultConfig node = None).
Proof.
  split.
  - apply default_recognises_mock_request.
  - apply default_recognises_ignore.
Qed.

(** ** The visitor under the default configuration *)

Lemma oget_eraseMocks (mocks : ordmap (list MockDefinition)) (k : string) :
  oget (eraseMocks mocks) k = option_map (map eraseMock) (oget mocks k).
Proof.
  induction mocks as [|[k' v] mocks IH]; [reflexivity|].
  simpl. now destruct (String.eqb k' k).
Qed.

Lemma oset_eraseMocks (mocks : ordmap (list MockDefinition)) (k : string)
    (v : list MockDefinition) :
  oset (eraseMocks mocks) k (map eraseMock v) = eraseMocks (oset mocks k v).
Proof.
  induction mocks as [|[k' v'] mocks IH]; [reflexivity|].
  simpl. destruct (String.eqb k' k); [reflexivity|]. simpl. now rewrite IH.
Qed.

Lemma createMockDefinition_erase (st : PluginState) (def : Node)
    (type : MockType) (name : string) (impl : option Node) :
  type = Index.type_name \/ impl <> None ->
  eraseState (createMockDefinition st def type name impl)
  = Index.createMockDefinition (eraseState st) def type impl.
Proof.
  intros Himpl. unfold createMockDefinition, Index.createMockDefinition.
  destruct (negb (isIdentifier def) && negb (isMemberExpression def));
    [reflexivity|].
  assert (Hrecord :
            forall last access subs,
              eraseState
                {| importIdentifiers := importIdentifiers st;
                   mocks :=
                     oset (mocks st) access
                       (or_empty (oget (mocks st) access)
                        ++ [{| subProperties := subs;
                               expression :=
                                 match impl with
                                 | Some impl => impl
                                 | None =>
                                     match type with
                                     | Index.type_name => StringLiteral last
                                     | Index.type_mock => mockFnNamed name
                                     end
                                 end;
                               mock_type := type |}]);
                   existingJestMocks := existingJestMocks st;
                   program := program st |}
              = {| Index.importIdentifiers := Index.importIdentifiers (eraseState st);
                   Index.mocks :=
                     oset (Index.mocks (eraseState st)) access
                       (or_empty (oget (Index.mocks (eraseState st)) access)
                        ++ [{| Index.subProperties := subs;
                               Index.expression :=
                                 match impl with
                                 | Some impl => impl
                                 | None =>
                                     match type with
                                     | Index.type_name => StringLiteral last
                                     | Index.type_mock =>
                                         CallExpression
                                           (MemberExpression (Identifier "jest")
                                              (Identifier "fn") false) []
                                     end
                                 end |}]);
                   Index.existingJestMocks :=
                     Index.existingJestMocks (eraseState st);
                   Index.program := Index.program (eraseState st) |}).
  { intros last access subs. unfold eraseState. simpl. f_equal.
    rewrite oget_eraseMocks, <- oset_eraseMocks. f_equal.
    assert (Hor : or_empty (option_map (map eraseMock) (oget (mocks st) access))
                  = map eraseMock (or_empty (oget (mocks st) access)))
      by now destruct (oget (mocks st) access).
    rewrite Hor, map_app. simpl. do 2 f_equal. unfold eraseMock. simpl.
    f_equal. destruct impl; [reflexivity|].
    destruct Himpl as [-> | Himpl]; [reflexivity | contradiction]. }
  destruct def; try reflexivity.
  - unfold identifiersOf, Index.identifiersOf. cbn [truthy_opt default].
    destruct (truthy name0); [|reflexivity]. cbn [negb orb]. apply Hrecord.
  - destruct def2; try reflexivity.
    unfold identifiersOf, Index.identifiersOf.
    destruct (Index.walkObject def1 []) as [obj subs].
    cbn [truthy_opt default negb orb].
    destruct (truthy name0); [|reflexivity]. cbn [negb orb].
    destruct obj; try reflexivity. cbn [truthy_opt default].
    destruct (truthy name1); [|reflexivity]. cbn [negb orb]. apply Hrecord.
Qed.

Lemma mockArguments_erase (args : list Node) (st : PluginState) :
  eraseState (fold_left (mockArgument Index.type_name) args st)
  = fold_left
      (fun st arg => Index.createMockDefinition st arg Index.type_name None)
      args (eraseState st).
Proof.
  revert st. induction args as [|arg args IH]; intros st; [reflexivity|].
  simpl. rewrite IH. f_equal. unfold mockArgument. simpl.
  rewrite andb_false_r. apply createMockDefinition_erase. now left.
Qed.

Lemma ignore_is_no_mock_request (node : Node) :
  Index.isJestMockCallExpression node = true ->
  Index.isMockObjCallExpession node = None.
Proof.
  destruct node; try discriminate.
  destruct node; try discriminate.
  destruct node1; try discriminate. destruct node2; try discriminate.
  unfold Index.isJestMockCallExpression, Index.isMockObjCallExpession.
  destruct (String.eqb name0 Index.globalJestIdentifier); [|discriminate].
  destruct (Index.includes Index.jestMockCallExpressions name1) eqn:Hin;
    [|discriminate].
  apply includes_jestMockCallExpressions in Hin.
  intros _. simpl in Hin.
  destruct Hin as [<-|[<-|[<-|[<-|[]]]]]; reflexivity.
Qed.

(** X20. Under the default configuration a [jest.mockObj] call and a call
    of the ignore list are handled as [index.ts] handles them: the same
    requests and module paths are recorded, and the call is removed in the
    same cases. *)
Theorem X20_default_configuration_handles_mockObj_as_index
    (st : PluginState) (node : Node) :
  Index.isMockObjCallExpession node = Some Index.type_name
  \/ Index.isJestMockCallExpression node = true ->
  eraseState (fst (CallExpression_visitor defaultConfig st node))
  = fst (Index.CallExpression_visitor (eraseState st) node)
  /\ snd (CallExpression_visitor defaultConfig st node)
     = snd (Index.CallExpression_visitor (eraseState st) node).
Proof.
  intros [Hmock | Hignore].
  - destruct (default_recognises_mock_request node _ Hmock)
      as (identifier & Hc & Htype & Hremove).
    destruct node; try discriminate.
    unfold CallExpression_visitor, Index.CallExpression_visitor.
    rewrite Hmock, Hc, Htype, Hremove.
    destruct arguments as [|arg0 [|arg1 [|arg2 arguments]]];
      try (split; [apply mockArguments_erase | reflexivity]).
    destruct (negb (isIdentifier arg1) && negb (isMemberExpression arg1));
      [|split; [apply mockArguments_erase | reflexivity]].
    simpl isMock. rewrite andb_false_r. cbn [fst snd].
    split; [|reflexivity].
    destruct (isExpression arg1); [|reflexivity].
    apply createMockDefinition_erase. now right.
  - destruct (default_recognises_ignore node Hignore) as [Hc Hnone].
    pose proof (ignore_is_no_mock_request node Hignore) as Hmock.
    destruct node; try discriminate.
    unfold CallExpression_visitor, Index.CallExpression_visitor.
    rewrite Hmock, Hnone, Hignore, Hc.
    destruct arguments as [|[] arguments]; now split.
Qed.

(** [jest.mockObj(A.b, C)] *)
Lemma X20_default_configuration_witness :
  eraseState
    (fst (CallExpression_visitor defaultConfig pre
            (CallExpression
               (MemberExpression (Identifier "jest") (Identifier "mockObj") false)
               [ MemberExpression (Identifier "A") (Identifier "b") false;
                 Identifier "C" ])))
  = fst (Index.CallExpression_visitor (eraseState pre)
           (CallExpression
              (MemberExpression (Identifier "jest") (Identifier "mockObj") false)
              [ MemberExpression (Identifier "A") (Identifier "b") false;
                Identifier "C" ]))
  /\ snd (CallExpression_visitor defaultConfig pre
            (CallExpression
               (MemberExpression (Identifier "jest") (Identifier "mockObj") false)
               [ MemberExpression (Identifier "A") (Identifier "b") false;
                 Identifier "C" ]))
     = snd (Index.CallExpression_visitor (eraseState pre)
              (CallExpression
                 (MemberExpression (Identifier "jest") (Identifier "mockObj") false)
                 [ MemberExpression (Identifier "A") (Identifier "b") false;
                   Identifier "C" ])).
Proof.
  apply X20_default_configuration_handles_mockObj_as_index.
  left. reflexivity.
Defined.

(** ** Call sites by dotted name *)

Lemma chain_is_named (root : string) (segments : list string) :
  negb (isIdentifier (Index.chain root segments))
  && negb (isMemberExpression (Index.chain root segments)) = false.
Proof.
  destruct segments as [|p segments _] using rev_ind; [reflexivity|].
  rewrite MockDefinitionFacts.chain_snoc. reflexivity.
Qed.

(** X21. A call whose callee is the member chain [root.p1...pn] is a mock
    request of the first identifier entry named by the dotted text of the
    chain, if there is one, and otherwise an ignore call exactly when that
    text is in the ignore list. *)
Theorem X21_call_sites_are_matched_by_dotted_name
    (config : PluginConfiguration) (root : string) (segments : list string)
    (args : list Node) :
  truthy root = true ->
  isMockObjCallExpession config (CallExpression (Index.chain root segments) args)
  = List.find (fun i => String.eqb (name i) (Spec.dotted root segments))
      (identifiers config)
  /\ isJestMockCallExpression config (CallExpression (Index.chain root segments) args)
     = existsb (String.eqb (Spec.dotted root segments)) (ignoreIdentifiers config).
Proof.
  intros Hroot. unfold isMockObjCallExpession, isJestMockCallExpression.
  rewrite chain_is_named.
  rewrite (MockDefinitionFacts.getNameOfExpression_chain root segments Hroot).
  now rewrite (MockDefinitionFacts.truthy_dotted root segments Hroot).
Qed.

(** [my.own.mock(A)] under a configuration that names [my.own.mock]. *)
Lemma X21_dotted_name_witness :
  isMockObjCallExpession
    {| jestIdentifier := "jest";
       identifiers :=
         [{| name := "my.own.mock"; remove := false; type := Index.type_mock |}];
       ignoreIdentifiers := [];
       requireActual := false |}
    (CallExpression (Index.chain "my" ["own"; "mock"]) [Identifier "A"])
  = List.find (fun i => String.eqb (name i) (Spec.dotted "my" ["own"; "mock"]))
      [{| name := "my.own.mock"; remove := false; type := Index.type_mock |}]
  /\ isJestMockCallExpression
       {| jestIdentifier := "jest";
          identifiers :=
            [{| name := "my.own.mock"; remove := false; type := Index.type_mock |}];
          ignoreIdentifiers := [];
          requireActual := false |}
       (CallExpression (Index.chain "my" ["own"; "mock"]) [Identifier "A"])
     = existsb (String.eqb (Spec.dotted "my" ["own"; "mock"])) [].
Proof.
  apply (X21_call_sites_are_matched_by_dotted_name
           {| jestIdentifier := "jest";
              identifiers :=
                [{| name := "my.own.mock"; remove := false;
                    type := Index.type_mock |}];
              ignoreIdentifiers := [];
              requireActual := false |}
           "my" ["own"; "mock"] [Identifier "A"]).
  reflexivity.
Defined.

(** ** The filter on the name statements *)

Lemma split_dot_nonempty (s : string) : split_dot s <> [].
Proof.
  destruct s as [|c s]; [discriminate|]. simpl.
  destruct (Ascii.eqb c _); [discriminate|]. now destruct (split_dot s).
Qed.

Lemma split_dot_append (a b : string) :
  dotFree a = true ->
  split_dot (String.append a (String.append "." b)) = a :: split_dot b.
Proof.
  induction a as [|c a IH]; intros H; [reflexivity|].
  simpl in H. apply andb_true_iff in H as [Hc Ha].
  simpl. apply negb_true_iff in Hc. rewrite Hc. now rewrite (IH Ha).
Qed.

Lemma split_dot_dotFree (s : string) : dotFree s = true -> split_dot s = [s].
Proof.
  induction s as [|c s IH]; intros H; [reflexivity|].
  simpl in H. apply andb_true_iff in H as [Hc Hs].
  simpl. apply negb_true_iff in Hc. rewrite Hc. now rewrite (IH Hs).
Qed.

(** X22. The filter on the name statements reads a pushed key back as it
    was joined, as long as the export key and the sub-key hold no full stop:
    a statement for [key] is kept exactly when the object has a property
    [key], and one for [key.subKey] exactly when that property is an object
    literal with a property [subKey]. *)
Theorem X22_name_statements_follow_the_object
    (props : list Node) (key subKey name : string) :
  dotFree key = true ->
  dotFree subKey = true ->
  truthy subKey = true ->
  keepStatement props (key, name)
  = match List.find (hasKey (Some key)) props with
    | Some _ => true
    | None => false
    end
  /\ keepStatement props (dot key subKey, name)
     = match List.find (hasKey (Some key)) props with
       | Some (ObjectProperty _ (ObjectExpression properties)) =>
           match List.find (hasKey (Some subKey)) properties with
           | Some _ => true
           | None => false
           end
       | _ => false
       end.
Proof.
  intros Hkey Hsub Htruthy. unfold keepStatement, dot. cbn [fst].
  rewrite (split_dot_append key subKey Hkey).
  rewrite (split_dot_dotFree key Hkey), (split_dot_dotFree subKey Hsub).
  cbn [lookup list_lookup truthy_opt]. rewrite Htruthy. cbn [negb].
  split; [reflexivity|].
  destruct (List.find (hasKey (Some key)) props) as [prop|]; [|reflexivity].
  destruct prop; try reflexivity.
Qed.

(** The sub-key [b] of the export [a] in [{ "a": { "b": jest.fn() } }]. *)
Lemma X22_name_statements_witness :
  keepStatement
    [ ObjectProperty (StringLiteral "a")
        (ObjectExpression
           [ObjectProperty (StringLiteral "b") (mockFnNamed "U.a.b")]) ]
    ("a", "U.a")
  = match List.find (hasKey (Some "a"))
            [ ObjectProperty (StringLiteral "a")
                (ObjectExpression
                   [ObjectProperty (StringLiteral "b") (mockFnNamed "U.a.b")]) ]
    with
    | Some _ => true
    | None => false
    end
  /\ keepStatement
       [ ObjectProperty (StringLiteral "a")
           (ObjectExpression
              [ObjectProperty (StringLiteral "b") (mockFnNamed "U.a.b")]) ]
       (dot "a" "b", "U.a")
     = match List.find (hasKey (Some "a"))
               [ ObjectProperty (StringLiteral "a")
                   (ObjectExpression
                      [ObjectProperty (StringLiteral "b") (mockFnNamed "U.a.b")]) ]
       with
       | Some (ObjectProperty _ (ObjectExpression properties)) =>
           match List.find (hasKey (Some "b")) properties with
           | Some _ => true
           | None => false
           end
       | _ => false
       end.
Proof.
  apply X22_name_statements_follow_the_object; reflexivity.
Defined.

End ConfigurableExtras.

(** * Positions, the registry and the output of [index.ts] *)
Module OutputFacts.
Import Index.

(** ** Positions the traversal reaches *)

Lemma visited_children (n child : Node) :
  isMockObjCallExpession n = None ->
  In child (children n) ->
  forall c, In c (visited child) -> In c (visited n).
Proof.
  intros Hn Hchild c Hc.
  assert (Hflat : forall l, In child l -> In c (flat_map visited l)).
  { intros l Hl. apply in_flat_map. now exists child. }
  destruct n; simpl in Hchild; try contradiction.
  - destruct Hchild as [<-|[<-|[]]]; simpl; apply in_or_app; auto.
  - rewrite TraversalFacts.visited_call, Hn. right. apply in_or_app.
    destruct Hchild as [<-|Hchild]; [now left | right; now apply Hflat].
  - now apply Hflat.
  - destruct Hchild as [<-|[<-|[]]]; simpl; apply in_or_app; auto.
  - now destruct Hchild as [<-|[]].
  - now destruct Hchild as [<-|[]].
  - now apply Hflat.
  - now destruct Hchild as [<-|[]].
  - now destruct Hchild as [<-|[]].
  - now destruct Hchild as [<-|[]].
  - now destruct Hchild as [<-|[]].
Qed.

Lemma Reached_visited (c n : Node) :
  Reached c n ->
  (exists callee args, c = CallExpression callee args) ->
  In c (visited n).
Proof.
  intros H (callee & args & ->). induction H as [|n child Hn Hchild _ IH].
  - rewrite TraversalFacts.visited_call.
    destruct (isMockObjCallExpession (CallExpression callee args)); now left.
  - exact (visited_children n child Hn Hchild _ IH).
Qed.

Lemma Reached_visited_all (c : Node) (statements : list Node) :
  Exists (Reached c) statements ->
  (exists callee args, c = CallExpression callee args) ->
  In c (flat_map visited statements).
Proof.
  intros H Hc. apply Exists_exists in H as (n & Hn & Hr).
  apply in_flat_map. exists n. split; [now apply list_elem_of_In|].
  now apply Reached_visited.
Qed.

Lemma Reached_Occurs (c n : Node) : Reached c n -> Occurs c n.
Proof.
  induction 1 as [|n child _ Hchild _ IH]; [constructor|].
  now apply (Occurs_below c n child).
Qed.

Lemma hasMockRequest_children (n child : Node) :
  In child (children n) -> hasMockRequest child = true -> hasMockRequest n = true.
Proof.
  intros Hchild Hc.
  assert (Hex : forall l, In child l -> existsb hasMockRequest l = true).
  { intros l Hl. apply existsb_exists. now exists child. }
  destruct n; simpl in Hchild; try contradiction.
  - destruct Hchild as [<-|[<-|[]]]; simpl; rewrite Hc;
      auto using orb_true_r.
  - rewrite TraversalFacts.hasMockRequest_call.
    destruct (isMockObjCallExpession (CallExpression n arguments));
      [reflexivity|].
    destruct Hchild as [<-|Hchild]; [now rewrite Hc|].
    rewrite (Hex _ Hchild). apply orb_true_r.
  - now apply Hex.
  - destruct Hchild as [<-|[<-|[]]]; simpl; rewrite Hc;
      auto using orb_true_r.
  - now destruct Hchild as [<-|[]].
  - now destruct Hchild as [<-|[]].
  - now apply Hex.
  - now destruct Hchild as [<-|[]].
  - now destruct Hchild as [<-|[]].
  - now destruct Hchild as [<-|[]].
  - now destruct Hchild as [<-|[]].
Qed.

Lemma Occurs_hasMockRequest (c n : Node) (type : MockType) :
  Occurs c n ->
  isMockObjCallExpession c = Some type ->
  hasMockRequest n = true.
Proof.
  intros H Hc. induction H as [|n child Hchild _ IH].
  - destruct c; try discriminate.
    rewrite TraversalFacts.hasMockRequest_call. now rewrite Hc.
  - now apply (hasMockRequest_children n child).
Qed.

(** ** The registry lists the requests in traversal order *)

Lemma pushRequest_requestsFor (st : PluginState) (root : string)
    (request : MockDefinition) (r : string) :
  requestsFor (pushRequest st root request) r
  = requestsFor st r ++ (if String.eqb root r then [request] else []).
Proof.
  unfold requestsFor, pushRequest. simpl.
  destruct (String.eqb_spec root r) as [->|Hne].
  - now rewrite oget_oset_eq.
  - rewrite oget_oset_ne by assumption. now rewrite app_nil_r.
Qed.

Lemma createMockDefinition_request (def : Node) (type : MockType)
    (impl : option Node) :
  exists o : option (string * MockDefinition),
    forall st,
      createMockDefinition st def type impl
      = match o with
        | Some (root, request) => pushRequest st root request
        | None => st
        end.
Proof.
  unfold createMockDefinition.
  destruct (negb (isIdentifier def) && negb (isMemberExpression def));
    [now exists None|].
  destruct (identifiersOf def)
    as [[lastIdentifier accessIdentifierName] subIdentifiers].
  destruct (negb (truthy_opt lastIdentifier)
            || negb (truthy_opt accessIdentifierName)); [now exists None|].
  eexists (Some (_, _)). intros st. reflexivity.
Qed.

Lemma createMockDefinition_requestsFor (def : Node) (type : MockType)
    (impl : option Node) (st : PluginState) (r : string) :
  requestsFor (createMockDefinition st def type impl) r
  = requestsFor st r ++ requestsFor (createMockDefinition pre def type impl) r.
Proof.
  destruct (createMockDefinition_request def type impl) as [[[root request]|] H].
  - rewrite !H, !pushRequest_requestsFor. reflexivity.
  - rewrite !H. unfold requestsFor at 3. simpl. now rewrite app_nil_r.
Qed.

Lemma createMockDefinitions_requestsFor (type : MockType) (args : list Node)
    (st : PluginState) (r : string) :
  requestsFor
    (fold_left (fun st arg => createMockDefinition st arg type None) args st) r
  = requestsFor st r
    ++ requestsFor
         (fold_left (fun st arg => createMockDefinition st arg type None)
            args pre) r.
Proof.
  revert st. induction args as [|arg args IH]; intros st.
  - unfold requestsFor at 3. simpl. now rewrite app_nil_r.
  - simpl. rewrite IH. rewrite (IH (createMockDefinition pre arg type None)).
    rewrite createMockDefinition_requestsFor. now rewrite app_assoc.
Qed.

Lemma visit_requestsFor (n : Node) (st : PluginState) (r : string) :
  requestsFor (visit st n) r = requestsFor st r ++ requestsFor (visit pre n) r.
Proof.
  assert (Hsame : forall f : PluginState -> PluginState,
             (forall st, mocks (f st) = mocks st) ->
             requestsFor (f st) r = requestsFor st r ++ requestsFor (f pre) r).
  { intros f Hf. unfold requestsFor. rewrite !Hf. simpl. now rewrite app_nil_r. }
  destruct n; try (apply (Hsame (fun st => st)); reflexivity).
  - (* CallExpression *)
    change (visit ?s (CallExpression n arguments))
      with (fst (CallExpression_visitor s (CallExpression n arguments))).
    unfold CallExpression_visitor.
    destruct (isMockObjCallExpession (CallExpression n arguments)) as [mockType|].
    + cbn [fst].
      destruct (match arguments with
                | [_; arg1] => negb (isIdentifier arg1) && negb (isMemberExpression arg1)
                | _ => false
                end).
      * destruct arguments as [|a0 [|a1 [|a2 ?]]];
          try (apply (Hsame (fun st => st)); reflexivity).
        destruct (isExpression a1);
          [|apply (Hsame (fun st => st)); reflexivity].
        apply createMockDefinition_requestsFor.
      * apply createMockDefinitions_requestsFor.
    + destruct (isJestMockCallExpression (CallExpression n arguments));
        [|apply (Hsame (fun st => st)); reflexivity].
      destruct arguments as [|[] ?];
        apply (Hsame (fun st => st)); reflexivity.
  - (* ImportDeclaration *)
    change (visit ?s (ImportDeclaration specifiers source))
      with (ImportDeclaration_visitor s specifiers source).
    apply (Hsame (fun st => ImportDeclaration_visitor st specifiers source)).
    intros st'.
    now destruct (TraversalFacts.ImportDeclaration_visitor_frame st' specifiers
                    source) as (_ & _ & ->).
Qed.

Lemma fold_visit_requestsFor (l : list Node) (st : PluginState) (r : string) :
  requestsFor (fold_left visit l st) r
  = requestsFor st r ++ flat_map (fun n => requestsFor (visit pre n) r) l.
Proof.
  revert st. induction l as [|n l IH]; intros st.
  - simpl. now rewrite app_nil_r.
  - simpl. rewrite IH, visit_requestsFor. now rewrite app_assoc.
Qed.

(** X23. At the end of the traversal the registry lists, for every root
    name, the requests of the dispatched calls in traversal order: each call
    contributes what the visitor records for it on an empty registry. *)
Theorem X23_registry_in_traversal_order (statements : list Node) (root : string) :
  requestsFor (fst (traverseBody (Program_visitor pre) statements)) root
  = flat_map (fun call => requestsFor (visit pre call) root)
      (flat_map visited statements).
Proof.
  rewrite TraversalFacts.traverseBody_state_all.
  now rewrite fold_visit_requestsFor.
Qed.

(** ** The shape of the output *)

Lemma buildAll_Forall2 (regs : list (string * ModuleMockDefinition))
    (statements : list Node) :
  buildAll regs = Ok statements ->
  exists inserted : list (string * list Node),
    statements = map (fun e => jestMock (fst e) (snd e)) inserted
    /\ Forall2 (fun reg e => fst e = fst reg /\ topLevelProps (snd reg) = Ok (snd e))
         regs inserted.
Proof.
  revert statements. induction regs as [|[source def] regs IH]; intros statements.
  - intros [= <-]. exists []. split; [reflexivity | constructor].
  - unfold buildAll. simpl mapM.
    rewrite IndexExtras.buildJestMockForModule_shape.
    unfold_bind. destruct (topLevelProps def) as [props|] eqn:Hprops;
      [|discriminate].
    change (mapM _ regs) with (buildAll regs).
    destruct (buildAll regs) as [rest|]; [|discriminate].
    intros [= <-]. destruct (IH rest eq_refl) as (inserted & -> & Hall).
    exists ((source, props) :: inserted). split; [reflexivity|].
    constructor; [now split | exact Hall].
Qed.

Lemma Forall2_paths (regs : list (string * ModuleMockDefinition))
    (inserted : list (string * list Node)) :
  Forall2 (fun reg e => fst e = fst reg /\ topLevelProps (snd reg) = Ok (snd e))
    regs inserted ->
  map fst inserted = map fst regs.
Proof.
  induction 1 as [|reg e regs inserted [H _] _ IH]; [reflexivity|].
  simpl. now rewrite H, IH.
Qed.

(** A transformed file is the traversed body with one [jest.mock] statement
    for each module of [registrations] unshifted onto it. *)
Lemma transform_Ok_shape (file file' : Program) :
  transform file = Ok file' ->
  exists inserted : list (string * list Node),
    Forall2 (fun reg e => fst e = fst reg /\ topLevelProps (snd reg) = Ok (snd e))
      (registrations (fst (traverseBody (Program_visitor pre) (body file))))
      inserted
    /\ body file'
       = map (fun e => jestMock (fst e) (snd e)) (rev inserted)
         ++ snd (traverseBody (Program_visitor pre) (body file)).
Proof.
  intros H. apply TraversalFacts.transform_Ok in H as (statements & Hb & ->).
  destruct (buildAll_Forall2 _ _ Hb) as (inserted & -> & Hall).
  exists inserted. split; [exact Hall|]. simpl body.
  now rewrite TraversalFacts.fold_left_unshift, map_rev.
Qed.

Lemma suppressed_in_the_output (file file' : Program) (call : Node) (M : string) :
  Exists (Reached call) (body file) ->
  classify call = Ignore M ->
  transform file = Ok file' ->
  exists inserted : list (string * list Node),
    body file'
    = map (fun e => jestMock (fst e) (snd e)) inserted
      ++ snd (traverseBody (Program_visitor pre) (body file))
    /\ ~ In M (map fst inserted).
Proof.
  intros Hr Hc H.
  destruct (transform_Ok_shape file file' H) as (inserted & Hall & Hbody).
  exists (rev inserted). split; [exact Hbody|].
  rewrite map_rev, (Forall2_paths _ _ Hall). intros Hin. apply in_rev in Hin.
  revert Hin. apply (TraversalFacts.dispatched_ignore_suppresses _ call);
    [|exact Hc].
  apply Reached_visited_all; [exact Hr|].
  apply TraversalFacts.classify_Ignore in Hc as (_ & _ & callee & rest & ->).
  eauto.
Qed.

(** ** Suppression *)

(** C3, as stated, fails for an ignore call that stands inside a mock
    request: the request is removed with its arguments, which the traversal
    never enters, so the ignore call records nothing.  In
    [import { A } from "a"; jest.mockObj(A, jest.mock("a"));] the file
    contains the ignore call [jest.mock("a")] and a factory for ["a"] is
    emitted (its value for [A] being that very call). *)
Lemma C3_counterexample_ignore_call_inside_a_request :
  let ignoreCall :=
    CallExpression
      (MemberExpression (Identifier "jest") (Identifier "mock") false)
      [StringLiteral "a"] in
  let file :=
    {| directives := [];
       body := [ ImportDeclaration [ImportSpecifier "A" "A"] "a";
                 mockObj [Identifier "A"; ignoreCall] ] |} in
  classify ignoreCall = Ignore "a"
  /\ Exists (Occurs ignoreCall) (body file)
  /\ transform file
     = Ok {| directives := [];
             body := [ jestMock "a"
                         [ObjectProperty (StringLiteral "A") ignoreCall];
                       ImportDeclaration [ImportSpecifier "A" "A"] "a" ] |}.
Proof.
  cbv zeta. split; [reflexivity|]. split; [|reflexivity].
  apply Exists_cons. right. apply Exists_cons. left.
  eapply Occurs_below; [left; reflexivity|].
  eapply Occurs_below; [right; right; left; reflexivity|].
  constructor.
Qed.

(** C3 (amended). For every input file in which an ignore call for module
    [M] (an explicit registration such as [jest.mock("M")] whose first
    argument is a string literal) stands at a position the traversal
    reaches, that is anywhere but inside a mock-request call, no
    registration factory for [M] is emitted: the statements put in front of
    the traversed body are for other modules, whether the ignore call
    comes before or after the mock requests targeting [M]'s bindings and
    however many such requests there are. *)
Theorem C3_reached_ignore_call_suppresses
    (file file' : Program) (call : Node) (M : string) :
  Exists (Reached call) (body file) ->
  classify call = Ignore M ->
  transform file = Ok file' ->
  exists inserted : list (string * list Node),
    body file'
    = map (fun e => jestMock (fst e) (snd e)) inserted
      ++ snd (traverseBody (Program_visitor pre) (body file))
    /\ ~ In M (map fst inserted).
Proof. apply suppressed_in_the_output. Qed.

(** [import A from "a"; import B from "b"; jest.mockObj(A, B);
    function setup() { jest.unmock("a"); }]: the factory for ["b"] alone
    is put in front. *)
Lemma C3_reached_ignore_call_witness :
  exists inserted : list (string * list Node),
    [ jestMock "b" [ObjectProperty (StringLiteral "default") (StringLiteral "B")];
      ImportDeclaration [ImportDefaultSpecifier "A"] "a";
      ImportDeclaration [ImportDefaultSpecifier "B"] "b";
      FunctionDeclaration "setup"
        (BlockStatement
           [ExpressionStatement
              (CallExpression
                 (MemberExpression (Identifier "jest") (Identifier "unmock") false)
                 [StringLiteral "a"])]) ]
    = map (fun e => jestMock (fst e) (snd e)) inserted
      ++ snd (traverseBody (Program_visitor pre)
                [ ImportDeclaration [ImportDefaultSpecifier "A"] "a";
                  ImportDeclaration [ImportDefaultSpecifier "B"] "b";
                  mockObj [Identifier "A"; Identifier "B"];
                  FunctionDeclaration "setup"
                    (BlockStatement
                       [ExpressionStatement
                          (CallExpression
                             (MemberExpression (Identifier "jest")
                                (Identifier "unmock") false)
                             [StringLiteral "a"])]) ])
    /\ ~ In "a" (map fst inserted).
Proof.
  apply (C3_reached_ignore_call_suppresses
           {| directives := [];
              body :=
                [ ImportDeclaration [ImportDefaultSpecifier "A"] "a";
                  ImportDeclaration [ImportDefaultSpecifier "B"] "b";
                  mockObj [Identifier "A"; Identifier "B"];
                  FunctionDeclaration "setup"
                    (BlockStatement
                       [ExpressionStatement
                          (CallExpression
                             (MemberExpression (Identifier "jest")
                                (Identifier "unmock") false)
                             [StringLiteral "a"])]) ] |}
           {| directives := [];
              body :=
                [ jestMock "b"
                    [ObjectProperty (StringLiteral "default") (StringLiteral "B")];
                  ImportDeclaration [ImportDefaultSpecifier "A"] "a";
                  ImportDeclaration [ImportDefaultSpecifier "B"] "b";
                  FunctionDeclaration "setup"
                    (BlockStatement
                       [ExpressionStatement
                          (CallExpression
                             (MemberExpression (Identifier "jest")
                                (Identifier "unmock") false)
                             [StringLiteral "a"])]) ] |}
           (CallExpression
              (MemberExpression (Identifier "jest") (Identifier "unmock") false)
              [StringLiteral "a"])
           "a").
  - apply Exists_cons. right. apply Exists_cons. right.
    apply Exists_cons. right. apply Exists_cons. left.
    eapply Reached_below; [reflexivity | left; reflexivity |].
    eapply Reached_below; [reflexivity | left; reflexivity |].
    eapply Reached_below; [reflexivity | left; reflexivity |].
    constructor.
  - reflexivity.
  - reflexivity.
Defined.

(** ** Ignore calls stay in place *)

Lemma ignore_call_traversed (st : PluginState) (call : Node) (M : string) :
  classify call = Ignore M ->
  exists callee rest,
    call = CallExpression callee (StringLiteral M :: rest)
    /\ snd (traverseNode st call)
       = Some (CallExpression callee
                 (StringLiteral M
                  :: snd (traverseBody (fst (CallExpression_visitor st call))
                            rest)))
    /\ snd (traverseNode st (ExpressionStatement call))
       = Some (ExpressionStatement
                 (CallExpression callee
                    (StringLiteral M
                     :: snd (traverseBody (fst (CallExpression_visitor st call))
                               rest)))).
Proof.
  intros Hc.
  pose proof (TraversalFacts.CallExpression_visitor_ignore st call M Hc) as Hv.
  apply TraversalFacts.classify_Ignore in Hc as (Hmock & Hjest & callee & rest & ->).
  exists callee, rest. split; [reflexivity|].
  rewrite (TraversalFacts.traverseNode_eq st (ExpressionStatement _)).
  rewrite (TraversalFacts.traverseNode_eq st (CallExpression _ _)).
  rewrite Hv. cbn [fst].
  set (st1 := {| importIdentifiers := importIdentifiers st;
                 mocks := mocks st;
                 existingJestMocks := existingJestMocks st ++ [M];
                 program := program st |}).
  assert (Hcallee : traverseNode st1 callee = (st1, Some callee)).
  { destruct callee; try discriminate.
    destruct callee1; try discriminate. destruct callee2; try discriminate.
    reflexivity. }
  rewrite Hcallee. rewrite TraversalFacts.traverseBody_cons.
  rewrite (TraversalFacts.traverseNode_eq st1 (StringLiteral M)).
  now destruct (traverseBody st1 rest).
Qed.

(** C9, as stated, fails for an ignore call with a mock request inside its
    arguments: the request is removed there as anywhere else, so the
    statement does not come out unchanged.  In
    [import B from "./b";
     jest.mock("./a", () => { jest.mockObj(B); return {}; });]
    the factory written by the user loses its first statement. *)
Lemma C9_counterexample_request_inside_an_ignore_call :
  let ignoreCall (statements : list Node) :=
    CallExpression
      (MemberExpression (Identifier "jest") (Identifier "mock") false)
      [StringLiteral "./a"; ArrowFunctionExpression (BlockStatement statements)] in
  let file :=
    {| directives := [];
       body :=
         [ ImportDeclaration [ImportDefaultSpecifier "B"] "./b";
           ExpressionStatement
             (ignoreCall [ mockObj [Identifier "B"];
                           ReturnStatement (ObjectExpression []) ]) ] |} in
  classify (ignoreCall [ mockObj [Identifier "B"];
                         ReturnStatement (ObjectExpression []) ])
  = Ignore "./a"
  /\ transform file
     = Ok {| directives := [];
             body :=
               [ jestMock "./b"
                   [ObjectProperty (StringLiteral "default") (StringLiteral "B")];
                 ImportDeclaration [ImportDefaultSpecifier "B"] "./b";
                 ExpressionStatement
                   (ignoreCall [ReturnStatement (ObjectExpression [])]) ] |}
  /\ ExpressionStatement (ignoreCall [ReturnStatement (ObjectExpression [])])
     <> ExpressionStatement
          (ignoreCall [ mockObj [Identifier "B"];
                        ReturnStatement (ObjectExpression []) ]).
Proof. cbv zeta. split; [reflexivity|]. split; [reflexivity | discriminate]. Qed.

(** C9 (amended). For every call expression classified as an ignore call
    for [M], the visitor only records [M] for suppression and never removes
    the call: the traversal gives the call back, and its statement with it,
    unchanged when no mock request stands inside the call's arguments, and
    otherwise, when the removals are such as the host performs, with its
    callee and module path as they were and the remaining arguments
    traversed (a mock request among them is removed like any other).  In
    the configurable version the visitor acts in the same way on
    a call that matches no identifier entry, whose dotted callee is an
    ignore identifier and whose first argument is the string literal [M]. *)
Theorem C9_ignore_call_stays_in_place :
  (forall (st : PluginState) (call : Node) (M : string),
      classify call = Ignore M ->
      CallExpression_visitor st call
      = ({| importIdentifiers := importIdentifiers st;
            mocks := mocks st;
            existingJestMocks := existingJestMocks st ++ [M];
            program := program st |}, false)
      /\ (hasMockRequest call = false ->
          snd (traverseNode st call) = Some call
          /\ snd (traverseNode st (ExpressionStatement call))
             = Some (ExpressionStatement call))
      /\ (removalsAllowed call = true ->
          exists callee rest,
            call = CallExpression callee (StringLiteral M :: rest)
            /\ snd (traverseNode st call)
               = Some (CallExpression callee
                         (StringLiteral M
                          :: snd (traverseBody
                                    (fst (CallExpression_visitor st call))
                                    rest)))
            /\ snd (traverseNode st (ExpressionStatement call))
               = Some (ExpressionStatement
                         (CallExpression callee
                            (StringLiteral M
                             :: snd (traverseBody
                                       (fst (CallExpression_visitor st call))
                                       rest))))))
  /\ (forall (config : Configurable.PluginConfiguration)
             (st : Configurable.PluginState)
             (callee : Node) (M : string) (rest : list Node),
        Configurable.isMockObjCallExpession config
          (CallExpression callee (StringLiteral M :: rest)) = None ->
        Configurable.isJestMockCallExpression config
          (CallExpression callee (StringLiteral M :: rest)) = true ->
        Configurable.CallExpression_visitor config st
          (CallExpression callee (StringLiteral M :: rest))
        = ({| Configurable.importIdentifiers := Configurable.importIdentifiers st;
              Configurable.mocks := Configurable.mocks st;
              Configurable.existingJestMocks :=
                Configurable.existingJestMocks st ++ [M];
              Configurable.program := Configurable.program st |}, false)).
Proof.
  split.
  - intros st call M Hc. split; [|split].
    + now apply TraversalFacts.CallExpression_visitor_ignore.
    + intros Hno. split.
      * now apply (TraversalFacts.traverseNode_unchanged call).
      * now apply (TraversalFacts.traverseNode_unchanged (ExpressionStatement call)).
    + intros _. now apply ignore_call_traversed.
  - intros config st callee M rest Hmock Hjest.
    unfold Configurable.CallExpression_visitor. now rewrite Hmock, Hjest.
Qed.

(** [jest.mock("./a", () => {})], and [jest.doMock("./a", f(jest.mockObj(B)))]
    for the arguments that are traversed. *)
Lemma C9_ignore_call_witness :
  (CallExpression_visitor pre
     (CallExpression
        (MemberExpression (Identifier "jest") (Identifier "mock") false)
        [StringLiteral "./a"; ArrowFunctionExpression (BlockStatement [])])
   = ({| importIdentifiers := []; mocks := [];
         existingJestMocks := ["./a"]; program := false |}, false)
   /\ snd (traverseNode pre
             (ExpressionStatement
                (CallExpression
                   (MemberExpression (Identifier "jest") (Identifier "mock") false)
                   [StringLiteral "./a";
                    ArrowFunctionExpression (BlockStatement [])])))
      = Some (ExpressionStatement
                (CallExpression
                   (MemberExpression (Identifier "jest") (Identifier "mock") false)
                   [StringLiteral "./a";
                    ArrowFunctionExpression (BlockStatement [])])))
  /\ (exists callee rest,
        CallExpression
          (MemberExpression (Identifier "jest") (Identifier "doMock") false)
          [StringLiteral "./a";
           CallExpression (Identifier "f") [CallExpression
             (MemberExpression (Identifier "jest") (Identifier "mockObj") false)
             [Identifier "B"]]]
        = CallExpression callee (StringLiteral "./a" :: rest)
        /\ snd (traverseNode pre
                  (ExpressionStatement
                     (CallExpression
                        (MemberExpression (Identifier "jest")
                           (Identifier "doMock") false)
                        [StringLiteral "./a";
                         CallExpression (Identifier "f") [CallExpression
                           (MemberExpression (Identifier "jest")
                              (Identifier "mockObj") false)
                           [Identifier "B"]]])))
           = Some (ExpressionStatement
                     (CallExpression callee
                        (StringLiteral "./a"
                         :: snd (traverseBody
                                   (fst (CallExpression_visitor pre
                                           (CallExpression
                                              (MemberExpression (Identifier "jest")
                                                 (Identifier "doMock") false)
                                              [StringLiteral "./a";
                                               CallExpression (Identifier "f")
                                                 [CallExpression
                                                    (MemberExpression
                                                       (Identifier "jest")
                                                       (Identifier "mockObj") false)
                                                    [Identifier "B"]]])))
                                   rest)))))
  /\ Configurable.CallExpression_visitor Configurable.defaultConfig
       Configurable.pre
       (CallExpression
          (MemberExpression (Identifier "jest") (Identifier "mock") false)
          [StringLiteral "./a"; ArrowFunctionExpression (BlockStatement [])])
     = ({| Configurable.importIdentifiers := []; Configurable.mocks := [];
           Configurable.existingJestMocks := ["./a"];
           Configurable.program := false |}, false).
Proof.
  destruct C9_ignore_call_stays_in_place as [HIndex HConfigurable].
  split; [|split].
  - destruct (HIndex pre
                (CallExpression
                   (MemberExpression (Identifier "jest") (Identifier "mock") false)
                   [StringLiteral "./a";
                    ArrowFunctionExpression (BlockStatement [])])
                "./a") as (Hv & Ht & _); [reflexivity|].
    destruct (Ht eq_refl) as [_ Hs]. split; [exact Hv | exact Hs].
  - destruct (HIndex pre
                (CallExpression
                   (MemberExpression (Identifier "jest") (Identifier "doMock") false)
                   [StringLiteral "./a";
                    CallExpression (Identifier "f") [CallExpression
                      (MemberExpression (Identifier "jest")
                         (Identifier "mockObj") false)
                      [Identifier "B"]]])
                "./a") as (_ & _ & Hr); [reflexivity|].
    destruct (Hr eq_refl) as (callee & rest & E & _ & Hs).
    exists callee, rest. split; [exact E | exact Hs].
  - apply (HConfigurable Configurable.defaultConfig Configurable.pre); reflexivity.
Defined.

(** ** Calls take effect where the traversal reaches them *)

Lemma reached_request_recorded (statements : list Node) (call : Node)
    (root : string) (request : MockDefinition) :
  Exists (Reached call) statements ->
  (exists callee args, call = CallExpression callee args) ->
  In request (requestsFor (fst (CallExpression_visitor pre call)) root) ->
  In request
    (requestsFor (fst (traverseBody (Program_visitor pre) statements)) root).
Proof.
  intros Hr Hcall Hin.
  rewrite TraversalFacts.traverseBody_state_all, fold_visit_requestsFor.
  apply in_or_app. right. apply in_flat_map. exists call.
  split; [now apply Reached_visited_all|].
  destruct Hcall as (callee & args & ->). exact Hin.
Qed.

Lemma request_deleted (st : PluginState) (statements : list Node) (call : Node)
    (type : MockType) :
  isMockObjCallExpession call = Some type ->
  ~ Exists (Occurs call) (snd (traverseBody st statements)).
Proof.
  intros Hc Hex. apply Exists_exists in Hex as (n & Hn & Ho).
  pose proof (Occurs_hasMockRequest call n type Ho Hc) as Hreq.
  assert (Hclean : existsb hasMockRequest (snd (traverseBody st statements))
                   = false).
  { apply IndexExtras.traverseBody_clean. apply Forall_forall. intros n' _ st'.
    apply IndexExtras.traverseNode_clean. }
  assert (Hsome : existsb hasMockRequest (snd (traverseBody st statements))
                  = true).
  { apply existsb_exists. exists n. split; [now apply list_elem_of_In|exact Hreq]. }
  congruence.
Qed.

(** C10, as stated, fails inside a mock-request call: the call is removed
    with its callee and arguments, which the traversal never enters.  In
    [import A from "./a"; import B from "./b";
     jest.mockObj(A, () => { jest.mockFn(B); jest.mock("./a"); });]
    the inner mock request is not recorded (no factory for ["./b"]) and not
    deleted (it comes out inside the factory for ["./a"]), and the inner
    ignore call does not suppress ["./a"].  Nor does a call take effect in
    a slot the host cannot empty: for [const x = jest.mockObj(A).y;] the
    removal throws. *)
Lemma C10_counterexample_calls_inside_a_request :
  let innerRequest :=
    CallExpression
      (MemberExpression (Identifier "jest") (Identifier "mockFn") false)
      [Identifier "B"] in
  let innerIgnore :=
    CallExpression
      (MemberExpression (Identifier "jest") (Identifier "mock") false)
      [StringLiteral "./a"] in
  let implementation :=
    ArrowFunctionExpression
      (BlockStatement
         [ExpressionStatement innerRequest; ExpressionStatement innerIgnore]) in
  let file :=
    {| directives := [];
       body := [ ImportDeclaration [ImportDefaultSpecifier "A"] "./a";
                 ImportDeclaration [ImportDefaultSpecifier "B"] "./b";
                 mockObj [Identifier "A"; implementation] ] |} in
  classify innerRequest = MockRequest type_mock
  /\ classify innerIgnore = Ignore "./a"
  /\ Exists (Occurs innerRequest) (body file)
  /\ Exists (Occurs innerIgnore) (body file)
  /\ transform file
     = Ok {| directives := [];
             body :=
               [ jestMock "./a"
                   [ObjectProperty (StringLiteral "default") implementation];
                 ImportDeclaration [ImportDefaultSpecifier "A"] "./a";
                 ImportDeclaration [ImportDefaultSpecifier "B"] "./b" ] |}
  /\ transform
       {| directives := [];
          body := [ ImportDeclaration [ImportDefaultSpecifier "A"] "./a";
                    VariableDeclaration "const" "x"
                      (MemberExpression
                         (CallExpression
                            (MemberExpression (Identifier "jest")
                               (Identifier "mockObj") false)
                            [Identifier "A"])
                         (Identifier "y") false) ] |}
     = Throw.
Proof.
  cbv zeta. repeat split.
  - apply Exists_cons. right. apply Exists_cons. right. apply Exists_cons. left.
    eapply Occurs_below; [left; reflexivity|].
    eapply Occurs_below; [right; right; left; reflexivity|].
    eapply Occurs_below; [left; reflexivity|].
    eapply Occurs_below; [left; reflexivity|].
    eapply Occurs_below; [left; reflexivity|].
    constructor.
  - apply Exists_cons. right. apply Exists_cons. right. apply Exists_cons. left.
    eapply Occurs_below; [left; reflexivity|].
    eapply Occurs_below; [right; right; left; reflexivity|].
    eapply Occurs_below; [left; reflexivity|].
    eapply Occurs_below; [right; left; reflexivity|].
    eapply Occurs_below; [left; reflexivity|].
    constructor.
Qed.

(** C10 (amended). Mock-request and ignore calls take effect at every
    syntactic position of the file that the traversal reaches, that is at
    whatever depth and in whatever position outside the mock-request calls:
    a mock-request call nested inside any scope is recorded, the requests
    the visitor records for it being in the registry at the end of the
    traversal, and it is deleted, no longer standing anywhere in the
    traversed statements, provided every removal is one the host performs;
    an ignore call nested inside any scope suppresses its module, for which
    no factory is put in front of the traversed body. *)
Theorem C10_reached_calls_take_effect (file : Program) (call : Node) :
  Exists (Reached call) (body file) ->
  (forall type : MockType,
      classify call = MockRequest type ->
      (forall (root : string) (request : MockDefinition),
          In request (requestsFor (fst (CallExpression_visitor pre call)) root) ->
          In request
            (requestsFor
               (fst (traverseBody (Program_visitor pre) (body file))) root))
      /\ (forallb removalsAllowed (body file) = true ->
          ~ Exists (Occurs call)
              (snd (traverseBody (Program_visitor pre) (body file)))))
  /\ (forall (M : string) (file' : Program),
        classify call = Ignore M ->
        transform file = Ok file' ->
        exists inserted : list (string * list Node),
          body file'
          = map (fun e => jestMock (fst e) (snd e)) inserted
            ++ snd (traverseBody (Program_visitor pre) (body file))
          /\ ~ In M (map fst inserted)).
Proof.
  intros Hr. split.
  - intros type Hc. apply TraversalFacts.classify_MockRequest in Hc. split.
    + intros root request. apply reached_request_recorded; [exact Hr|].
      destruct call; try discriminate. eauto.
    + intros _. now apply (request_deleted _ _ call type).
  - intros M file' Hc H. now apply (suppressed_in_the_output file file' call M).
Qed.

(** [import A from "./a";
     function setup() { const x = f(jest.mockFn(A.b)); }
     it("t", () => { jest.unmock("./a"); });]: the request stands in the
    argument list of a call, in an initialiser, in a function body; the
    ignore call in the callback of a call. *)
Lemma C10_reached_calls_witness :
  (In {| subProperties := ["b"];
         expression :=
           CallExpression
             (MemberExpression (Identifier "jest") (Identifier "fn") false) [] |}
     (requestsFor
        (fst (traverseBody (Program_visitor pre)
                [ ImportDeclaration [ImportDefaultSpecifier "A"] "./a";
        FunctionDeclaration "setup"
          (BlockStatement
             [VariableDeclaration "const" "x"
                (CallExpression (Identifier "f")
                   [CallExpression
                      (MemberExpression (Identifier "jest")
                         (Identifier "mockFn") false)
                      [MemberExpression (Identifier "A") (Identifier "b") false]])]);
        ExpressionStatement
          (CallExpression (Identifier "it")
             [StringLiteral "t";
              ArrowFunctionExpression
                (BlockStatement
                   [ExpressionStatement
                      (CallExpression
                         (MemberExpression (Identifier "jest")
                            (Identifier "unmock") false)
                         [StringLiteral "./a"])])]) ]))
        "A")
   /\ ~ Exists
          (Occurs
             (CallExpression
        (MemberExpression (Identifier "jest") (Identifier "mockFn") false)
        [MemberExpression (Identifier "A") (Identifier "b") false]))
          (snd (traverseBody (Program_visitor pre)
                  [ ImportDeclaration [ImportDefaultSpecifier "A"] "./a";
        FunctionDeclaration "setup"
          (BlockStatement
             [VariableDeclaration "const" "x"
                (CallExpression (Identifier "f")
                   [CallExpression
                      (MemberExpression (Identifier "jest")
                         (Identifier "mockFn") false)
                      [MemberExpression (Identifier "A") (Identifier "b") false]])]);
        ExpressionStatement
          (CallExpression (Identifier "it")
             [StringLiteral "t";
              ArrowFunctionExpression
                (BlockStatement
                   [ExpressionStatement
                      (CallExpression
                         (MemberExpression (Identifier "jest")
                            (Identifier "unmock") false)
                         [StringLiteral "./a"])])]) ])))
  /\ exists inserted : list (string * list Node),
      [ ImportDeclaration [ImportDefaultSpecifier "A"] "./a";
        FunctionDeclaration "setup"
          (BlockStatement
             [VariableDeclaration "const" "x"
                (CallExpression (Identifier "f") [])]);
        ExpressionStatement
          (CallExpression (Identifier "it")
             [StringLiteral "t";
              ArrowFunctionExpression
                (BlockStatement
                   [ExpressionStatement
                      (CallExpression
                         (MemberExpression (Identifier "jest")
                            (Identifier "unmock") false)
                         [StringLiteral "./a"])])]) ]
      = map (fun e => jestMock (fst e) (snd e)) inserted
        ++ snd (traverseBody (Program_visitor pre)
                  [ ImportDeclaration [ImportDefaultSpecifier "A"] "./a";
        FunctionDeclaration "setup"
          (BlockStatement
             [VariableDeclaration "const" "x"
                (CallExpression (Identifier "f")
                   [CallExpression
                      (MemberExpression (Identifier "jest")
                         (Identifier "mockFn") false)
                      [MemberExpression (Identifier "A") (Identifier "b") false]])]);
        ExpressionStatement
          (CallExpression (Identifier "it")
             [StringLiteral "t";
              ArrowFunctionExpression
                (BlockStatement
                   [ExpressionStatement
                      (CallExpression
                         (MemberExpression (Identifier "jest")
                            (Identifier "unmock") false)
                         [StringLiteral "./a"])])]) ])
      /\ ~ In "./a" (map fst inserted).
Proof.
  split.
  - destruct (C10_reached_calls_take_effect
                {| directives := [];
                   body :=
                     [ ImportDeclaration [ImportDefaultSpecifier "A"] "./a";
        FunctionDeclaration "setup"
          (BlockStatement
             [VariableDeclaration "const" "x"
                (CallExpression (Identifier "f")
                   [CallExpression
                      (MemberExpression (Identifier "jest")
                         (Identifier "mockFn") false)
                      [MemberExpression (Identifier "A") (Identifier "b") false]])]);
        ExpressionStatement
          (CallExpression (Identifier "it")
             [StringLiteral "t";
              ArrowFunctionExpression
                (BlockStatement
                   [ExpressionStatement
                      (CallExpression
                         (MemberExpression (Identifier "jest")
                            (Identifier "unmock") false)
                         [StringLiteral "./a"])])]) ] |}
                (CallExpression
        (MemberExpression (Identifier "jest") (Identifier "mockFn") false)
        [MemberExpression (Identifier "A") (Identifier "b") false]))
      as [Hrequest _].
    + apply Exists_cons. right. apply Exists_cons. left.
      eapply Reached_below; [reflexivity | left; reflexivity |].
      eapply Reached_below; [reflexivity | left; reflexivity |].
      eapply Reached_below; [reflexivity | left; reflexivity |].
      eapply Reached_below; [reflexivity | right; left; reflexivity |].
      constructor.
    + destruct (Hrequest type_mock eq_refl) as [Hrecorded Hdeleted]. split.
      * apply Hrecorded. left. reflexivity.
      * apply Hdeleted. reflexivity.
  - destruct (C10_reached_calls_take_effect
                {| directives := [];
                   body :=
                     [ ImportDeclaration [ImportDefaultSpecifier "A"] "./a";
        FunctionDeclaration "setup"
          (BlockStatement
             [VariableDeclaration "const" "x"
                (CallExpression (Identifier "f")
                   [CallExpression
                      (MemberExpression (Identifier "jest")
                         (Identifier "mockFn") false)
                      [MemberExpression (Identifier "A") (Identifier "b") false]])]);
        ExpressionStatement
          (CallExpression (Identifier "it")
             [StringLiteral "t";
              ArrowFunctionExpression
                (BlockStatement
                   [ExpressionStatement
                      (CallExpression
                         (MemberExpression (Identifier "jest")
                            (Identifier "unmock") false)
                         [StringLiteral "./a"])])]) ] |}
                (CallExpression
        (MemberExpression (Identifier "jest") (Identifier "unmock") false)
        [StringLiteral "./a"]))
      as [_ Hignore].
    + apply Exists_cons. right. apply Exists_cons. right.
      apply Exists_cons. left.
      eapply Reached_below; [reflexivity | left; reflexivity |].
      eapply Reached_below; [reflexivity | right; right; left; reflexivity |].
      eapply Reached_below; [reflexivity | left; reflexivity |].
      eapply Reached_below; [reflexivity | left; reflexivity |].
      eapply Reached_below; [reflexivity | left; reflexivity |].
      constructor.
    + apply (Hignore "./a"
               {| directives := [];
                  body :=
                    [ ImportDeclaration [ImportDefaultSpecifier "A"] "./a";
        FunctionDeclaration "setup"
          (BlockStatement
             [VariableDeclaration "const" "x"
                (CallExpression (Identifier "f") [])]);
        ExpressionStatement
          (CallExpression (Identifier "it")
             [StringLiteral "t";
              ArrowFunctionExpression
                (BlockStatement
                   [ExpressionStatement
                      (CallExpression
                         (MemberExpression (Identifier "jest")
                            (Identifier "unmock") false)
                         [StringLiteral "./a"])])]) ] |});
        reflexivity.
Defined.

(** ** Placement and order of the registrations *)

(** X24. In a transformed file the registrations stand on top of the
    traversed body, and they read there in the reverse of the order in which
    their modules were first imported: each one was unshifted above those
    of the modules imported before. *)
Theorem X24_registrations_on_top_in_reverse_import_order
    (file file' : Program) :
  transform file = Ok file' ->
  exists inserted : list (string * list Node),
    body file'
    = map (fun e => jestMock (fst e) (snd e)) inserted
      ++ snd (traverseBody (Program_visitor pre) (body file))
    /\ rev (map fst inserted)
       `sublist_of` firstImported [] (flat_map visited (body file)).
Proof.
  intros H.
  destruct (transform_Ok_shape file file' H) as (inserted & Hall & Hbody).
  exists (rev inserted). split; [exact Hbody|].
  rewrite map_rev, rev_involutive, (Forall2_paths _ _ Hall).
  pose proof (TraversalFacts.registrations_sublist
                (fst (traverseBody (Program_visitor pre) (body file)))) as Hsub.
  rewrite TraversalFacts.traverseBody_state_all in Hsub at 2.
  now rewrite TraversalFacts.fold_visit_keys in Hsub.
Qed.

(** [import A from "./a"; import B from "./b"; jest.mockObj(B, A);] *)
Lemma X24_reverse_import_order_witness :
  exists inserted : list (string * list Node),
    [ jestMock "./b" [ObjectProperty (StringLiteral "default") (StringLiteral "B")];
      jestMock "./a" [ObjectProperty (StringLiteral "default") (StringLiteral "A")];
      ImportDeclaration [ImportDefaultSpecifier "A"] "./a";
      ImportDeclaration [ImportDefaultSpecifier "B"] "./b" ]
    = map (fun e => jestMock (fst e) (snd e)) inserted
      ++ snd (traverseBody (Program_visitor pre)
                [ ImportDeclaration [ImportDefaultSpecifier "A"] "./a";
                  ImportDeclaration [ImportDefaultSpecifier "B"] "./b";
                  mockObj [Identifier "B"; Identifier "A"] ])
    /\ rev (map fst inserted)
       `sublist_of`
       firstImported []
         (flat_map visited
            [ ImportDeclaration [ImportDefaultSpecifier "A"] "./a";
              ImportDeclaration [ImportDefaultSpecifier "B"] "./b";
              mockObj [Identifier "B"; Identifier "A"] ]).
Proof.
  apply (X24_registrations_on_top_in_reverse_import_order
           {| directives := [];
              body :=
                [ ImportDeclaration [ImportDefaultSpecifier "A"] "./a";
                  ImportDeclaration [ImportDefaultSpecifier "B"] "./b";
                  mockObj [Identifier "B"; Identifier "A"] ] |}
           {| directives := [];
              body :=
                [ jestMock "./b"
                    [ObjectProperty (StringLiteral "default") (StringLiteral "B")];
                  jestMock "./a"
                    [ObjectProperty (StringLiteral "default") (StringLiteral "A")];
                  ImportDeclaration [ImportDefaultSpecifier "A"] "./a";
                  ImportDeclaration [ImportDefaultSpecifier "B"] "./b" ] |}).
  reflexivity.
Defined.


(** ** What is collected under an export key *)

Lemma assign_key (def : ModuleMockDefinition) (k key : string)
    (value : list ModuleMock) :
  or_empty (oget (assign def k value) key)
  = if String.eqb k key && negb (String.eqb key "__proto__") then value
    else or_empty (oget def key).
Proof.
  unfold assign. destruct (String.eqb_spec k "__proto__") as [->|Hk].
  - destruct (String.eqb_spec "__proto__" key) as [<-|]; reflexivity.
  - destruct (String.eqb_spec k key) as [->|Hne].
    + rewrite oget_oset_eq.
      destruct (String.eqb_spec key "__proto__"); [contradiction|reflexivity].
    + now rewrite oget_oset_ne by assumption.
Qed.

Lemma addNamespaceMock_key (def : ModuleMockDefinition) (m : MockDefinition)
    (key : string) :
  or_empty (oget (addNamespaceMock def m) key)
  = or_empty (oget def key)
    ++ (if negb (String.eqb key "__proto__")
           && ((Nat.eqb (length (subProperties m)) 1
                || Nat.eqb (length (subProperties m)) 2)
               && match head (subProperties m) with
                  | Some k => String.eqb k key
                  | None => false
                  end)
        then [{| mock_expression := expression m;
                 subProperty := head (tail (subProperties m)) |}]
        else []).
Proof.
  unfold addNamespaceMock.
  destruct (Nat.eqb (length (subProperties m)) 1
            || Nat.eqb (length (subProperties m)) 2) eqn:Hdepth.
  - apply orb_true_iff in Hdepth.
    assert (Hguard : negb (Nat.eqb (length (subProperties m)) 1)
                     && negb (Nat.eqb (length (subProperties m)) 2) = false).
    { destruct Hdepth as [-> | ->]; [reflexivity | apply andb_false_r]. }
    rewrite Hguard.
    destruct (subProperties m) as [|k rest].
    { destruct Hdepth; discriminate. }
    rewrite assign_key. cbn [head tail andb].
    destruct (String.eqb_spec k key) as [->|Hne];
      destruct (String.eqb key "__proto__");
      cbn [andb negb]; try reflexivity; now rewrite app_nil_r.
  - apply orb_false_iff in Hdepth as [-> ->]. simpl.
    rewrite andb_false_r. now rewrite app_nil_r.
Qed.

Lemma fold_addNamespaceMock_key (requests : list MockDefinition)
    (def : ModuleMockDefinition) (key : string) :
  or_empty (oget (fold_left addNamespaceMock requests def) key)
  = or_empty (oget def key)
    ++ (if String.eqb key "__proto__" then []
        else
          map (fun m => {| mock_expression := expression m;
                           subProperty := head (tail (subProperties m)) |})
            (List.filter
               (fun m =>
                  (Nat.eqb (length (subProperties m)) 1
                   || Nat.eqb (length (subProperties m)) 2)
                  && match head (subProperties m) with
                     | Some k => String.eqb k key
                     | None => false
                     end)
               requests)).
Proof.
  revert def. induction requests as [|m requests IH]; intros def.
  - simpl. destruct (String.eqb key "__proto__"); now rewrite app_nil_r.
  - simpl. rewrite IH, addNamespaceMock_key.
    destruct (String.eqb key "__proto__"); cbn [negb andb].
    + now rewrite !app_nil_r.
    + destruct (_ && _); simpl; [now rewrite <- app_assoc | now rewrite app_nil_r].
Qed.

Lemma fold_addMock (requests : list MockDefinition) (mocksArr : list ModuleMock) :
  fold_left addMock requests mocksArr
  = mocksArr
    ++ map (fun m => {| mock_expression := expression m;
                        subProperty := head (subProperties m) |})
         (List.filter (fun m => Nat.leb (length (subProperties m)) 1) requests).
Proof.
  revert mocksArr. induction requests as [|m requests IH]; intros mocksArr.
  - simpl. now rewrite app_nil_r.
  - simpl. rewrite IH. unfold addMock.
    destruct (Nat.ltb_spec 1 (length (subProperties m))) as [Hlt|Hle].
    + destruct (Nat.leb_spec (length (subProperties m)) 1); [lia|reflexivity].
    + destruct (Nat.leb_spec (length (subProperties m)) 1); [|lia].
      simpl. now rewrite <- app_assoc.
Qed.

Lemma addImport_key (mocks : ordmap (list MockDefinition))
    (def : ModuleMockDefinition) (i : ImportDefinition) (key : string) :
  or_empty (oget (addImport mocks def i) key)
  = or_empty (oget def key) ++ entriesOf mocks key i.
Proof.
  unfold addImport, entriesOf, exportKey.
  destruct (oget mocks (name i)) as [requests|]; simpl or_empty.
  2:{ destruct (type i); simpl;
        repeat match goal with
               | |- context [if ?b then _ else _] => destruct b
               end;
        now rewrite app_nil_r. }
  destruct requests as [|m requests].
  { simpl. destruct (type i); simpl;
      repeat match goal with
             | |- context [if ?b then _ else _] => destruct b
             end;
      now rewrite app_nil_r. }
  change (Nat.eqb (length (m :: requests)) 0) with false. cbv iota.
  assert (Hnamed : forall k,
             or_empty
               (oget (assign def k
                        (fold_left addMock (m :: requests) (or_empty (oget def k))))
                  key)
             = or_empty (oget def key)
               ++ (if String.eqb key "__proto__" then []
                   else
                     if String.eqb k key
                     then map (fun m => {| mock_expression := expression m;
                                           subProperty := head (subProperties m) |})
                            (List.filter
                               (fun m => Nat.leb (length (subProperties m)) 1)
                               (m :: requests))
                     else [])).
  { intros k. rewrite assign_key.
    destruct (String.eqb_spec k key) as [->|Hne];
      destruct (String.eqb key "__proto__"); cbn [andb negb];
      try now rewrite app_nil_r.
    exact (fold_addMock (m :: requests) (or_empty (oget def key))). }
  destruct (type i).
  - apply Hnamed.
  - apply fold_addNamespaceMock_key.
  - apply Hnamed.
Qed.

Lemma collected_fold (mocks : ordmap (list MockDefinition))
    (imports : list ImportDefinition) (def : ModuleMockDefinition)
    (key : string) :
  or_empty (oget (fold_left (addImport mocks) imports def) key)
  = or_empty (oget def key) ++ collected mocks imports key.
Proof.
  revert def. induction imports as [|i imports IH]; intros def.
  - simpl. now rewrite app_nil_r.
  - simpl. rewrite IH, addImport_key. now rewrite app_assoc.
Qed.

Lemma assign_NoDup (def : ModuleMockDefinition) (k : string)
    (value : list ModuleMock) :
  NoDup (okeys def) -> NoDup (okeys (assign def k value)).
Proof.
  intros H. unfold assign.
  destruct (String.eqb k "__proto__"); [exact H | now apply okeys_NoDup_oset].
Qed.

Lemma addNamespaceMock_NoDup (def : ModuleMockDefinition) (m : MockDefinition) :
  NoDup (okeys def) -> NoDup (okeys (addNamespaceMock def m)).
Proof.
  intros H. unfold addNamespaceMock. destruct (_ && _); [exact H|].
  destruct (subProperties m); [exact H|]. now apply assign_NoDup.
Qed.

Lemma addImport_NoDup (mocks : ordmap (list MockDefinition))
    (def : ModuleMockDefinition) (i : ImportDefinition) :
  NoDup (okeys def) -> NoDup (okeys (addImport mocks def i)).
Proof.
  intros H. unfold addImport.
  destruct (oget mocks (name i)) as [requests|]; [|exact H].
  destruct (Nat.eqb (length requests) 0); [exact H|].
  assert (Hfold : forall l d, NoDup (okeys d) ->
                              NoDup (okeys (fold_left addNamespaceMock l d))).
  { induction l as [|m l IH]; intros d Hd; [exact Hd|].
    simpl. apply IH. now apply addNamespaceMock_NoDup. }
  destruct (type i); [now apply assign_NoDup | now apply Hfold
                     | now apply assign_NoDup].
Qed.

Lemma collected_NoDup (mocks : ordmap (list MockDefinition))
    (imports : list ImportDefinition) (def : ModuleMockDefinition) :
  NoDup (okeys def) -> NoDup (okeys (fold_left (addImport mocks) imports def)).
Proof.
  revert def. induction imports as [|i imports IH]; intros def H; [exact H|].
  simpl. apply IH. now apply addImport_NoDup.
Qed.

(** ** What is emitted for an export key *)

Lemma topLevelProp_flat (key : string) (mocks : list ModuleMock)
    (lastMock : ModuleMock) :
  forallb noSubProperty mocks = true ->
  last mocks = Some lastMock ->
  topLevelProp key mocks
  = Ok (Some (ObjectProperty (StringLiteral key) (mock_expression lastMock))).
Proof.
  intros Hflat Hlast. unfold topLevelProp.
  now rewrite (ModuleMockFacts.last_Some_length _ _ Hlast), Hflat, Hlast.
Qed.

Lemma topLevelProp_key_of (key : string) (mocks : list ModuleMock) (p : Node) :
  topLevelProp key mocks = Ok (Some p) ->
  exists value, p = ObjectProperty (StringLiteral key) value.
Proof.
  unfold topLevelProp. destruct (Nat.eqb (length mocks) 0); [discriminate|].
  destruct (forallb noSubProperty mocks).
  - destruct (last mocks); [|discriminate]. intros [= <-]. eauto.
  - unfold_bind. simpl objectExpression. cbv iota.
    destruct (foldM nestedStep mocks (ObjectExpression [])); [|discriminate].
    intros [= <-]. eauto.
Qed.

Lemma topLevelProps_In_inv (def : ModuleMockDefinition) (props : list Node)
    (p : Node) :
  topLevelProps def = Ok props ->
  In p props ->
  exists key mocks, In (key, mocks) def /\ topLevelProp key mocks = Ok (Some p).
Proof.
  revert props. induction def as [|[key mocks] def IH]; intros props.
  - intros [= <-] [].
  - rewrite ModuleMockFacts.topLevelProps_cons. unfold_bind.
    destruct (topLevelProp key mocks) as [prop|] eqn:Hprop; [|discriminate].
    destruct (topLevelProps def) as [rest|]; [|discriminate].
    intros [= <-] Hin.
    assert (Hrest : In p rest ->
                    exists key0 mocks0,
                      In (key0, mocks0) ((key, mocks) :: def)
                      /\ topLevelProp key0 mocks0 = Ok (Some p)).
    { intros Hr. destruct (IH rest eq_refl Hr) as (key0 & mocks0 & H0 & H1).
      exists key0, mocks0. split; [now right | exact H1]. }
    destruct prop as [p0|]; [|now apply Hrest].
    destruct Hin as [<-|Hin]; [|now apply Hrest].
    exists key, mocks. split; [now left | exact Hprop].
Qed.

Lemma topLevelProps_In (def : ModuleMockDefinition) (props : list Node)
    (key : string) (mocks : list ModuleMock) (p : Node) :
  topLevelProps def = Ok props ->
  In (key, mocks) def ->
  topLevelProp key mocks = Ok (Some p) ->
  In p props.
Proof.
  revert props. induction def as [|[key0 mocks0] def IH]; intros props.
  - intros _ [].
  - rewrite ModuleMockFacts.topLevelProps_cons. unfold_bind.
    destruct (topLevelProp key0 mocks0) as [prop|] eqn:Hprop; [|discriminate].
    destruct (topLevelProps def) as [rest|]; [|discriminate].
    intros [= <-] [[= -> ->]|Hin] Hp.
    + rewrite Hp in Hprop. injection Hprop as <-. now left.
    + specialize (IH rest eq_refl Hin Hp). destruct prop; [now right | exact IH].
Qed.

Lemma NoDup_okeys_In {V : Type} (m : ordmap V) (k : string) (v1 v2 : V) :
  NoDup (okeys m) -> In (k, v1) m -> In (k, v2) m -> v1 = v2.
Proof.
  induction m as [|[k0 v0] m IH]; intros Hnd H1 H2; [destruct H1|].
  simpl in Hnd. apply NoDup_cons in Hnd as [Hk0 Hnd].
  assert (Hkey : forall v, In (k0, v) m -> False).
  { intros v Hv. apply Hk0. apply list_elem_of_In.
    apply (in_map fst) in Hv. exact Hv. }
  destruct H1 as [[= -> ->]|H1], H2 as [[= <-]|H2].
  - reflexivity.
  - exfalso. now apply (Hkey v2).
  - exfalso. subst. now apply (Hkey v1).
  - now apply IH.
Qed.

Lemma topLevelProps_lookup (def : ModuleMockDefinition) (props : list Node)
    (key : string) (mocks : list ModuleMock) (value : Node) :
  NoDup (okeys def) ->
  topLevelProps def = Ok props ->
  In (key, mocks) def ->
  topLevelProp key mocks = Ok (Some (ObjectProperty (StringLiteral key) value)) ->
  In (ObjectProperty (StringLiteral key) value) props
  /\ forall value',
      In (ObjectProperty (StringLiteral key) value') props -> value' = value.
Proof.
  intros Hnd Hprops Hin Hprop. split.
  - exact (topLevelProps_In def props key mocks _ Hprops Hin Hprop).
  - intros value' Hin'.
    destruct (topLevelProps_In_inv def props _ Hprops Hin')
      as (key' & mocks' & Hin2 & Hprop2).
    destruct (topLevelProp_key_of key' mocks' _ Hprop2) as (v & [= <- _]).
    rewrite (NoDup_okeys_In def key mocks' mocks Hnd Hin2 Hin) in Hprop2.
    congruence.
Qed.

Lemma Forall2_In_l {A B : Type} (R : A -> B -> Prop) (l1 : list A) (l2 : list B)
    (x : A) :
  Forall2 R l1 l2 -> In x l1 -> exists y, In y l2 /\ R x y.
Proof.
  induction 1 as [|a b l1 l2 Hab _ IH]; intros Hin; [destruct Hin|].
  destruct Hin as [<-|Hin].
  - exists b. split; [now left | exact Hab].
  - destruct (IH Hin) as (y & Hy & HR). exists y. split; [now right | exact HR].
Qed.

Lemma fold_visit_program (l : list Node) (st : PluginState) :
  program (fold_left visit l st) = program st.
Proof.
  revert st. induction l as [|n l IH]; intros st; [reflexivity|].
  simpl. rewrite IH. destruct n; try reflexivity.
  - change (visit st (CallExpression n arguments))
      with (fst (CallExpression_visitor st (CallExpression n arguments))).
    now destruct (TraversalFacts.CallExpression_visitor_frame st
                    (CallExpression n arguments)) as (_ & -> & _).
  - change (visit st (ImportDeclaration specifiers source))
      with (ImportDeclaration_visitor st specifiers source).
    now destruct (TraversalFacts.ImportDeclaration_visitor_frame st specifiers
                    source) as (_ & -> & _).
Qed.

Lemma collected_without_requests (imports : list ImportDefinition) (key : string) :
  collected [] imports key = [].
Proof.
  induction imports as [|i imports IH]; [reflexivity|].
  unfold collected in *. simpl. rewrite IH. unfold entriesOf. simpl.
  destruct (String.eqb key "__proto__"); [reflexivity|].
  destruct (type i); simpl; try reflexivity;
    now destruct (String.eqb (exportKey i) key).
Qed.

Lemma registered (st : PluginState) (modulePath key : string)
    (imports : list ImportDefinition) :
  program st = true ->
  oget (importIdentifiers st) modulePath = Some imports ->
  includes (existingJestMocks st) modulePath = false ->
  collected (mocks st) imports key <> [] ->
  In (modulePath, fold_left (addImport (mocks st)) imports [])
    (registrations st)
  /\ oget (fold_left (addImport (mocks st)) imports []) key
     = Some (collected (mocks st) imports key).
Proof.
  intros Hprogram Himports Hexisting Hcollected.
  pose proof (collected_fold (mocks st) imports [] key) as Hfold.
  simpl in Hfold.
  destruct (oget (fold_left (addImport (mocks st)) imports []) key)
    as [entries|] eqn:Hkey.
  2:{ simpl in Hfold. congruence. }
  simpl in Hfold. subst entries. split; [|reflexivity].
  unfold registrations. rewrite Hprogram. cbn [negb].
  assert (Hmocks : Nat.eqb (length (mocks st)) 0 = false).
  { destruct (mocks st); [|reflexivity].
    now rewrite collected_without_requests in Hcollected. }
  assert (Htable : Nat.eqb (length (importIdentifiers st)) 0 = false).
  { destruct (importIdentifiers st); [discriminate | reflexivity]. }
  rewrite Hmocks, Htable. cbn [orb].
  apply list_elem_of_In. apply list_elem_of_omap.
  exists (modulePath, imports). split.
  - apply list_elem_of_In. now apply oget_In.
  - unfold registration. rewrite Hexisting.
    apply oget_In in Hkey.
    destruct (fold_left (addImport (mocks st)) imports []); [destruct Hkey|].
    reflexivity.
Qed.

(** C8, as stated, fails when the requests against one export key go
    through different bindings: the entries of a key are collected binding
    by binding, in the order of the import specifiers, not in file order.
    In [import A, { default as B } from "./a";
        jest.mockObj(B, "first"); jest.mockObj(A, "second");]
    the last request in file order carries ["second"], and ["first"] is
    emitted. *)
Lemma C8_counterexample_requests_through_two_bindings :
  transform
    {| directives := [];
       body :=
         [ ImportDeclaration
             [ImportDefaultSpecifier "A"; ImportSpecifier "B" "default"] "./a";
           mockObj [Identifier "B"; StringLiteral "first"];
           mockObj [Identifier "A"; StringLiteral "second"] ] |}
  = Ok {| directives := [];
          body :=
            [ jestMock "./a"
                [ObjectProperty (StringLiteral "default") (StringLiteral "first")];
              ImportDeclaration
                [ImportDefaultSpecifier "A"; ImportSpecifier "B" "default"]
                "./a" ] |}.
Proof. reflexivity. Qed.

(** C8 (amended). For every export key of a module that is not suppressed
    and every sequence of N >= 1 entries collected for the key, none with a
    sub-key, the factory of the module has for that key the replacement of
    the last entry collected and no other value, so that the earlier N-1
    replacements are not emitted for it.  The entries of a key are
    collected binding by binding, in the order of the module's import
    specifiers, and for each binding in the order in which the registry
    lists the requests for its local name, which is the order in which the
    traversal meets them in the file: the last entry is the Nth request in
    file order whenever the requests against the key all go through one
    binding. *)
Theorem C8_last_collected_flat_entry_wins
    (file file' : Program) (modulePath key : string)
    (imports : list ImportDefinition) (lastEntry : ModuleMock) :
  transform file = Ok file' ->
  oget (importIdentifiers (stateAfterTraversal file)) modulePath = Some imports ->
  includes (existingJestMocks (stateAfterTraversal file)) modulePath = false ->
  forallb noSubProperty
    (collected (mocks (stateAfterTraversal file)) imports key) = true ->
  last (collected (mocks (stateAfterTraversal file)) imports key)
  = Some lastEntry ->
  exists (inserted : list (string * list Node)) (props : list Node),
    body file'
    = map (fun e => jestMock (fst e) (snd e)) inserted
      ++ snd (traverseBody (Program_visitor pre) (body file))
    /\ NoDup (map fst inserted)
    /\ In (modulePath, props) inserted
    /\ In (ObjectProperty (StringLiteral key) (mock_expression lastEntry)) props
    /\ (forall value,
          In (ObjectProperty (StringLiteral key) value) props ->
          value = mock_expression lastEntry)
    /\ forall root,
        requestsFor (stateAfterTraversal file) root
        = flat_map (fun call => requestsFor (visit pre call) root)
            (flat_map visited (body file)).
Proof.
  intros H Himports Hexisting Hflat Hlast.
  assert (Hregistry : forall root,
             requestsFor (stateAfterTraversal file) root
             = flat_map (fun call => requestsFor (visit pre call) root)
                 (flat_map visited (body file))).
  { intros root. unfold stateAfterTraversal.
    rewrite TraversalFacts.traverseBody_state_all.
    now rewrite fold_visit_requestsFor. }
  destruct (transform_Ok_shape file file' H) as (inserted & Hall & Hbody).
  fold (stateAfterTraversal file) in Hall.
  set (st := stateAfterTraversal file) in *.
  assert (Hprogram : program st = true).
  { unfold st, stateAfterTraversal.
    rewrite TraversalFacts.traverseBody_state_all. now rewrite fold_visit_program. }
  assert (Hcollected : collected (mocks st) imports key <> []).
  { intros E. rewrite E in Hlast. discriminate. }
  destruct (registered st modulePath key imports Hprogram Himports Hexisting
              Hcollected) as [Hreg Hkey].
  destruct (Forall2_In_l _ _ _ _ Hall Hreg) as ([path props] & Hin & Hpath & Hprops).
  simpl in Hpath, Hprops. subst path.
  exists (rev inserted), props. split; [exact Hbody|].
  assert (Hnd : NoDup (map fst (rev inserted))).
  { rewrite map_rev, (Forall2_paths _ _ Hall).
    apply NoDup_ListNoDup, List.NoDup_rev, NoDup_ListNoDup.
    assert (Hkeys : NoDup (okeys (importIdentifiers st))).
    { unfold st, stateAfterTraversal.
      rewrite TraversalFacts.traverseBody_state_all.
      apply IndexExtras.fold_visit_NoDup_keys. constructor. }
    exact (sublist_NoDup _ _ Hkeys (TraversalFacts.registrations_sublist st)). }
  split; [exact Hnd|]. split; [now apply in_rev in Hin|].
  destruct (topLevelProps_lookup (fold_left (addImport (mocks st)) imports [])
              props key (collected (mocks st) imports key)
              (mock_expression lastEntry)) as [Hprop Honly].
  - apply collected_NoDup. constructor.
  - exact Hprops.
  - now apply oget_In.
  - now apply topLevelProp_flat.
  - split; [exact Hprop|]. split; [exact Honly | exact Hregistry].
Qed.

(** [import A from "./a"; import { B, B2 } from "b";
     jest.mockObj(A, "test"); jest.mockObj(A);
     jest.mockObj(B, "test"); jest.mockObj(B, "test2");
     jest.mockObj(B, "test3");], the key [B] of the module ["b"]. *)
Lemma C8_last_collected_flat_entry_witness :
  exists (inserted : list (string * list Node)) (props : list Node),
    [ jestMock "b"
                  [ObjectProperty (StringLiteral "B") (StringLiteral "test3")];
                jestMock "./a"
                  [ObjectProperty (StringLiteral "default") (StringLiteral "A")];
                ImportDeclaration [ImportDefaultSpecifier "A"] "./a";
                ImportDeclaration
                  [ImportSpecifier "B" "B"; ImportSpecifier "B2" "B2"] "b" ]
    = map (fun e => jestMock (fst e) (snd e)) inserted
      ++ snd (traverseBody (Program_visitor pre)
                [ ImportDeclaration [ImportDefaultSpecifier "A"] "./a";
                ImportDeclaration
                  [ImportSpecifier "B" "B"; ImportSpecifier "B2" "B2"] "b";
                mockObj [Identifier "A"; StringLiteral "test"];
                mockObj [Identifier "A"];
                mockObj [Identifier "B"; StringLiteral "test"];
                mockObj [Identifier "B"; StringLiteral "test2"];
                mockObj [Identifier "B"; StringLiteral "test3"] ])
    /\ NoDup (map fst inserted)
    /\ In ("b", props) inserted
    /\ In (ObjectProperty (StringLiteral "B") (StringLiteral "test3")) props
    /\ forall value,
        In (ObjectProperty (StringLiteral "B") value) props ->
        value = StringLiteral "test3".
Proof.
  destruct (C8_last_collected_flat_entry_wins
           {| directives := [];
              body :=
                [ ImportDeclaration [ImportDefaultSpecifier "A"] "./a";
                ImportDeclaration
                  [ImportSpecifier "B" "B"; ImportSpecifier "B2" "B2"] "b";
                mockObj [Identifier "A"; StringLiteral "test"];
                mockObj [Identifier "A"];
                mockObj [Identifier "B"; StringLiteral "test"];
                mockObj [Identifier "B"; StringLiteral "test2"];
                mockObj [Identifier "B"; StringLiteral "test3"] ] |}
           {| directives := [];
              body :=
                [ jestMock "b"
                  [ObjectProperty (StringLiteral "B") (StringLiteral "test3")];
                jestMock "./a"
                  [ObjectProperty (StringLiteral "default") (StringLiteral "A")];
                ImportDeclaration [ImportDefaultSpecifier "A"] "./a";
                ImportDeclaration
                  [ImportSpecifier "B" "B"; ImportSpecifier "B2" "B2"] "b" ] |}
           "b" "B"
           [ {| name := "B"; type := type_import |};
             {| name := "B2"; type := type_import |} ]
           {| mock_expression := StringLiteral "test3"; subProperty := None |})
    as (inserted & props & Hbody & Hnd & Hin & Hprop & Honly & _);
    try reflexivity.
  now exists inserted, props.
Defined.

End OutputFacts.

(** * The replacement of a request that gives none *)

Module DefaultReplacementFacts.
Import Index.

(** ** [index.ts]: what is recorded *)





(** ** [index.ts]: what is collected *)




(** ** [index.ts]: what is emitted *)









End DefaultReplacementFacts.

(** * The configurable version: from the registry to the factories *)

Module ConfigurableOutputFacts.
Import Configurable.

(** ** What is recorded *)







Lemma configurable_pushRequest_requestsFor (st : PluginState) (root : string)
    (request : MockDefinition) (r : string) :
  requestsFor (pushRequest st root request) r
  = requestsFor st r ++ (if String.eqb root r then [request] else []).
Proof.
  unfold requestsFor, pushRequest. simpl.
  destruct (String.eqb_spec root r) as [->|Hne].
  - now rewrite oget_oset_eq.
  - rewrite oget_oset_ne by assumption. now rewrite app_nil_r.
Qed.

Lemma mockArgument_keeps (type : MockType) (st : PluginState) (arg : Node)
    (r : string) (request : MockDefinition) :
  In request (requestsFor st r) ->
  In request (requestsFor (mockArgument type st arg) r).
Proof.
  intros Hin. unfold mockArgument.
  destruct (negb (truthy (getNameOfExpression arg "")) && isMock type);
    [exact Hin|].
  unfold createMockDefinition.
  destruct (negb (isIdentifier arg) && negb (isMemberExpression arg)); [exact Hin|].
  destruct (identifiersOf arg)
    as [[lastIdentifier accessIdentifierName] subIdentifiers].
  destruct (negb (truthy_opt lastIdentifier)
            || negb (truthy_opt accessIdentifierName)); [exact Hin|].
  match goal with
  | |- In _ (requestsFor {| importIdentifiers := _;
                            mocks := oset _ ?root (_ ++ [?m]);
                            existingJestMocks := _; program := _ |} _) =>
      change (In request (requestsFor (pushRequest st root m) r))
  end.
  rewrite configurable_pushRequest_requestsFor. apply in_or_app. now left.
Qed.

Lemma configurable_argument_recorded (type : MockType) (args : list Node)
    (arg : Node) (root : string) (request : MockDefinition) (st : PluginState) :
  In arg args ->
  (forall st, mockArgument type st arg = pushRequest st root request) ->
  In request (requestsFor (fold_left (mockArgument type) args st) root).
Proof.
  intros Hin Hpush.
  assert (Hkeeps : forall l st,
             In request (requestsFor st root) ->
             In request (requestsFor (fold_left (mockArgument type) l st) root)).
  { induction l as [|a l IH]; intros st0 H0; [exact H0|].
    simpl. apply IH. now apply mockArgument_keeps. }
  revert st. induction args as [|a args IH]; intros st; [destruct Hin|].
  destruct Hin as [->|Hin]; [|now apply IH].
  simpl. apply Hkeeps. rewrite Hpush, configurable_pushRequest_requestsFor.
  apply in_or_app. right. rewrite String.eqb_refl. now left.
Qed.

(** ** What is collected under an export key *)









(** ** What is emitted for an export key *)









(** ** [post] *)


Lemma configurable_post_statements (config : PluginConfiguration)
    (st : PluginState) (l : list (string * list Index.ImportDefinition))
    (top0 top : list JestMockStatement) :
  foldM (postModule config st) l top0 = Ok top ->
  exists added,
    top = added ++ top0
    /\ rev (map source added) `sublist_of` map fst l
    /\ Forall (fun statement =>
                 jest_object statement = jestIdentifier config
                 /\ Index.includes (existingJestMocks st) (source statement) = false
                 /\ exists imports, In (source statement, imports) l)
         added.
Proof.
  revert top0. induction l as [|[path0 imports0] l IH]; intros top0.
  - intros [= <-]. exists []. repeat split; constructor.
  - rewrite ModuleMockFacts.foldM_cons. unfold_bind.
    destruct (postModule config st top0 (path0, imports0)) as [top1|] eqn:Hstep;
      [|discriminate].
    intros Hrest. destruct (IH top1 Hrest) as (added & -> & Horder & Hall).
    assert (Hweaken : Forall (fun statement =>
                 jest_object statement = jestIdentifier config
                 /\ Index.includes (existingJestMocks st) (source statement) = false
                 /\ exists imports,
                     In (source statement, imports) ((path0, imports0) :: l))
              added).
    { apply (Forall_impl _ _ _ Hall).
      intros statement (Hj & He & imports & Hin). repeat split; try assumption.
      exists imports. now right. }
    unfold postModule in Hstep.
    destruct (Index.includes (existingJestMocks st) path0) eqn:Hexisting.
    { injection Hstep as <-. exists added. split; [reflexivity|].
      split; [now apply sublist_cons | exact Hweaken]. }
    destruct (existsb (refuses (mocks st)) imports0); [discriminate|].
    destruct (Nat.eqb _ 0).
    { injection Hstep as <-. exists added. split; [reflexivity|].
      split; [now apply sublist_cons | exact Hweaken]. }
    unfold buildJestMockForModule in Hstep. unfold_bind.
    destruct (createModuleMockImpl config path0 _) as [impl|]; [|discriminate].
    injection Hstep as <-.
    eexists (added ++ [_]). split; [now rewrite <- app_assoc|].
    split.
    + rewrite map_app, rev_app_distr. simpl. now apply sublist_skip.
    + apply Forall_app. split; [exact Hweaken|].
      constructor; [|constructor]. cbn [jest_object source].
      repeat split; [exact Hexisting|]. exists imports0. now left.
Qed.

(** X25. In the configurable version every statement [post] puts on top of
    the body calls [mock] on the configured jest identifier, for a module
    that is imported and not suppressed, and the statements read there in
    the reverse of the order of the import table. *)
Theorem X25_configurable_statements_are_for_imported_modules
    (config : PluginConfiguration) (st : PluginState)
    (top : list JestMockStatement) :
  post config st = Ok top ->
  rev (map source top) `sublist_of` okeys (importIdentifiers st)
  /\ Forall (fun statement =>
               jest_object statement = jestIdentifier config
               /\ Index.includes (existingJestMocks st) (source statement) = false
               /\ exists imports,
                   In (source statement, imports) (importIdentifiers st))
       top.
Proof.
  unfold post.
  destruct (negb (program st)).
  { intros [= <-]. split; [apply sublist_nil_l | constructor]. }
  destruct (Nat.eqb (length (mocks st)) 0
            || Nat.eqb (length (importIdentifiers st)) 0).
  { intros [= <-]. split; [apply sublist_nil_l | constructor]. }
  intros H.
  destruct (configurable_post_statements config st _ [] top H)
    as (added & -> & Horder & Hall).
  rewrite app_nil_r. now split.
Qed.

(** The state of [import A from "./a"; import { B } from "./b";
     import C from "./c"; jest.mock("./b");
     mock.fn(A); mock.name(B); mock.name(C);] under a configuration with
    the jest identifier [mock]. *)
Lemma X25_configurable_statements_witness :
  rev (map source
         [ {| jest_object := "mock";
            source := "./c";
            factory :=
              {| template_modulePath := None;
                 template_statements := [];
                 OBJECT_EXP :=
                   ObjectExpression
                     [ObjectProperty (StringLiteral "default") (StringLiteral "C")] |} |};
         {| jest_object := "mock";
            source := "./a";
            factory :=
              {| template_modulePath := None;
                 template_statements := [buildNameStatement "default" "A"];
                 OBJECT_EXP :=
                   ObjectExpression
                     [ObjectProperty (StringLiteral "default") (mockFnNamed "A")] |} |} ])
  `sublist_of` ["./a"; "./b"; "./c"]
  /\ Forall (fun statement =>
               jest_object statement = "mock"
               /\ Index.includes ["./b"] (source statement) = false
               /\ exists imports,
                   In (source statement, imports)
                      [ ("./a", [{| Index.name := "A"; Index.type := Index.type_default |}]);
                        ("./b", [{| Index.name := "B"; Index.type := Index.type_import |}]);
                        ("./c", [{| Index.name := "C"; Index.type := Index.type_default |}]) ])
       [ {| jest_object := "mock";
            source := "./c";
            factory :=
              {| template_modulePath := None;
                 template_statements := [];
                 OBJECT_EXP :=
                   ObjectExpression
                     [ObjectProperty (StringLiteral "default") (StringLiteral "C")] |} |};
         {| jest_object := "mock";
            source := "./a";
            factory :=
              {| template_modulePath := None;
                 template_statements := [buildNameStatement "default" "A"];
                 OBJECT_EXP :=
                   ObjectExpression
                     [ObjectProperty (StringLiteral "default") (mockFnNamed "A")] |} |} ].
Proof.
  apply (X25_configurable_statements_are_for_imported_modules
           {| jestIdentifier := "mock";
              identifiers :=
                [ {| name := "mock.name"; remove := true; type := Index.type_name |};
                  {| name := "mock.fn"; remove := true; type := Index.type_mock |} ];
              ignoreIdentifiers := ["jest.mock"];
              requireActual := false |}
           {| importIdentifiers :=
                [ ("./a", [{| Index.name := "A"; Index.type := Index.type_default |}]);
                  ("./b", [{| Index.name := "B"; Index.type := Index.type_import |}]);
                  ("./c", [{| Index.name := "C"; Index.type := Index.type_default |}]) ];
              mocks :=
                [ ("A", [{| subProperties := [];
                            expression := mockFnNamed "A";
                            mock_type := Index.type_mock |}]);
                  ("B", [{| subProperties := [];
                            expression := StringLiteral "B";
                            mock_type := Index.type_name |}]);
                  ("C", [{| subProperties := [];
                            expression := StringLiteral "C";
                            mock_type := Index.type_name |}]) ];
              existingJestMocks := ["./b"];
              program := true |}
           [ {| jest_object := "mock";
            source := "./c";
            factory :=
              {| template_modulePath := None;
                 template_statements := [];
                 OBJECT_EXP :=
                   ObjectExpression
                     [ObjectProperty (StringLiteral "default") (StringLiteral "C")] |} |};
         {| jest_object := "mock";
            source := "./a";
            factory :=
              {| template_modulePath := None;
                 template_statements := [buildNameStatement "default" "A"];
                 OBJECT_EXP :=
                   ObjectExpression
                     [ObjectProperty (StringLiteral "default") (mockFnNamed "A")] |} |} ]).
  reflexivity.
Defined.


(** ** The replacement of a request that gives none *)




End ConfigurableOutputFacts.
